(** * qPOS payment terminal server: session orchestrator, bank simulator
      and terminal channel

    A shallow embedding of the payment core of the repository:
    - [server.js] (class [PaymentTerminalServer]): the WebSocket handlers
      [handleTerminalReady], [handleNFCDetected], [handlePaymentCompleted],
      the bank flow [processNFCPaymentWithBank], [sendToTerminal],
      [sendPaymentRequest], [isTerminalConnected] and the [close] handler;
    - [models/Payment.js] and [models/Terminal.js]: constructors,
      [create], [findById], [update];
    - [services/TestBankAPI.js]: the bank simulator;
    - [routes/terminals.js]: the two routes that call [sendPaymentRequest].

    Conventions of the embedding.
    - The SQLite tables [payments] and [terminals] are finite maps keyed by
      the primary key.  An INSERT on an existing key is rejected (PRIMARY
      KEY), an UPDATE of a missing key changes nothing.
    - A WebSocket is a handle (a number); its [readyState] lives in the
      server state, and every [ws.send] is appended to [outbox].
    - [this.clients] is a JavaScript [Map]: an association list in
      insertion order.
    - A thrown JavaScript error is the [Thrown] outcome of a computation in
      a state-and-exception monad; the state survives a throw, as the
      mutations of a JavaScript object do.
    - Randomness ([Math.random], [randomUUID], [uuidv4]) and the clock
      ([new Date()]) are inputs of the functions that read them.
    - JavaScript numbers that are money amounts are integers (kopecks);
      probabilities are rationals. *)

From Stdlib Require Import ZArith QArith Qminmax Qround Ascii Lia.
From stdpp Require Import gmap strings list.

Close Scope Q_scope.
Open Scope Z_scope.

(** ** JavaScript values and strings *)

(** A JavaScript string as its sequence of UTF-16 code units.  Identifiers
    that reach the server from a client (terminal ids) are kept in this
    form, because the code calls [String.prototype.trim] on them. *)
Abbreviation ustring := (list N).

(** Code units of a literal written in ASCII. *)
Fixpoint u16 (s : string) : ustring :=
  match s with
  | EmptyString => []
  | String c s' => Ascii.N_of_ascii c :: u16 s'
  end.

(** ECMAScript WhiteSpace and LineTerminator code points, the characters
    [trim] strips. *)
Definition js_whitespace (c : N) : bool :=
  ((9 <=? c) && (c <=? 13) || (c =? 32) || (c =? 160) || (c =? 5760)
   || (8192 <=? c) && (c <=? 8202) || (c =? 8232) || (c =? 8233)
   || (c =? 8239) || (c =? 8287) || (c =? 12288) || (c =? 65279))%N.

Fixpoint trimStart (s : ustring) : ustring :=
  match s with
  | [] => []
  | c :: s' => if js_whitespace c then trimStart s' else s
  end.

Definition trimEnd (s : ustring) : ustring := rev (trimStart (rev s)).

Definition trim (s : ustring) : ustring := trimEnd (trimStart s).

(** The values a JSON message field can hold. *)
Inductive JsVal :=
| JUndefined
| JNull
| JBool (b : bool)
| JNum (n : Z)
| JStr (s : ustring)
| JObj.

(** [!!v] *)
Definition truthy (v : JsVal) : bool :=
  match v with
  | JUndefined | JNull => false
  | JBool b => b
  | JNum n => negb (n =? 0)
  | JStr s => match s with [] => false | _ => true end
  | JObj => true
  end.

(** [x || d] on strings and on integers. *)
Definition str_or (x d : string) : string :=
  if String.eqb x "" then d else x.

Definition opt_str_or (x : option string) (d : string) : string :=
  match x with Some s => str_or s d | None => d end.

Definition opt_num_or (x : option Z) (d : Z) : Z :=
  match x with Some n => if n =? 0 then d else n | None => d end.

(** The guard repeated at the top of the handlers:
    [!terminalId || typeof terminalId !== 'string' || terminalId.trim() === ''].
    [Some t] when the guard lets the string [t] through. *)
Definition checkTerminalId (terminalId : JsVal) : option ustring :=
  if negb (truthy terminalId) then None
  else match terminalId with
       | JStr s => match trim s with [] => None | _ => Some s end
       | _ => None
       end.

(** ** A JavaScript [Map] in insertion order *)

Module JsMap.
Section JsMap.
Context {K V : Type} `{EqDecision K}.

Fixpoint get (k : K) (m : list (K * V)) : option V :=
  match m with
  | [] => None
  | (k', v) :: m' => if decide (k = k') then Some v else get k m'
  end.

Definition has (k : K) (m : list (K * V)) : bool :=
  match get k m with Some _ => true | None => false end.

(** [set] keeps the position of an existing key. *)
Fixpoint set (k : K) (v : V) (m : list (K * V)) : list (K * V) :=
  match m with
  | [] => [(k, v)]
  | (k', v') :: m' =>
      if decide (k = k') then (k, v) :: m' else (k', v') :: set k v m'
  end.

Fixpoint delete (k : K) (m : list (K * V)) : list (K * V) :=
  match m with
  | [] => []
  | (k', v') :: m' =>
      if decide (k = k') then m' else (k', v') :: delete k m'
  end.

Definition keys (m : list (K * V)) : list K := m.*1.

(** First entry, in iteration order, whose value satisfies [f]. *)
Fixpoint find_entry (f : V → bool) (m : list (K * V)) : option (K * V) :=
  match m with
  | [] => None
  | (k, v) :: m' => if f v then Some (k, v) else find_entry f m'
  end.

(** A [Map] holds each key once. *)
Definition wf (m : list (K * V)) : Prop := NoDup (keys m).
End JsMap.
End JsMap.

(** ** Computations that mutate state and may throw *)

Inductive Outcome (A : Type) :=
| Returned (a : A)
| Thrown (message : string).
Arguments Returned {A} a.
Arguments Thrown {A} message.

Definition M (S A : Type) : Type := S → Outcome A * S.

#[global] Instance M_ret {S} : MRet (M S) := λ A a s, (Returned a, s).

#[global] Instance M_bind {S} : MBind (M S) := λ A B k c s,
  match c s with
  | (Returned a, s') => k a s'
  | (Thrown e, s') => (Thrown e, s')
  end.

Definition throw {S A} (message : string) : M S A := λ s, (Thrown message, s).

(** [try { body } catch (error) { handler(error.message) }] *)
Definition try_catch {S A} (body : M S A) (handler : string → M S A) : M S A :=
  λ s, match body s with
       | (Returned a, s') => (Returned a, s')
       | (Thrown e, s') => handler e s'
       end.

Definition get_state {S} : M S S := λ s, (Returned s, s).
Definition modify {S} (f : S → S) : M S unit := λ s, (Returned tt, f s).


(** ** models/Terminal.js *)

Module Terminal.
(** A row of the [terminals] table, and the object [new Terminal(row)]
    builds from it; the handlers below read these four properties. *)
Record t := mk {
  name : string;
  operator : string;
  status : string;
  location : string
}.

(** The constructor's defaults on a row. *)
Definition new (data : t) : t :=
  {| name := str_or (name data) "";
     operator := str_or (operator data) "";
     status := str_or (status data) "active";
     location := str_or (location data) "" |}.
End Terminal.

(** ** models/Payment.js *)

(** A time-valued property is either a [Date] object (from [new Date()])
    or the ISO-8601 text SQLite hands back for a DATETIME column.  Both
    carry the instant in milliseconds. *)
Inductive DateValue :=
| DateObj (t : Z)
| IsoText (t : Z).

(** [d.toISOString()]: a method of [Date], absent on a string. *)
Definition toISOString {S} (what : string) (d : DateValue) : M S Z :=
  match d with
  | DateObj t => mret t
  | IsoText _ => throw (what +:+ ".toISOString is not a function")
  end.

(** A row of the [payments] table, without its primary key [id]: the
    table is a map from the key to the other columns. *)
Module PaymentRow.
Record t := mk {
  terminal_id : ustring;
  amount : Z;
  currency : string;
  method : string;
  status : string;
  bank_transaction_id : option string;
  error_code : option string;
  created_at : Z;
  completed_at : option Z
}.
End PaymentRow.

(** The card payload of an [nfc_detected] message. *)
Module NfcData.
Record t := mk {
  amount : option Z;
  currency : option string;
  cardNumber : option string;
  cardType : option string;
  timestamp : option Z
}.
End NfcData.

Module Payment.
Record t := mk {
  id : string;
  terminalId : ustring;
  amount : Z;
  currency : string;
  method : string;
  status : string;
  bankTransactionId : option string;
  errorCode : option string;
  createdAt : DateValue;
  completedAt : option DateValue;
  nfcData : option NfcData.t
}.

(** The object literal passed to [Payment.create]. *)
Record data := mk_data {
  d_terminalId : ustring;
  d_amount : option Z;
  d_currency : string;
  d_method : string;
  d_status : string;
  d_nfcData : option NfcData.t
}.

(** The keys the server passes to [update]; [None] is an absent key. *)
Record updateData := mk_update {
  u_method : option string;
  u_status : option string;
  u_bankTransactionId : option string;
  u_errorCode : option (option string);
  u_completedAt : option Z;
  u_nfcData : option NfcData.t
}.

Definition falsy_to_null (x : option string) : option string :=
  match x with
  | Some s => if String.eqb s "" then None else Some s
  | None => None
  end.

(** [new Payment(paymentData)]; [uuid] is the value [uuidv4()] returns
    and [now] the clock.  The constructor does not read [nfcData]. *)
Definition new (uuid : string) (now : Z) (d : data) : t :=
  {| id := uuid;
     terminalId := d_terminalId d;
     amount := opt_num_or (d_amount d) 0;
     currency := str_or (d_currency d) "RUB";
     method := str_or (d_method d) "";
     status := str_or (d_status d) "pending";
     bankTransactionId := None;
     errorCode := None;
     createdAt := DateObj now;
     completedAt := None;
     nfcData := None |}.

(** [new Payment(row)], as [findById] calls it on the row of key [i]. *)
Definition of_row (uuid : string) (i : string) (r : PaymentRow.t) : t :=
  {| id := str_or i uuid;
     terminalId := PaymentRow.terminal_id r;
     amount := PaymentRow.amount r;
     currency := str_or (PaymentRow.currency r) "RUB";
     method := PaymentRow.method r;
     status := str_or (PaymentRow.status r) "pending";
     bankTransactionId := falsy_to_null (PaymentRow.bank_transaction_id r);
     errorCode := falsy_to_null (PaymentRow.error_code r);
     createdAt := IsoText (PaymentRow.created_at r);
     completedAt := IsoText <$> PaymentRow.completed_at r;
     nfcData := None |}.

(** The first half of [update]: the assignments to [this]. *)
Definition assign (u : updateData) (p : t) : t :=
  {| id := id p;
     terminalId := terminalId p;
     amount := amount p;
     currency := currency p;
     method := default (method p) (u_method u);
     status := default (status p) (u_status u);
     bankTransactionId :=
       match u_bankTransactionId u with
       | Some b => Some b
       | None => bankTransactionId p
       end;
     errorCode :=
       match u_errorCode u with Some e => e | None => errorCode p end;
     createdAt := createdAt p;
     completedAt :=
       match u_completedAt u with
       | Some d => Some (DateObj d)
       | None => completedAt p
       end;
     nfcData :=
       match u_nfcData u with Some n => Some n | None => nfcData p end |}.
End Payment.

(** ** services/TestBankAPI.js *)

Module AuthResult.
Record t := mk {
  success : bool;
  transactionId : string;
  authCode : option string;
  amount : option Z;
  currency : option string;
  errorCode : option string;
  errorMessage : option string;
  timestamp : Z;
  status : string
}.
End AuthResult.

Module CaptureResult.
Record t := mk {
  success : bool;
  transactionId : string;
  capturedAmount : option Z;
  errorCode : option string;
  errorMessage : option string;
  timestamp : Z;
  status : string
}.
End CaptureResult.

(** The object [processNFCPaymentWithBank] hands to [authorizePayment]. *)
Module BankPaymentData.
Record t := mk {
  amount : Z;
  currency : string;
  terminalId : ustring;
  paymentId : string;
  cardNumber : string;
  cardType : string;
  timestamp : option Z
}.
End BankPaymentData.

(** [a < b] on rationals, as a boolean. *)
Definition Qltb (a b : Q) : bool := negb (Qle_bool b a).

Module TestBankAPI.
Record t := mk {
  successRate : Q;
  responseDelay : Z
}.

Record options := mk_options {
  o_successRate : option Q;
  o_responseDelay : option Z
}.

(** [x || d] on a rational: zero and [undefined] are falsy. *)
Definition rate_or (x : option Q) (d : Q) : Q :=
  match x with
  | Some q => if Qeq_bool q 0 then d else q
  | None => d
  end.

(** [constructor(options = {})] *)
Definition new (o : options) : t :=
  {| successRate := rate_or (o_successRate o) (9 # 10);
     responseDelay := opt_num_or (o_responseDelay o) 500 |}.

Definition errorCodes : list (string * string) :=
  [ ("INSUFFICIENT_FUNDS", "E001");
    ("CARD_BLOCKED", "E002");
    ("NETWORK_ERROR", "E003");
    ("INVALID_CARD", "E004");
    ("EXPIRED_CARD", "E005");
    ("TRANSACTION_DECLINED", "E006") ].

(** Property lookup in an object literal. *)
Fixpoint prop (key : string) (obj : list (string * string)) : option string :=
  match obj with
  | [] => None
  | (k, v) :: obj' => if String.eqb key k then Some v else prop key obj'
  end.

Definition messages : list (string * string) :=
  [ ("E001", "Insufficient funds");
    ("E002", "Card is blocked");
    ("E003", "Network connection error");
    ("E004", "Invalid card data");
    ("E005", "Card has expired");
    ("E006", "Transaction declined by issuer") ].

(** [getErrorMessage(errorCode)]; the argument is [None] for [undefined]. *)
Definition getErrorMessage (errorCode : option string) : string :=
  match errorCode ≫= (λ c, prop c messages) with
  | Some m => str_or m "Unknown error"
  | None => "Unknown error"
  end.

(** [generateRandomError()], [r] being the value of [Math.random()]. *)
Definition generateRandomError (r : Q) : option string * string :=
  let errorKeys := errorCodes.*1 in
  let index := Qfloor (r * inject_Z (Z.of_nat (length errorKeys))) in
  let randomKey :=
    if index <? 0 then None else errorKeys !! Z.to_nat index in
  let code := randomKey ≫= (λ k, prop k errorCodes) in
  (code, getErrorMessage code).

(** Digit [d] of a number printed in base 36. *)
Definition digit36 (d : N) : Ascii.ascii :=
  default "?"%char
    (String.get (N.to_nat d) "0123456789abcdefghijklmnopqrstuvwxyz").

Fixpoint digits36 (ds : list N) : string :=
  match ds with
  | [] => ""
  | d :: ds' => String (digit36 d) (digits36 ds')
  end.

(** [x.toString(36)] for [x] in [0,1) given by the base-36 digits of its
    fraction; zero prints as ["0"]. *)
Definition toString36 (fraction : list N) : string :=
  match fraction with
  | [] => "0"
  | _ => "0." +:+ digits36 fraction
  end.

Definition upper (c : Ascii.ascii) : Ascii.ascii :=
  let n := Ascii.N_of_ascii c in
  if ((97 <=? n) && (n <=? 122))%N then Ascii.ascii_of_N (n - 32) else c.

Fixpoint toUpperCase (s : string) : string :=
  match s with
  | EmptyString => EmptyString
  | String c s' => String (upper c) (toUpperCase s')
  end.

(** [generateAuthCode()]: [Math.random().toString(36).substring(2, 8).toUpperCase()] *)
Definition generateAuthCode (fraction : list N) : string :=
  toUpperCase (String.substring 2 6 (toString36 fraction)).

(** What one [authorizePayment] call reads from its environment, in the
    order of the reads. *)
Record authDraws := mk_authDraws {
  outcome_random : Q;
  transaction_uuid : string;
  clock : Z;
  authcode_random : list N;
  error_random : Q
}.

Definition authorizePayment (api : t) (d : authDraws)
    (paymentData : BankPaymentData.t) : AuthResult.t :=
  let isSuccess := Qltb (outcome_random d) (successRate api) in
  let transactionId := transaction_uuid d in
  let timestamp := clock d in
  if isSuccess then
    {| AuthResult.success := true;
       AuthResult.transactionId := transactionId;
       AuthResult.authCode := Some (generateAuthCode (authcode_random d));
       AuthResult.amount := Some (BankPaymentData.amount paymentData);
       AuthResult.currency := Some (BankPaymentData.currency paymentData);
       AuthResult.errorCode := None;
       AuthResult.errorMessage := None;
       AuthResult.timestamp := timestamp;
       AuthResult.status := "authorized" |}
  else
    let error := generateRandomError (error_random d) in
    {| AuthResult.success := false;
       AuthResult.transactionId := transactionId;
       AuthResult.authCode := None;
       AuthResult.amount := None;
       AuthResult.currency := None;
       AuthResult.errorCode := error.1;
       AuthResult.errorMessage := Some error.2;
       AuthResult.timestamp := timestamp;
       AuthResult.status := "declined" |}.

Record captureDraws := mk_captureDraws {
  capture_random : Q;
  capture_clock : Z
}.

Definition capturePayment (d : captureDraws) (transactionId : string)
    (amount : option Z) : CaptureResult.t :=
  let isSuccess := Qltb (capture_random d) (99 # 100) in
  if isSuccess then
    {| CaptureResult.success := true;
       CaptureResult.transactionId := transactionId;
       CaptureResult.capturedAmount := amount;
       CaptureResult.errorCode := None;
       CaptureResult.errorMessage := None;
       CaptureResult.timestamp := capture_clock d;
       CaptureResult.status := "captured" |}
  else
    {| CaptureResult.success := false;
       CaptureResult.transactionId := transactionId;
       CaptureResult.capturedAmount := None;
       CaptureResult.errorCode := Some "E007";
       CaptureResult.errorMessage :=
         Some "Capture failed - authorization expired";
       CaptureResult.timestamp := capture_clock d;
       CaptureResult.status := "capture_failed" |}.

(** [setSuccessRate(rate)]: [Math.max(0, Math.min(1, rate))] *)
Definition setSuccessRate (rate : Q) (api : t) : t :=
  {| successRate := Qmax 0 (Qmin 1 rate);
     responseDelay := responseDelay api |}.

(** [setResponseDelay(delay)] *)
Definition setResponseDelay (delay : Z) (api : t) : t :=
  {| successRate := successRate api;
     responseDelay := Z.max 0 delay |}.
End TestBankAPI.

(** The two bank calls the orchestrator makes, as it sees them: each
    promise either resolves with a result or rejects.  A value of this type
    fixes what the bank answers during one run of a handler. *)
Module BankAPI.
Record t := mk {
  authorizePayment : BankPaymentData.t → Outcome AuthResult.t;
  capturePayment : string → Z → Outcome CaptureResult.t
}.
End BankAPI.

(** The simulator behind that interface: its promises always resolve. *)
Definition TestBankAPI_bank (api : TestBankAPI.t)
    (da : TestBankAPI.authDraws) (dc : TestBankAPI.captureDraws) : BankAPI.t :=
  {| BankAPI.authorizePayment := λ paymentData,
       Returned (TestBankAPI.authorizePayment api da paymentData);
     BankAPI.capturePayment := λ transactionId amount,
       Returned (TestBankAPI.capturePayment dc transactionId (Some amount)) |}.

(** ** server.js: messages and state *)

(** The [result] object of a [payment_completed] message. *)
Module CompletionResult.
Record t := mk {
  status : string;
  bankTransactionId : option string;
  errorCode : option string
}.
End CompletionResult.

(** What a [payment_status] message carries besides its fixed fields. *)
Inductive StatusDetail :=
| NoDetail
| ErrorText (error : string)
| ResultEcho (result : CompletionResult.t)
| Approved (amount : Z) (transactionId : string) (authCode : option string)
| Declined (errorCode : option string) (errorMessage : option string).

(** Server-to-terminal messages, before [JSON.stringify]. *)
Inductive Message :=
| error_message (message : string) (error : option string)
    (receivedType : option string)
| terminal_config (terminalId : ustring) (config : Terminal.t)
    (status : option string) (timestamp : Z)
| payment_request (paymentId : string) (amount : Z) (currency method : string)
    (testPayment : bool) (timestamp : Z)
| payment_status (paymentId : option string) (status message : string)
    (detail : StatusDetail) (timestamp : Z).

(** Terminal-to-server messages, by their [type]. *)
Inductive Event :=
| terminal_ready (terminalId : JsVal)
| nfc_detected (terminalId : JsVal) (paymentId : option string)
    (nfcData : NfcData.t)
| payment_completed (terminalId : JsVal) (paymentId : option string)
    (result : CompletionResult.t)
| unknown_event (type : string).

Abbreviation Conn := nat.

Definition CONNECTING : N := 0.
Definition OPEN : N := 1.
Definition CLOSING : N := 2.
Definition CLOSED : N := 3.

Inductive BankCall :=
| CallAuthorize (paymentData : BankPaymentData.t)
| CallCapture (transactionId : string) (amount : Z).

(** The state the handlers read and write: [this.clients], the
    [readyState] of every socket, the two tables of [this.db], and three
    traces in the order of the calls: what was passed to [ws.send], the
    calls made on [this.bankAPI], and the lines [Payment.logTransaction]
    printed (payment id and action). *)
Record Server := mkServer {
  clients : list (ustring * Conn);
  readyState : Conn → N;
  terminals : gmap ustring Terminal.t;
  payments : gmap string PaymentRow.t;
  outbox : list (Conn * Message);
  bank_calls : list BankCall;
  transaction_log : list (string * string)
}.

Definition with_clients (f : list (ustring * Conn) → list (ustring * Conn))
    (s : Server) : Server :=
  mkServer (f (clients s)) (readyState s) (terminals s) (payments s)
    (outbox s) (bank_calls s) (transaction_log s).

Definition with_readyState (f : (Conn → N) → Conn → N) (s : Server) : Server :=
  mkServer (clients s) (f (readyState s)) (terminals s) (payments s)
    (outbox s) (bank_calls s) (transaction_log s).

Definition with_payments
    (f : gmap string PaymentRow.t → gmap string PaymentRow.t)
    (s : Server) : Server :=
  mkServer (clients s) (readyState s) (terminals s) (f (payments s))
    (outbox s) (bank_calls s) (transaction_log s).

Definition with_outbox
    (f : list (Conn * Message) → list (Conn * Message)) (s : Server) : Server :=
  mkServer (clients s) (readyState s) (terminals s) (payments s)
    (f (outbox s)) (bank_calls s) (transaction_log s).

Definition with_bank_calls (f : list BankCall → list BankCall)
    (s : Server) : Server :=
  mkServer (clients s) (readyState s) (terminals s) (payments s)
    (outbox s) (f (bank_calls s)) (transaction_log s).

Definition with_transaction_log
    (f : list (string * string) → list (string * string))
    (s : Server) : Server :=
  mkServer (clients s) (readyState s) (terminals s) (payments s)
    (outbox s) (bank_calls s) (f (transaction_log s)).

(** [ws.send(JSON.stringify(message))] *)
Definition ws_send (ws : Conn) (message : Message) : M Server unit :=
  modify (with_outbox (λ o, o ++ [(ws, message)])).

(** The state of a handler that holds a [Payment] object: the object
    (mutated in place by [update]) next to the server. *)
Record Flow := mkFlow {
  payment : Payment.t;
  server : Server
}.

Definition lift {A} (c : M Server A) : M Flow A :=
  λ f, let '(r, s') := c (server f) in (r, mkFlow (payment f) s').

(** Run a computation on the object [p]; the object is dropped at the end,
    as a local variable is. *)
Definition with_payment {A} (p : Payment.t) (c : M Flow A) : M Server A :=
  λ s, let '(r, f) := c (mkFlow p s) in (r, server f).

Definition this : M Flow Payment.t := λ f, (Returned (payment f), f).

(** ** The [payments] table *)

(** [INSERT INTO payments ...]: the primary key rejects a duplicate. *)
Definition db_insert_payment (id : string) (r : PaymentRow.t) : M Server unit :=
  λ s, match payments s !! id with
       | Some _ =>
           (Thrown "SQLITE_CONSTRAINT: UNIQUE constraint failed: payments.id", s)
       | None => (Returned tt, with_payments (<[id := r]>) s)
       end.

(** [UPDATE payments SET terminal_id = ?, amount = ?, currency = ?,
    method = ?, status = ?, bank_transaction_id = ?, error_code = ?,
    completed_at = ? WHERE id = ?], with [result.changes > 0]. *)
Definition db_update_payment (terminal_id : ustring) (amount : Z)
    (currency method status : string)
    (bank_transaction_id error_code : option string)
    (completed_at : option Z) (id : string) : M Server bool :=
  λ s, match payments s !! id with
       | Some old =>
           let r := PaymentRow.mk terminal_id amount currency method status
                      bank_transaction_id error_code
                      (PaymentRow.created_at old) completed_at in
           (Returned true, with_payments (<[id := r]>) s)
       | None => (Returned false, s)
       end.

(** [payment.completedAt ? payment.completedAt.toISOString() : null] *)
Definition completedAt_param {S} (p : Payment.t) : M S (option Z) :=
  match Payment.completedAt p with
  | Some d => t ← toISOString "this.completedAt" d; mret (Some t)
  | None => mret None
  end.

(** ** server.js and the models' database methods *)

Definition truthy_str (x : option string) : bool :=
  match x with
  | Some s => negb (String.eqb s "")
  | None => false
  end.

(** The body of a payment request as the routes pass it on. *)
Module RequestData.
Record t := mk {
  amount : option Z;
  currency : option string;
  method : option string;
  testPayment : option bool
}.
End RequestData.

(** What a route answers: the HTTP status, and the payment or the error
    text of the JSON body. *)
Record Response := mkResponse {
  http_status : Z;
  body_payment : option Payment.t;
  body_error : option string
}.

Section PaymentTerminalServer.
(** The clock [new Date()], the id [uuidv4()] hands out, and the answers
    of [this.bankAPI] during the run. *)
Variable now : Z.
Variable uuidv4 : string.
Variable bankAPI : BankAPI.t.

(** [Payment.create(db, paymentData)] *)
Definition Payment_create (paymentData : Payment.data) : M Server Payment.t :=
  let payment := Payment.new uuidv4 now paymentData in
  created_at ← toISOString "payment.createdAt" (Payment.createdAt payment);
  completed_at ← completedAt_param payment;
  db_insert_payment (Payment.id payment)
    (PaymentRow.mk (Payment.terminalId payment)
       (Payment.amount payment) (Payment.currency payment)
       (Payment.method payment) (Payment.status payment)
       (Payment.bankTransactionId payment) (Payment.errorCode payment)
       created_at completed_at);;
  mret payment.

(** [Payment.findById(db, id)]; [None] is an [undefined] id, which
    matches no row. *)
Definition Payment_findById (id : option string) : M Server (option Payment.t) :=
  s ← get_state;
  mret (id ≫= (λ i, Payment.of_row uuidv4 i <$> payments s !! i)).

(** [payment.update(db, updateData)] *)
Definition Payment_update (updateData : Payment.updateData) : M Flow bool :=
  modify (λ f, mkFlow (Payment.assign updateData (payment f)) (server f));;
  p ← this;
  completed_at ← completedAt_param p;
  lift (db_update_payment (Payment.terminalId p) (Payment.amount p)
          (Payment.currency p) (Payment.method p) (Payment.status p)
          (Payment.bankTransactionId p) (Payment.errorCode p)
          completed_at (Payment.id p)).

(** [Payment.logTransaction(db, payment, action)]: one console line. *)
Definition Payment_logTransaction (action : string) : M Flow unit :=
  p ← this;
  lift (modify (with_transaction_log (λ l, l ++ [(Payment.id p, action)]))).

Definition bank_authorizePayment (d : BankPaymentData.t) : M Flow AuthResult.t :=
  lift (modify (with_bank_calls (λ l, l ++ [CallAuthorize d])));;
  match BankAPI.authorizePayment bankAPI d with
  | Returned r => mret r
  | Thrown e => throw e
  end.

Definition bank_capturePayment (transactionId : string) (amount : Z)
    : M Flow CaptureResult.t :=
  lift (modify (with_bank_calls (λ l, l ++ [CallCapture transactionId amount])));;
  match BankAPI.capturePayment bankAPI transactionId amount with
  | Returned r => mret r
  | Thrown e => throw e
  end.

(** [sendToTerminal(terminalId, message)] *)
Definition sendToTerminal (terminalId : ustring) (message : Message)
    : M Server bool :=
  s ← get_state;
  match JsMap.get terminalId (clients s) with
  | Some client =>
      if (readyState s client =? OPEN)%N
      then ws_send client message;; mret true
      else mret false
  | None => mret false
  end.

(** [sendPaymentStatusUpdate(terminalId, paymentId, status, message, additionalData)] *)
Definition sendPaymentStatusUpdate (terminalId : ustring) (paymentId : string)
    (status message : string) (additionalData : StatusDetail) : M Server bool :=
  sendToTerminal terminalId
    (payment_status (Some paymentId) status message additionalData now).

(** [sendTerminalConfig(terminalId, config)] *)
Definition sendTerminalConfig (terminalId : ustring) (config : Terminal.t)
    : M Server bool :=
  sendToTerminal terminalId (terminal_config terminalId config None now).

(** [getConnectedTerminals()] *)
Definition getConnectedTerminals (s : Server) : list ustring :=
  JsMap.keys (clients s).

(** [isTerminalConnected(terminalId)] *)
Definition isTerminalConnected (terminalId : JsVal) (s : Server) : bool :=
  match checkTerminalId terminalId with
  | None => false
  | Some t =>
      match JsMap.get t (clients s) with
      | Some client => (readyState s client =? 1)%N
      | None => false
      end
  end.

(** The ['close'] listener of [setupWebSocket]. *)
Definition on_close (ws : Conn) : M Server unit :=
  s ← get_state;
  match JsMap.find_entry (λ client, bool_decide (client = ws)) (clients s) with
  | Some (terminalId, _) => modify (with_clients (JsMap.delete terminalId))
  | None => mret tt
  end.

(** A socket closes: the [ws] library sets its [readyState] to [CLOSED]
    and then emits ['close']. *)
Definition close_connection (ws : Conn) : M Server unit :=
  modify (with_readyState (λ st c, if decide (c = ws) then CLOSED else st c));;
  on_close ws.

(** [handleTerminalReady(ws, data)] *)
Definition handleTerminalReady (ws : Conn) (terminalId : JsVal) : M Server unit :=
  match checkTerminalId terminalId with
  | None =>
      ws_send ws (error_message "Valid Terminal ID is required" None None)
  | Some terminalId =>
      s ← get_state;
      match Terminal.new <$> terminals s !! terminalId with
      | None => ws_send ws (error_message "Terminal not found" None None)
      | Some terminal =>
          modify (with_clients (JsMap.set terminalId ws));;
          ws_send ws (terminal_config terminalId terminal (Some "connected") now)
      end
  end.

(** The object [bankPaymentData] built at the top of
    [processNFCPaymentWithBank]. *)
Definition bankPaymentData (payment : Payment.t) (nfcData : NfcData.t)
    : BankPaymentData.t :=
  BankPaymentData.mk (Payment.amount payment) (Payment.currency payment)
    (Payment.terminalId payment) (Payment.id payment)
    (opt_str_or (NfcData.cardNumber nfcData) "**** **** **** ****")
    (opt_str_or (NfcData.cardType nfcData) "unknown")
    (NfcData.timestamp nfcData).

(** [processNFCPaymentWithBank(ws, terminalId, payment, nfcData)]; the
    object [payment] is the one the flow state holds.  [ws] is not used
    by the body. *)
Definition processNFCPaymentWithBank (ws : option Conn) (terminalId : ustring)
    (nfcData : NfcData.t) : M Flow unit :=
  try_catch
    (payment ← this;
     authResult ← bank_authorizePayment (bankPaymentData payment nfcData);
     if AuthResult.success authResult then
       Payment_update
         (Payment.mk_update None (Some "authorized")
            (Some (AuthResult.transactionId authResult)) None None None);;
       Payment_logTransaction "bank_authorized";;
       payment ← this;
       captureResult ← bank_capturePayment (AuthResult.transactionId authResult)
                         (Payment.amount payment);
       if CaptureResult.success captureResult then
         Payment_update
           (Payment.mk_update None (Some "completed") None None (Some now) None);;
         Payment_logTransaction "completed";;
         payment ← this;
         lift (sendPaymentStatusUpdate terminalId (Payment.id payment)
                 "completed" "Payment successful"
                 (Approved (Payment.amount payment)
                    (AuthResult.transactionId authResult)
                    (AuthResult.authCode authResult)));;
         mret tt
       else
         Payment_update
           (Payment.mk_update None (Some "failed") None
              (Some (CaptureResult.errorCode captureResult)) None None);;
         Payment_logTransaction "capture_failed";;
         payment ← this;
         lift (sendPaymentStatusUpdate terminalId (Payment.id payment)
                 "failed" "Payment capture failed"
                 (Declined (CaptureResult.errorCode captureResult)
                    (CaptureResult.errorMessage captureResult)));;
         mret tt
     else
       Payment_update
         (Payment.mk_update None (Some "failed")
            (Some (AuthResult.transactionId authResult))
            (Some (AuthResult.errorCode authResult)) None None);;
       Payment_logTransaction "auth_failed";;
       payment ← this;
       lift (sendPaymentStatusUpdate terminalId (Payment.id payment)
               "failed" "Payment authorization failed"
               (Declined (AuthResult.errorCode authResult)
                  (AuthResult.errorMessage authResult)));;
       mret tt)
    (λ error,
       Payment_update
         (Payment.mk_update None (Some "failed") None (Some (Some "E003"))
            None None);;
       Payment_logTransaction "bank_error";;
       payment ← this;
       lift (sendPaymentStatusUpdate terminalId (Payment.id payment)
               "failed" "Bank communication error"
               (Declined (Some "E003") (Some "Network connection error")));;
       mret tt).

(** The tail of [handleNFCDetected] once [payment] is bound. *)
Definition nfc_process (ws : Conn) (terminalId : ustring)
    (nfcData : NfcData.t) : M Flow unit :=
  Payment_logTransaction "nfc_detected";;
  payment ← this;
  lift (ws_send ws (payment_status (Some (Payment.id payment)) "processing"
                      "Processing NFC payment" NoDetail now));;
  processNFCPaymentWithBank (Some ws) terminalId nfcData.

(** [handleNFCDetected(ws, data)] *)
Definition handleNFCDetected (ws : Conn) (terminalId : JsVal)
    (paymentId : option string) (nfcData : NfcData.t) : M Server unit :=
  match checkTerminalId terminalId with
  | None =>
      ws_send ws (error_message "Valid Terminal ID is required" None None)
  | Some terminalId =>
      s ← get_state;
      if negb (JsMap.has terminalId (clients s)) then
        ws_send ws (error_message "Terminal not registered" None None)
      else
        try_catch
          (if truthy_str paymentId then
             found ← Payment_findById paymentId;
             match found with
             | None =>
                 ws_send ws (error_message "Payment not found" None None)
             | Some payment =>
                 with_payment payment
                   (Payment_update
                      (Payment.mk_update (Some "nfc") (Some "processing")
                         None None None (Some nfcData));;
                    nfc_process ws terminalId nfcData)
             end
           else
             payment ← Payment_create
               (Payment.mk_data terminalId
                  (Some (opt_num_or (NfcData.amount nfcData) 1000))
                  (opt_str_or (NfcData.currency nfcData) "RUB")
                  "nfc" "processing" (Some nfcData));
             with_payment payment (nfc_process ws terminalId nfcData))
          (λ error,
             ws_send ws (payment_status None "failed"
                           "Failed to process NFC payment"
                           (ErrorText error) now))
  end.

(** [handlePaymentCompleted(ws, data)] *)
Definition handlePaymentCompleted (ws : Conn) (terminalId : JsVal)
    (paymentId : option string) (result : CompletionResult.t) : M Server unit :=
  match checkTerminalId terminalId with
  | None =>
      ws_send ws (error_message "Valid Terminal ID is required" None None)
  | Some _ =>
      try_catch
        (found ← Payment_findById paymentId;
         match found with
         | None => ws_send ws (error_message "Payment not found" None None)
         | Some payment =>
             let updateData :=
               Payment.mk_update None
                 (Some (CompletionResult.status result))
                 (if truthy_str (CompletionResult.bankTransactionId result)
                  then CompletionResult.bankTransactionId result else None)
                 (if truthy_str (CompletionResult.errorCode result)
                  then Some (CompletionResult.errorCode result) else None)
                 (Some now) None in
             with_payment payment
               (Payment_update updateData;;
                Payment_logTransaction "payment_completed";;
                lift (ws_send ws
                        (payment_status paymentId
                           (CompletionResult.status result)
                           (if String.eqb (CompletionResult.status result)
                                 "completed"
                            then "Payment confirmed" else "Payment failed")
                           (ResultEcho result) now)))
         end)
        (λ error,
           ws_send ws (error_message "Failed to update payment status"
                         (Some error) None))
  end.

(** [handleWebSocketMessage(ws, data)] *)
Definition handleWebSocketMessage (ws : Conn) (data : Event) : M Server unit :=
  try_catch
    (match data with
     | terminal_ready terminalId => handleTerminalReady ws terminalId
     | nfc_detected terminalId paymentId nfcData =>
         handleNFCDetected ws terminalId paymentId nfcData
     | payment_completed terminalId paymentId result =>
         handlePaymentCompleted ws terminalId paymentId result
     | unknown_event type =>
         ws_send ws (error_message "Unknown message type" None (Some type))
     end)
    (λ error,
       ws_send ws (error_message "Internal server error" (Some error) None)).

(** [sendPaymentRequest(terminalId, paymentData)] *)
Definition sendPaymentRequest (terminalId : JsVal)
    (paymentData : RequestData.t) : M Server Payment.t :=
  match checkTerminalId terminalId with
  | None => throw "Valid Terminal ID is required"
  | Some terminalId =>
      try_catch
        (payment ← Payment_create
           (Payment.mk_data terminalId (RequestData.amount paymentData)
              (opt_str_or (RequestData.currency paymentData) "RUB")
              (opt_str_or (RequestData.method paymentData) "nfc")
              "pending" None);
         with_payment payment
           (Payment_logTransaction "payment_request";;
            payment ← this;
            success ← lift (sendToTerminal terminalId
              (payment_request (Payment.id payment) (Payment.amount payment)
                 (Payment.currency payment) (Payment.method payment)
                 (default false (RequestData.testPayment paymentData)) now));
            if negb success then
              Payment_update
                (Payment.mk_update None (Some "failed") None
                   (Some (Some "TERMINAL_OFFLINE")) None None);;
              throw "Terminal not connected"
            else this))
        (λ error, throw error)
  end.

(** routes/terminals.js, [POST /api/terminals/:id/payment-request] *)
Definition route_payment_request (id : ustring) (amount : option Z)
    (currency method : option string) : M Server Response :=
  try_catch
    (if match amount with Some a => (a =? 0) || (a <=? 0) | None => true end
     then mret (mkResponse 400 None (Some "Valid amount is required"))
     else
       s ← get_state;
       match terminals s !! id with
       | None => mret (mkResponse 404 None (Some "Terminal not found"))
       | Some _ =>
           if negb (isTerminalConnected (JStr id) s)
           then mret (mkResponse 400 None (Some "Terminal is not connected"))
           else
             payment ← sendPaymentRequest (JStr id)
               (RequestData.mk amount (Some (opt_str_or currency "RUB"))
                  (Some (opt_str_or method "nfc")) (Some false));
             mret (mkResponse 201 (Some payment) None)
       end)
    (λ error,
       mret (mkResponse 500 None
               (Some (str_or error "Failed to send payment request")))).

(** routes/terminals.js, [POST /api/terminals/:id/activate]; the
    destructuring defaults apply to absent fields only. *)
Definition route_activate (id : ustring) (amount : option Z)
    (currency method : option string) : M Server Response :=
  try_catch
    (s ← get_state;
     match terminals s !! id with
     | None => mret (mkResponse 404 None (Some "Terminal not found"))
     | Some _ =>
         if negb (isTerminalConnected (JStr id) s)
         then mret (mkResponse 400 None (Some "Terminal is not connected"))
         else
           payment ← sendPaymentRequest (JStr id)
             (RequestData.mk (Some (default 1000 amount))
                (Some (default "RUB" currency))
                (Some (default "nfc" method)) (Some false));
           mret (mkResponse 200 (Some payment) None)
     end)
    (λ error,
       mret (mkResponse 500 None
               (Some (str_or error "Failed to activate terminal")))).
End PaymentTerminalServer.


(** * More of the repository *)

(** ** models/Payment.js: [delete] *)

(** [DELETE FROM payments WHERE id = ?], with [result.changes > 0]. *)
Definition db_delete_payment (id : string) : M Server bool :=
  λ s, match payments s !! id with
       | Some _ => (Returned true, with_payments (delete id) s)
       | None => (Returned false, s)
       end.

(** [payment.delete(db)] *)
Definition Payment_delete : M Flow bool :=
  p ← this; lift (db_delete_payment (Payment.id p)).

(** ** models/Payment.js: [update] with any keys *)

Module PaymentUpdate.
(** One own property of the [updateData] object, by its key; the values
    have the type of the column they end in ([None] is [null]).
    [update] treats the keys [terminal_id], [bank_transaction_id],
    [error_code] and [completed_at] apart, skips [id], [createdAt] and
    [created_at], and assigns every other key to [this] under its own
    name; [key_other] is a key no later line of [update] reads. *)
Inductive entry :=
| key_terminalId (v : ustring)
| key_terminal_id (v : ustring)
| key_amount (v : Z)
| key_currency (v : string)
| key_method (v : string)
| key_status (v : string)
| key_bankTransactionId (v : option string)
| key_bank_transaction_id (v : option string)
| key_errorCode (v : option string)
| key_error_code (v : option string)
| key_completedAt (v : option DateValue)
| key_completed_at (v : option DateValue)
| key_nfcData (v : NfcData.t)
| key_id (v : string)
| key_createdAt (v : DateValue)
| key_created_at (v : DateValue)
| key_other (key : string).

(** The instant a [Date] or an ISO text stands for. *)
Definition instant (d : DateValue) : Z :=
  match d with DateObj t | IsoText t => t end.

(** The body of the [forEach] callback for one key. *)
Definition assign_entry (p : Payment.t) (e : entry) : Payment.t :=
  match e with
  | key_terminalId v | key_terminal_id v =>
      Payment.mk (Payment.id p) v (Payment.amount p) (Payment.currency p)
        (Payment.method p) (Payment.status p) (Payment.bankTransactionId p)
        (Payment.errorCode p) (Payment.createdAt p) (Payment.completedAt p)
        (Payment.nfcData p)
  | key_amount v =>
      Payment.mk (Payment.id p) (Payment.terminalId p) v (Payment.currency p)
        (Payment.method p) (Payment.status p) (Payment.bankTransactionId p)
        (Payment.errorCode p) (Payment.createdAt p) (Payment.completedAt p)
        (Payment.nfcData p)
  | key_currency v =>
      Payment.mk (Payment.id p) (Payment.terminalId p) (Payment.amount p) v
        (Payment.method p) (Payment.status p) (Payment.bankTransactionId p)
        (Payment.errorCode p) (Payment.createdAt p) (Payment.completedAt p)
        (Payment.nfcData p)
  | key_method v =>
      Payment.mk (Payment.id p) (Payment.terminalId p) (Payment.amount p)
        (Payment.currency p) v (Payment.status p) (Payment.bankTransactionId p)
        (Payment.errorCode p) (Payment.createdAt p) (Payment.completedAt p)
        (Payment.nfcData p)
  | key_status v =>
      Payment.mk (Payment.id p) (Payment.terminalId p) (Payment.amount p)
        (Payment.currency p) (Payment.method p) v (Payment.bankTransactionId p)
        (Payment.errorCode p) (Payment.createdAt p) (Payment.completedAt p)
        (Payment.nfcData p)
  | key_bankTransactionId v | key_bank_transaction_id v =>
      Payment.mk (Payment.id p) (Payment.terminalId p) (Payment.amount p)
        (Payment.currency p) (Payment.method p) (Payment.status p) v
        (Payment.errorCode p) (Payment.createdAt p) (Payment.completedAt p)
        (Payment.nfcData p)
  | key_errorCode v | key_error_code v =>
      Payment.mk (Payment.id p) (Payment.terminalId p) (Payment.amount p)
        (Payment.currency p) (Payment.method p) (Payment.status p)
        (Payment.bankTransactionId p) v (Payment.createdAt p)
        (Payment.completedAt p) (Payment.nfcData p)
  | key_completedAt v =>
      Payment.mk (Payment.id p) (Payment.terminalId p) (Payment.amount p)
        (Payment.currency p) (Payment.method p) (Payment.status p)
        (Payment.bankTransactionId p) (Payment.errorCode p)
        (Payment.createdAt p) v (Payment.nfcData p)
  | key_completed_at v =>
      Payment.mk (Payment.id p) (Payment.terminalId p) (Payment.amount p)
        (Payment.currency p) (Payment.method p) (Payment.status p)
        (Payment.bankTransactionId p) (Payment.errorCode p)
        (Payment.createdAt p) ((λ d, DateObj (instant d)) <$> v)
        (Payment.nfcData p)
  | key_nfcData v =>
      Payment.mk (Payment.id p) (Payment.terminalId p) (Payment.amount p)
        (Payment.currency p) (Payment.method p) (Payment.status p)
        (Payment.bankTransactionId p) (Payment.errorCode p)
        (Payment.createdAt p) (Payment.completedAt p) (Some v)
  | key_id _ | key_createdAt _ | key_created_at _ | key_other _ => p
  end.

(** [Object.keys(updateData).forEach(...)]: the keys in the order of the
    object. *)
Definition assign (u : list entry) (p : Payment.t) : Payment.t :=
  fold_left assign_entry u p.

(** The object literals the server passes, key by key. *)
Definition of_updateData (u : Payment.updateData) : list entry :=
  from_option (λ v, [key_method v]) [] (Payment.u_method u)
  ++ from_option (λ v, [key_status v]) [] (Payment.u_status u)
  ++ from_option (λ v, [key_bankTransactionId (Some v)]) []
       (Payment.u_bankTransactionId u)
  ++ from_option (λ v, [key_errorCode v]) [] (Payment.u_errorCode u)
  ++ from_option (λ v, [key_completedAt (Some (DateObj v))]) []
       (Payment.u_completedAt u)
  ++ from_option (λ v, [key_nfcData v]) [] (Payment.u_nfcData u).

(** What the entries of an object say about one column: the value of the
    last entry that writes it, if any. *)
Definition written {A} (column : entry → option A) (u : list entry)
    : option A :=
  last (omap column u).

Definition to_terminalId (e : entry) : option ustring :=
  match e with key_terminalId v | key_terminal_id v => Some v | _ => None end.
Definition to_amount (e : entry) : option Z :=
  match e with key_amount v => Some v | _ => None end.
Definition to_currency (e : entry) : option string :=
  match e with key_currency v => Some v | _ => None end.
Definition to_method (e : entry) : option string :=
  match e with key_method v => Some v | _ => None end.
Definition to_status (e : entry) : option string :=
  match e with key_status v => Some v | _ => None end.
Definition to_bankTransactionId (e : entry) : option (option string) :=
  match e with
  | key_bankTransactionId v | key_bank_transaction_id v => Some v
  | _ => None
  end.
Definition to_errorCode (e : entry) : option (option string) :=
  match e with key_errorCode v | key_error_code v => Some v | _ => None end.
Definition to_completedAt (e : entry) : option (option DateValue) :=
  match e with
  | key_completedAt v => Some v
  | key_completed_at v => Some ((λ d, DateObj (instant d)) <$> v)
  | _ => None
  end.
End PaymentUpdate.

(** [payment.update(db, updateData)] for any [updateData]. *)
Definition Payment_update_keys (updateData : list PaymentUpdate.entry)
    : M Flow bool :=
  modify (λ f, mkFlow (PaymentUpdate.assign updateData (payment f)) (server f));;
  p ← this;
  completed_at ← completedAt_param p;
  lift (db_update_payment (Payment.terminalId p) (Payment.amount p)
          (Payment.currency p) (Payment.method p) (Payment.status p)
          (Payment.bankTransactionId p) (Payment.errorCode p)
          completed_at (Payment.id p)).

(** ** models/Terminal.js: [create] *)

(** [INSERT INTO terminals ...]: the primary key rejects a duplicate.  The
    two timestamp columns are not part of [Terminal.t]. *)
Definition db_insert_terminal (id : ustring) (r : Terminal.t) : M Server unit :=
  λ s, match terminals s !! id with
       | Some _ =>
           (Thrown "SQLITE_CONSTRAINT: UNIQUE constraint failed: terminals.id", s)
       | None =>
           (Returned tt,
            mkServer (clients s) (readyState s) (<[id := r]> (terminals s))
              (payments s) (outbox s) (bank_calls s) (transaction_log s))
       end.

(** The id the constructor gives a terminal whose data carry a falsy
    [id]: [uuidv4()], and a second [uuidv4()] should the first be a string
    of white space. *)
Definition Terminal_default_id (uuid1 uuid2 : ustring) : ustring :=
  match trim uuid1 with
  | [] => uuid2
  | _ => uuid1
  end.

(** [Terminal.create(db, terminalData)]: the guard
    [terminalData.id && (typeof terminalData.id !== 'string' ||
    terminalData.id.trim() === '')], then the constructor and the INSERT.
    A truthy id that passes the guard is a string the constructor keeps.
    Returns the id next to the object. *)
Definition Terminal_create (uuid1 uuid2 : ustring) (id : JsVal)
    (terminalData : Terminal.t) : M Server (ustring * Terminal.t) :=
  let terminal := Terminal.new terminalData in
  if truthy id then
    match id with
    | JStr s =>
        match trim s with
        | [] => throw "Terminal ID must be a non-empty string"
        | _ => db_insert_terminal s terminal;; mret (s, terminal)
        end
    | _ => throw "Terminal ID must be a non-empty string"
    end
  else
    db_insert_terminal (Terminal_default_id uuid1 uuid2) terminal;;
    mret (Terminal_default_id uuid1 uuid2, terminal).

(** ** routes/bank.js *)

(** [POST /api/bank/config]: the status of the answer and the simulator
    afterwards.  The module-level simulator is retuned field by field, so
    a rate that passed its check stays set when the delay is refused. *)
Definition route_bank_config (successRate : option Q) (responseDelay : option Z)
    (bankAPI : TestBankAPI.t) : Z * TestBankAPI.t :=
  let after_rate :=
    match successRate with
    | Some rate =>
        if Qltb rate 0 || Qltb 1 rate then None
        else Some (TestBankAPI.setSuccessRate rate bankAPI)
    | None => Some bankAPI
    end in
  match after_rate with
  | None => (400, bankAPI)
  | Some bankAPI1 =>
      match responseDelay with
      | Some delay =>
          if delay <? 0 then (400, bankAPI1)
          else (200, TestBankAPI.setResponseDelay delay bankAPI1)
      | None => (200, bankAPI1)
      end
  end.

(** ** routes/payments.js *)

(** A word between double quotes. *)
Definition quoted (s : string) : string :=
  String (ascii_of_N 34) s +:+ String (ascii_of_N 34) EmptyString.

(** The part of a JSON answer that reports on the bank. *)
Inductive BankNote :=
| bankResponse (authCode : option string) (transactionId : string)
| bankError (code message : option string).

(** An answer of the payments routes: the HTTP status, the payment row of
    the body, its [error] text and its bank part. *)
Record Answer := mkAnswer {
  answer_status : Z;
  answer_row : option PaymentRow.t;
  answer_error : option string;
  answer_bank : option BankNote
}.

(** [UPDATE payments SET ... WHERE id = ?] on some of the columns. *)
Definition db_alter_payment (f : PaymentRow.t → PaymentRow.t) (id : string)
    : M Server unit :=
  modify (with_payments (alter f id)).

Definition set_status (status : string) (r : PaymentRow.t) : PaymentRow.t :=
  PaymentRow.mk (PaymentRow.terminal_id r) (PaymentRow.amount r)
    (PaymentRow.currency r) (PaymentRow.method r) status
    (PaymentRow.bank_transaction_id r) (PaymentRow.error_code r)
    (PaymentRow.created_at r) (PaymentRow.completed_at r).

Definition set_error_code (error_code : option string) (r : PaymentRow.t)
    : PaymentRow.t :=
  PaymentRow.mk (PaymentRow.terminal_id r) (PaymentRow.amount r)
    (PaymentRow.currency r) (PaymentRow.method r) (PaymentRow.status r)
    (PaymentRow.bank_transaction_id r) error_code
    (PaymentRow.created_at r) (PaymentRow.completed_at r).

Definition set_bank_transaction_id (id : option string) (r : PaymentRow.t)
    : PaymentRow.t :=
  PaymentRow.mk (PaymentRow.terminal_id r) (PaymentRow.amount r)
    (PaymentRow.currency r) (PaymentRow.method r) (PaymentRow.status r)
    id (PaymentRow.error_code r)
    (PaymentRow.created_at r) (PaymentRow.completed_at r).

Definition set_completed_at (t : option Z) (r : PaymentRow.t) : PaymentRow.t :=
  PaymentRow.mk (PaymentRow.terminal_id r) (PaymentRow.amount r)
    (PaymentRow.currency r) (PaymentRow.method r) (PaymentRow.status r)
    (PaymentRow.bank_transaction_id r) (PaymentRow.error_code r)
    (PaymentRow.created_at r) t.

Section PaymentsRoutes.
(** The clock, the id [randomUUID()] hands out, and the answers of the
    module's simulator during the run. *)
Variable now : Z.
Variable randomUUID : string.
Variable bankAPI : BankAPI.t.

(** [POST /api/payments/initiate].  The body fields have the types the
    route documents: [terminalId] and [method] strings (empty when absent),
    [amount] a number, [currency] a string. *)
Definition route_initiate (terminalId : ustring) (amount : option Z)
    (currency : option string) (method : string) : M Server Answer :=
  try_catch
    (let currency := default "RUB" currency in
     if match terminalId with [] => true | _ => false end
        || match amount with Some a => a =? 0 | None => true end
        || String.eqb method ""
     then mret (mkAnswer 400 None
                  (Some "Terminal ID, amount, and method are required") None)
     else
       let amount := default 0 amount in
       if (amount <=? 0) || (10000000 <? amount)
       then mret (mkAnswer 400 None
                    (Some "Amount must be between 1 and 10,000,000 kopecks (1 to 100,000 rubles)")
                    None)
       else if negb (String.eqb method "nfc" || String.eqb method "qr")
       then mret (mkAnswer 400 None
                    (Some ("Method must be either " +:+ quoted "nfc"
                           +:+ " or " +:+ quoted "qr")) None)
       else
         s ← get_state;
         match terminals s !! terminalId with
         | None => mret (mkAnswer 404 None (Some "Terminal not found") None)
         | Some _ =>
             db_insert_payment randomUUID
               (PaymentRow.mk terminalId amount currency method "pending"
                  None None now None);;
             s' ← get_state;
             mret (mkAnswer 201 (payments s' !! randomUUID) None None)
         end)
    (λ _, mret (mkAnswer 500 None (Some "Failed to initiate payment") None)).

(** [POST /api/payments/process]; [cardNumber] and [cardType] stand for
    the [cardData] of the body, which the bank receives as it came. *)
Definition route_process (paymentId : option string)
    (cardNumber cardType : string) : M Server Answer :=
  try_catch
    (if negb (truthy_str paymentId)
     then mret (mkAnswer 400 None (Some "Payment ID is required") None)
     else
       let paymentId := default "" paymentId in
       s ← get_state;
       match payments s !! paymentId with
       | None => mret (mkAnswer 404 None (Some "Payment not found") None)
       | Some payment =>
           if negb (String.eqb (PaymentRow.status payment) "pending")
           then mret (mkAnswer 400 None
                        (Some "Payment is not in pending status") None)
           else
             db_alter_payment (set_status "processing") paymentId;;
             try_catch
               (let request :=
                  BankPaymentData.mk (PaymentRow.amount payment)
                    (PaymentRow.currency payment)
                    (PaymentRow.terminal_id payment) paymentId
                    cardNumber cardType None in
                modify (with_bank_calls (λ l, l ++ [CallAuthorize request]));;
                authResult ←
                  match BankAPI.authorizePayment bankAPI request with
                  | Returned r => mret r
                  | Thrown e => throw e
                  end;
                if AuthResult.success authResult then
                  modify (with_bank_calls
                            (λ l, l ++ [CallCapture
                                          (AuthResult.transactionId authResult)
                                          (PaymentRow.amount payment)]));;
                  captureResult ←
                    match BankAPI.capturePayment bankAPI
                            (AuthResult.transactionId authResult)
                            (PaymentRow.amount payment) with
                    | Returned r => mret r
                    | Thrown e => throw e
                    end;
                  if CaptureResult.success captureResult then
                    db_alter_payment
                      (λ r, set_completed_at (Some now)
                              (set_bank_transaction_id
                                 (Some (AuthResult.transactionId authResult))
                                 (set_status "completed" r)))
                      paymentId;;
                    s' ← get_state;
                    mret (mkAnswer 200 (payments s' !! paymentId) None
                            (Some (bankResponse (AuthResult.authCode authResult)
                                     (AuthResult.transactionId authResult))))
                  else
                    db_alter_payment
                      (λ r, set_bank_transaction_id
                              (Some (AuthResult.transactionId authResult))
                              (set_error_code
                                 (CaptureResult.errorCode captureResult)
                                 (set_status "failed" r)))
                      paymentId;;
                    s' ← get_state;
                    mret (mkAnswer 402 (payments s' !! paymentId) None
                            (Some (bankError
                                     (CaptureResult.errorCode captureResult)
                                     (CaptureResult.errorMessage captureResult))))
                else
                  db_alter_payment
                    (λ r, set_bank_transaction_id
                            (Some (AuthResult.transactionId authResult))
                            (set_error_code (AuthResult.errorCode authResult)
                               (set_status "failed" r)))
                    paymentId;;
                  s' ← get_state;
                  mret (mkAnswer 402 (payments s' !! paymentId) None
                          (Some (bankError (AuthResult.errorCode authResult)
                                   (AuthResult.errorMessage authResult)))))
               (λ _,
                  db_alter_payment
                    (λ r, set_error_code (Some "E003") (set_status "failed" r))
                    paymentId;;
                  s' ← get_state;
                  mret (mkAnswer 500 (payments s' !! paymentId) None
                          (Some (bankError (Some "E003")
                                   (Some "Network connection error")))))
       end)
    (λ _, mret (mkAnswer 500 None (Some "Failed to process payment") None)).
End PaymentsRoutes.

(** * Vocabulary of the statements *)

(** A string with at least one character that [trim] keeps. *)
Definition nonblank (s : ustring) : Prop :=
  ∃ c, c ∈ s ∧ js_whitespace c = false.

(** What [sendToTerminal(terminalId, message)] hands to the transport in
    state [s]: the message on the stored connection if it is open, nothing
    otherwise. *)
Definition delivered (s : Server) (terminalId : ustring) (message : Message)
    : list (Conn * Message) :=
  match JsMap.get terminalId (clients s) with
  | Some client =>
      if (readyState s client =? OPEN)%N then [(client, message)] else []
  | None => []
  end.

(** The session an [nfc_detected] message works on is available: either
    the message names no payment and the id [uuidv4()] hands out is unused,
    or it names a stored payment whose [completed_at] column is empty. *)
Inductive session_ready (s : Server) (uuid : string)
  : option string → string → Prop :=
| ready_new paymentId :
    truthy_str paymentId = false →
    payments s !! uuid = None →
    session_ready s uuid paymentId uuid
| ready_existing pid row :
    pid ≠ "" →
    payments s !! pid = Some row →
    PaymentRow.completed_at row = None →
    session_ready s uuid (Some pid) pid.

(** The five ways through [processNFCPaymentWithBank] for the payment
    object [p], by what the bank answers: the columns [status],
    [bank_transaction_id], [error_code] and [completed_at] the last UPDATE
    writes, the [payment_status] message handed to [sendToTerminal], and
    the bank calls made. *)
Inductive bank_flow (now : Z) (bank : BankAPI.t) (p : Payment.t)
    (nfc : NfcData.t)
  : string → option string → option string → option Z →
    Message → list BankCall → Prop :=
| flow_authorize_thrown e :
    BankAPI.authorizePayment bank (bankPaymentData p nfc) = Thrown e →
    bank_flow now bank p nfc
      "failed" (Payment.bankTransactionId p) (Some "E003") None
      (payment_status (Some (Payment.id p)) "failed" "Bank communication error"
         (Declined (Some "E003") (Some "Network connection error")) now)
      [CallAuthorize (bankPaymentData p nfc)]
| flow_authorize_declined r :
    BankAPI.authorizePayment bank (bankPaymentData p nfc) = Returned r →
    AuthResult.success r = false →
    bank_flow now bank p nfc
      "failed" (Some (AuthResult.transactionId r)) (AuthResult.errorCode r) None
      (payment_status (Some (Payment.id p)) "failed"
         "Payment authorization failed"
         (Declined (AuthResult.errorCode r) (AuthResult.errorMessage r)) now)
      [CallAuthorize (bankPaymentData p nfc)]
| flow_capture_thrown r e :
    BankAPI.authorizePayment bank (bankPaymentData p nfc) = Returned r →
    AuthResult.success r = true →
    BankAPI.capturePayment bank (AuthResult.transactionId r) (Payment.amount p)
      = Thrown e →
    bank_flow now bank p nfc
      "failed" (Some (AuthResult.transactionId r)) (Some "E003") None
      (payment_status (Some (Payment.id p)) "failed" "Bank communication error"
         (Declined (Some "E003") (Some "Network connection error")) now)
      [CallAuthorize (bankPaymentData p nfc);
       CallCapture (AuthResult.transactionId r) (Payment.amount p)]
| flow_capture_declined r c :
    BankAPI.authorizePayment bank (bankPaymentData p nfc) = Returned r →
    AuthResult.success r = true →
    BankAPI.capturePayment bank (AuthResult.transactionId r) (Payment.amount p)
      = Returned c →
    CaptureResult.success c = false →
    bank_flow now bank p nfc
      "failed" (Some (AuthResult.transactionId r)) (CaptureResult.errorCode c)
      None
      (payment_status (Some (Payment.id p)) "failed" "Payment capture failed"
         (Declined (CaptureResult.errorCode c) (CaptureResult.errorMessage c))
         now)
      [CallAuthorize (bankPaymentData p nfc);
       CallCapture (AuthResult.transactionId r) (Payment.amount p)]
| flow_captured r c :
    BankAPI.authorizePayment bank (bankPaymentData p nfc) = Returned r →
    AuthResult.success r = true →
    BankAPI.capturePayment bank (AuthResult.transactionId r) (Payment.amount p)
      = Returned c →
    CaptureResult.success c = true →
    bank_flow now bank p nfc
      "completed" (Some (AuthResult.transactionId r)) (Payment.errorCode p)
      (Some now)
      (payment_status (Some (Payment.id p)) "completed" "Payment successful"
         (Approved (Payment.amount p) (AuthResult.transactionId r)
            (AuthResult.authCode r)) now)
      [CallAuthorize (bankPaymentData p nfc);
       CallCapture (AuthResult.transactionId r) (Payment.amount p)].


(** The bank's decline codes. *)
Definition six_codes : list string :=
  ["E001"; "E002"; "E003"; "E004"; "E005"; "E006"].



(** ** Example states and inputs *)

Definition T1 : ustring := u16 "T1".

Definition till : Terminal.t := Terminal.mk "Till 1" "Ann" "active" "Hall".

(** A session a declined authorization left [failed], and a session a
    capture left [completed]. *)
Definition failed_session : PaymentRow.t :=
  PaymentRow.mk T1 500 "RUB" "nfc" "failed" (Some "tx-0") (Some "E001") 10 None.

Definition completed_session : PaymentRow.t :=
  PaymentRow.mk T1 700 "RUB" "nfc" "completed" (Some "tx-9") None 20 (Some 50).

(** Terminal [T1] is registered on the open socket 7. *)
Definition shop : Server :=
  mkServer [(T1, 7%nat)] (λ _, OPEN) {[ T1 := till ]}
    {[ "p1" := failed_session; "p2" := completed_session ]} [] [] [].

(** The same shop with no terminal connected. *)
Definition shop_offline : Server :=
  mkServer [] (λ _, OPEN) {[ T1 := till ]}
    {[ "p1" := failed_session; "p2" := completed_session ]} [] [] [].

Definition no_card : NfcData.t := NfcData.mk None None None None None.

Definition draws : TestBankAPI.authDraws :=
  TestBankAPI.mk_authDraws (1 # 2) "tx-1" 20 [10; 35; 3; 4; 5; 6; 7]%N (1 # 2).

Definition capture_draws : TestBankAPI.captureDraws :=
  TestBankAPI.mk_captureDraws (1 # 2) 30.

(** A simulator built with [{ successRate: 1 }], one retuned with
    [setSuccessRate(0)] and one built with [{ successRate: 0 }]. *)
Definition approving_bank : BankAPI.t :=
  TestBankAPI_bank (TestBankAPI.new (TestBankAPI.mk_options (Some 1%Q) None))
    draws capture_draws.

Definition declining_bank : BankAPI.t :=
  TestBankAPI_bank
    (TestBankAPI.setSuccessRate 0
       (TestBankAPI.new (TestBankAPI.mk_options None None)))
    draws capture_draws.

Definition zero_rate_bank : BankAPI.t :=
  TestBankAPI_bank (TestBankAPI.new (TestBankAPI.mk_options (Some 0%Q) None))
    draws capture_draws.





(** ** What a handler may change *)

(** A computation [c] relates every state it is started in to the state
    it ends in, whether it returns or throws. *)
Definition preserves {S A} (R : S → S → Prop) (c : M S A) : Prop :=
  ∀ s, R s (c s).2.

(** A relation on servers, read on the server a flow state holds. *)
Definition on_server (R : Server → Server → Prop) (f f' : Flow) : Prop :=
  R (server f) (server f').

(** Handling a message only adds to the server: the [terminals] table and
    the sockets' [readyState] stay, no row of [payments] disappears, and
    the three traces grow at the end. *)
Definition grows (s s' : Server) : Prop :=
  terminals s' = terminals s ∧
  readyState s' = readyState s ∧
  (∀ id, is_Some (payments s !! id) → is_Some (payments s' !! id)) ∧
  (∃ sent, outbox s' = outbox s ++ sent) ∧
  (∃ calls, bank_calls s' = bank_calls s ++ calls) ∧
  (∃ lines, transaction_log s' = transaction_log s ++ lines).

Definition same_clients (s s' : Server) : Prop := clients s' = clients s.

(** A session that waits for its card, and the shop holding it. *)
Definition pending_session : PaymentRow.t :=
  PaymentRow.mk T1 900 "RUB" "nfc" "pending" None None 60 None.

Definition shop_waiting : Server :=
  with_payments (<["p3" := pending_session]>) shop.

(** * Properties *)

(** ** Strings and the terminal id guard *)

Lemma forallb_trimStart s :
  forallb js_whitespace (trimStart s) = forallb js_whitespace s.
Proof.
  induction s as [|c s IH]; [done|].
  simpl. destruct (js_whitespace c) eqn:Hc; simpl; [done|]. by rewrite Hc.
Qed.

Lemma trimStart_nil s :
  trimStart s = [] ↔ forallb js_whitespace s = true.
Proof.
  induction s as [|c s IH]; [done|].
  simpl. destruct (js_whitespace c); simpl; [done|]. split; discriminate.
Qed.

Lemma forallb_rev (f : N → bool) s : forallb f (rev s) = forallb f s.
Proof.
  induction s as [|c s IH]; [done|].
  simpl. rewrite forallb_app, IH. simpl. rewrite andb_true_r. apply andb_comm.
Qed.

Lemma trim_nil s : trim s = [] ↔ forallb js_whitespace s = true.
Proof.
  unfold trim, trimEnd.
  rewrite <- (forallb_trimStart s), <- (forallb_rev _ (trimStart s)).
  rewrite <- trimStart_nil.
  split.
  - intros H. apply (f_equal (@rev N)) in H. by rewrite rev_involutive in H.
  - intros H. by rewrite H.
Qed.

Lemma nonblank_forallb s : nonblank s ↔ forallb js_whitespace s = false.
Proof.
  unfold nonblank. induction s as [|c s IH]; simpl.
  - split; [|done]. intros (c & Hc & _). by apply elem_of_nil in Hc.
  - destruct (js_whitespace c) eqn:Hc; simpl.
    + rewrite <- IH. split.
      * intros (c' & [->|Hin]%elem_of_cons & Hw); [congruence|eauto].
      * intros (c' & Hin & Hw). exists c'. split; [by right|done].
    + split; [done|]. intros _. exists c. split; [by left|done].
Qed.

(** The guard lets a value through exactly when it is a string with a
    character that is not white space. *)
Lemma checkTerminalId_Some v t :
  checkTerminalId v = Some t ↔ v = JStr t ∧ nonblank t.
Proof.
  rewrite nonblank_forallb. unfold checkTerminalId.
  destruct v as [| |b|n|s|]; simpl;
    try (destruct b); try (destruct (n =? 0)); simpl;
    try (split; [discriminate|intros [? _]; discriminate]).
  destruct s as [|c s]; simpl.
  - split; [discriminate|]. intros [[= <-] H]. discriminate.
  - destruct (trim (c :: s)) eqn:Htrim.
    + apply trim_nil in Htrim. split; [discriminate|].
      intros [[= <-] H]. simpl in *. congruence.
    + split.
      * intros [= <-]. split; [done|].
        destruct (forallb js_whitespace (c :: s)) eqn:Hall; [|done].
        apply trim_nil in Hall. congruence.
      * by intros [[= <-] _].
Qed.

Lemma checkTerminalId_None v :
  checkTerminalId v = None ↔ ¬ ∃ t, v = JStr t ∧ nonblank t.
Proof.
  split.
  - intros H (t & Ht). apply checkTerminalId_Some in Ht. congruence.
  - intros H. destruct (checkTerminalId v) as [t|] eqn:E; [|done].
    exfalso. apply H. exists t. by apply checkTerminalId_Some.
Qed.

(** ** The connection map *)

Section JsMapFacts.
Context {K V : Type} `{EqDecision K}.
Implicit Types (m : list (K * V)) (k : K) (v : V).

Lemma get_set_eq m k v : JsMap.get k (JsMap.set k v m) = Some v.
Proof.
  induction m as [|[k' v'] m IH]; simpl.
  - by rewrite decide_True.
  - destruct (decide (k = k')) as [->|Hne]; simpl.
    + by rewrite decide_True.
    + by rewrite decide_False.
Qed.

Lemma get_set_ne m k k' v :
  k ≠ k' → JsMap.get k' (JsMap.set k v m) = JsMap.get k' m.
Proof.
  intros Hne. induction m as [|[k0 v0] m IH]; simpl.
  - by rewrite decide_False.
  - destruct (decide (k = k0)) as [->|Hne0]; simpl.
    + by rewrite !decide_False.
    + destruct (decide (k' = k0)); [done|apply IH].
Qed.

Lemma elem_of_keys_set m k k' v :
  k' ∈ JsMap.keys (JsMap.set k v m) ↔ k' = k ∨ k' ∈ JsMap.keys m.
Proof.
  unfold JsMap.keys. induction m as [|[k0 v0] m IH]; simpl.
  - rewrite elem_of_cons. split; intros [?|?]; auto.
  - destruct (decide (k = k0)) as [->|Hne]; simpl.
    + rewrite !elem_of_cons. tauto.
    + rewrite !elem_of_cons, IH. tauto.
Qed.

Lemma wf_set m k v : JsMap.wf m → JsMap.wf (JsMap.set k v m).
Proof.
  unfold JsMap.wf. induction m as [|[k0 v0] m IH]; simpl.
  - intros _. apply NoDup_singleton.
  - unfold JsMap.keys. simpl. intros [Hnotin Hnd]%NoDup_cons.
    destruct (decide (k = k0)) as [->|Hne]; simpl.
    + by apply NoDup_cons.
    + apply NoDup_cons. split; [|by apply IH].
      intros [?|?]%elem_of_keys_set; [congruence|done].
Qed.

Lemma elem_of_delete m k e : e ∈ JsMap.delete k m → e ∈ m.
Proof.
  induction m as [|[k0 v0] m IH]; simpl; [done|].
  destruct (decide (k = k0)).
  - intros. by right.
  - intros [->|?]%elem_of_cons; [by left|right; auto].
Qed.

Lemma wf_delete m k : JsMap.wf m → JsMap.wf (JsMap.delete k m).
Proof.
  unfold JsMap.wf, JsMap.keys. induction m as [|[k0 v0] m IH]; simpl; [done|].
  intros [Hnotin Hnd]%NoDup_cons.
  destruct (decide (k = k0)); [done|]. simpl.
  apply NoDup_cons. split; [|by apply IH].
  intros ([k1 v1] & -> & Hin%elem_of_delete)%list_elem_of_fmap.
  apply Hnotin. apply list_elem_of_fmap. by exists (k1, v1).
Qed.

Lemma get_delete_ne m k k' :
  k ≠ k' → JsMap.get k' (JsMap.delete k m) = JsMap.get k' m.
Proof.
  intros Hne. induction m as [|[k0 v0] m IH]; simpl; [done|].
  destruct (decide (k = k0)) as [->|Hne0]; simpl.
  - by rewrite decide_False.
  - destruct (decide (k' = k0)); [done|apply IH].
Qed.

Lemma get_None m k : k ∉ JsMap.keys m → JsMap.get k m = None.
Proof.
  unfold JsMap.keys. induction m as [|[k0 v0] m IH]; simpl; [done|].
  intros [Hne Hnotin]%not_elem_of_cons.
  rewrite decide_False by done. by apply IH.
Qed.

Lemma get_delete_eq m k :
  JsMap.wf m → JsMap.get k (JsMap.delete k m) = None.
Proof.
  unfold JsMap.wf, JsMap.keys. induction m as [|[k0 v0] m IH]; simpl; [done|].
  intros [Hnotin Hnd]%NoDup_cons.
  destruct (decide (k = k0)) as [->|Hne]; simpl.
  - by apply get_None.
  - rewrite decide_False by done. by apply IH.
Qed.

Lemma get_elem_of m k v : JsMap.get k m = Some v → (k, v) ∈ m.
Proof.
  induction m as [|[k0 v0] m IH]; simpl; [done|].
  destruct (decide (k = k0)) as [->|Hne].
  - intros [= ->]. by left.
  - intros. right. auto.
Qed.

Lemma wf_get m k v : JsMap.wf m → (k, v) ∈ m → JsMap.get k m = Some v.
Proof.
  unfold JsMap.wf, JsMap.keys. induction m as [|[k0 v0] m IH]; simpl.
  - by intros _ ?%elem_of_nil.
  - intros [Hnotin Hnd]%NoDup_cons [[= -> ->]|Hin]%elem_of_cons.
    + by rewrite decide_True.
    + destruct (decide (k = k0)) as [->|Hne]; [|by apply IH].
      exfalso. apply Hnotin. apply list_elem_of_fmap. by exists (k0, v).
Qed.

Lemma find_entry_Some (f : V → bool) m k v :
  JsMap.find_entry f m = Some (k, v) → (k, v) ∈ m ∧ f v = true.
Proof.
  induction m as [|[k0 v0] m IH]; simpl; [done|].
  destruct (f v0) eqn:Hf.
  - intros [= -> ->]. split; [by left|done].
  - intros [Hin Hv]%IH. split; [by right|done].
Qed.

Lemma find_entry_None (f : V → bool) m k v :
  JsMap.find_entry f m = None → (k, v) ∈ m → f v = false.
Proof.
  induction m as [|[k0 v0] m IH]; simpl.
  - by intros _ ?%elem_of_nil.
  - destruct (f v0) eqn:Hf; [done|].
    intros Hnone [[= -> ->]|Hin]%elem_of_cons; [done|auto].
Qed.
End JsMapFacts.

(** ** Terminal channel: registration and close *)

Lemma handleTerminalReady_registered now ws v t term s :
  checkTerminalId v = Some t →
  terminals s !! t = Some term →
  handleTerminalReady now ws v s =
    (Returned tt,
     with_outbox
       (λ o, o ++ [(ws, terminal_config t (Terminal.new term)
                          (Some "connected") now)])
       (with_clients (JsMap.set t ws) s)).
Proof.
  intros Hid Hterm. unfold handleTerminalReady. rewrite Hid.
  unfold mbind, M_bind, get_state. simpl. by rewrite Hterm.
Qed.

Lemma handleTerminalReady_refused now ws v s :
  (∀ t, checkTerminalId v = Some t → terminals s !! t = None) →
  ∃ text,
    handleTerminalReady now ws v s =
      (Returned tt,
       with_outbox (λ o, o ++ [(ws, error_message text None None)]) s).
Proof.
  intros H. unfold handleTerminalReady.
  destruct (checkTerminalId v) as [t|]; [|by eexists].
  unfold mbind, M_bind, get_state. simpl. rewrite (H t eq_refl). by eexists.
Qed.

(** What the ['close'] listener does to the map: a key keeps its handle,
    or it held the closing socket and is gone. *)
Lemma on_close_effect ws s :
  JsMap.wf (clients s) →
  readyState (on_close ws s).2 = readyState s ∧
  JsMap.wf (clients (on_close ws s).2) ∧
  ∀ t, JsMap.get t (clients (on_close ws s).2) = JsMap.get t (clients s)
       ∨ (JsMap.get t (clients s) = Some ws
          ∧ JsMap.get t (clients (on_close ws s).2) = None).
Proof.
  intros Hwf. unfold on_close, mbind, M_bind, get_state. simpl.
  destruct (JsMap.find_entry _ (clients s)) as [[k c]|] eqn:Hfind; simpl.
  - apply find_entry_Some in Hfind as [Hin Hc].
    apply bool_decide_eq_true in Hc as ->.
    split; [done|]. split; [by apply wf_delete|].
    intros t. destruct (decide (k = t)) as [<-|Hne].
    + right. split; [by apply wf_get|by apply get_delete_eq].
    + left. by apply get_delete_ne.
  - split; [done|]. split; [done|]. intros t. by left.
Qed.

Lemma close_connection_unfold ws s :
  close_connection ws s =
    on_close ws
      (with_readyState (λ st c, if decide (c = ws) then CLOSED else st c) s).
Proof. reflexivity. Qed.

(** When the closing socket is stored under one key only, the listener
    removes that key. *)
Lemma on_close_removes ws s t :
  JsMap.wf (clients s) →
  JsMap.get t (clients s) = Some ws →
  (∀ t', t' ≠ t → JsMap.get t' (clients s) ≠ Some ws) →
  JsMap.get t (clients (on_close ws s).2) = None.
Proof.
  intros Hwf Hget Honly. unfold on_close, mbind, M_bind, get_state. simpl.
  destruct (JsMap.find_entry _ (clients s)) as [[k c]|] eqn:Hfind; simpl.
  - apply find_entry_Some in Hfind as [Hin Hc].
    apply bool_decide_eq_true in Hc as ->.
    destruct (decide (k = t)) as [->|Hne]; [by apply get_delete_eq|].
    exfalso. apply (Honly k Hne). by apply wf_get.
  - apply get_elem_of in Hget.
    apply (find_entry_None _ _ _ _ Hfind) in Hget.
    by apply bool_decide_eq_false in Hget.
Qed.

(** C6.  Terminal [T] registers on connection [A], then on connection [B].
    Closing [A] leaves [B] stored for [T] and [T] reported connected;
    closing [B] afterwards leaves [T] reported disconnected, and removes the
    entry when [B] is stored under no other id.  In any state the ['close']
    listener removes the entry of a terminal only if the closing connection
    is the stored handle. *)
Theorem channel_replacement now (s : Server) (T : ustring) (A B : Conn)
    (term : Terminal.t) :
  JsMap.wf (clients s) →
  nonblank T →
  terminals s !! T = Some term →
  A ≠ B →
  readyState s B = OPEN →
  let s1 := (handleTerminalReady now A (JStr T) s).2 in
  let s2 := (handleTerminalReady now B (JStr T) s1).2 in
  let s3 := (close_connection A s2).2 in
  let s4 := (close_connection B s3).2 in
  JsMap.get T (clients s1) = Some A ∧
  JsMap.get T (clients s2) = Some B ∧
  JsMap.get T (clients s3) = Some B ∧
  isTerminalConnected (JStr T) s3 = true ∧
  isTerminalConnected (JStr T) s4 = false ∧
  ((∀ t, t ≠ T → JsMap.get t (clients s) ≠ Some B) →
   JsMap.get T (clients s4) = None) ∧
  (∀ (s0 : Server) (ws c : Conn) (t : ustring),
     JsMap.wf (clients s0) →
     JsMap.get t (clients s0) = Some c →
     JsMap.get t (clients (on_close ws s0).2) = None →
     c = ws).
Proof.
  intros Hwf Hnb Hterm Hne Hopen.
  assert (Hid : checkTerminalId (JStr T) = Some T)
    by by apply checkTerminalId_Some.
  rewrite (handleTerminalReady_registered _ _ _ _ _ _ Hid Hterm). simpl.
  rewrite (handleTerminalReady_registered _ _ _ T term); [|done|done]. simpl.
  set (m2 := JsMap.set T B (JsMap.set T A (clients s))).
  assert (Hwf2 : JsMap.wf m2) by by do 2 apply wf_set.
  assert (Hget2 : JsMap.get T m2 = Some B) by apply get_set_eq.
  rewrite !close_connection_unfold.
  match goal with |- context [on_close A ?x] => set (s2' := x) end.
  assert (Hcl2 : clients s2' = m2) by done.
  assert (Hwf2' : JsMap.wf (clients s2')) by by rewrite Hcl2.
  destruct (on_close_effect A s2' Hwf2') as (Hrs3 & Hwf3 & Hget3).
  assert (Hget3' : JsMap.get T (clients (on_close A s2').2) = Some B).
  { destruct (Hget3 T) as [->|[Heq _]]; [by rewrite Hcl2|].
    rewrite Hcl2, Hget2 in Heq. congruence. }
  match goal with |- context [on_close B ?x] => set (s3' := x) end.
  assert (Hcl3 : clients s3' = clients (on_close A s2').2) by done.
  assert (Hwf3' : JsMap.wf (clients s3')) by by rewrite Hcl3.
  destruct (on_close_effect B s3' Hwf3') as (Hrs4 & Hwf4 & Hget4).
  split; [apply get_set_eq|]. split; [done|]. split; [done|].
  split; [|split; [|split]].
  - unfold isTerminalConnected. rewrite Hid, Hget3', Hrs3. simpl.
    rewrite decide_False by done. by rewrite Hopen.
  - unfold isTerminalConnected. rewrite Hid.
    destruct (Hget4 T) as [->|[_ ->]]; [|done].
    rewrite Hcl3, Hget3', Hrs4. simpl. by rewrite decide_True.
  - intros Honly. apply on_close_removes; [done|by rewrite Hcl3|].
    intros t Ht. rewrite Hcl3.
    destruct (Hget3 t) as [->|[_ ->]]; [|done].
    rewrite Hcl2. unfold m2. rewrite !get_set_ne by done. by apply Honly.
  - intros s0 ws c t Hwf0 Hsome Hnone.
    destruct (on_close_effect ws s0 Hwf0) as (_ & _ & Hg).
    destruct (Hg t) as [Heq|[Heq _]]; congruence.
Qed.

(** C10.  A [terminal_ready] message registers the connection and is
    answered with [terminal_config] exactly when its terminal id is a
    string with a character that is not white space and the [terminals]
    table has a row for it; in every other case the connection gets an
    [error] message and the map from terminal ids to connections is left
    as it was. *)
Theorem handleTerminalReady_registers_iff now (ws : Conn) (terminalId : JsVal)
    (s : Server) :
  (∃ (t : ustring) (term : Terminal.t) (s' : Server),
     terminalId = JStr t ∧ nonblank t ∧ terminals s !! t = Some term ∧
     handleTerminalReady now ws terminalId s = (Returned tt, s') ∧
     clients s' = JsMap.set t ws (clients s) ∧
     JsMap.get t (clients s') = Some ws ∧
     outbox s' =
       outbox s ++ [(ws, terminal_config t (Terminal.new term)
                           (Some "connected") now)])
  ∨
  ((¬ ∃ t, terminalId = JStr t ∧ nonblank t ∧ is_Some (terminals s !! t)) ∧
   ∃ (text : string) (s' : Server),
     handleTerminalReady now ws terminalId s = (Returned tt, s') ∧
     clients s' = clients s ∧
     outbox s' = outbox s ++ [(ws, error_message text None None)]).
Proof.
  destruct (checkTerminalId terminalId) as [t|] eqn:Hid.
  - destruct (terminals s !! t) as [term|] eqn:Hterm.
    + left. exists t, term. eexists.
      apply checkTerminalId_Some in Hid as Hid'. destruct Hid' as [-> Hnb].
      split; [done|]. split; [done|]. split; [done|].
      split; [by apply handleTerminalReady_registered|].
      simpl. split; [done|]. split; [apply get_set_eq|done].
    + right. split.
      * intros (t' & Heq & Hnb & Hsome).
        assert (checkTerminalId terminalId = Some t')
          by by apply checkTerminalId_Some.
        assert (t' = t) as -> by congruence.
        rewrite Hterm in Hsome. by destruct Hsome.
      * destruct (handleTerminalReady_refused now ws terminalId s)
          as [text Htext].
        { intros t' Ht'. congruence. }
        exists text. eexists. split; [exact Htext|]. by split.
  - right. split.
    + intros (t' & Heq & Hnb & _).
      assert (checkTerminalId terminalId = Some t')
        by by apply checkTerminalId_Some.
      congruence.
    + destruct (handleTerminalReady_refused now ws terminalId s)
        as [text Htext].
      { intros t' Ht'. congruence. }
      exists text. eexists. split; [exact Htext|]. by split.
Qed.


(** ** The bank flow *)

Ltac unfold_js :=
  unfold try_catch, Payment_create, Payment_findById, Payment_update,
    Payment_logTransaction, bank_authorizePayment, bank_capturePayment,
    sendPaymentStatusUpdate, ws_send, with_payment, lift, this,
    modify, get_state, throw, toISOString, completedAt_param,
    db_insert_payment, db_update_payment, mbind, M_bind, mret, M_ret in *.

Ltac flow_done :=
  cbn; unfold delivered; cbn; rewrite <- ?app_assoc; done.

Lemma sendToTerminal_delivered T message s :
  ∃ b, sendToTerminal T message s =
         (Returned b, with_outbox (λ o, o ++ delivered s T message) s).
Proof.
  unfold sendToTerminal, delivered. unfold_js. cbn.
  destruct (JsMap.get T (clients s)) as [c|]; cbn;
    [destruct (readyState s c =? OPEN)%N; cbn; [by eexists|]|];
    exists false; destruct s; unfold with_outbox; cbn; by rewrite app_nil_r.
Qed.

(** A run of the bank flow on an object whose [completedAt] is empty and
    whose row exists: it returns, rewrites the row once for good, hands one
    message to [sendToTerminal] and makes the bank calls of its path. *)
Lemma processNFCPaymentWithBank_run now bank ws T nfc (f : Flow) old :
  Payment.completedAt (payment f) = None →
  payments (server f) !! Payment.id (payment f) = Some old →
  ∃ f' status bank_tx error completed message calls,
    processNFCPaymentWithBank now bank ws T nfc f = (Returned tt, f') ∧
    bank_flow now bank (payment f) nfc status bank_tx error completed
      message calls ∧
    payments (server f') =
      <[Payment.id (payment f) :=
          PaymentRow.mk (Payment.terminalId (payment f))
            (Payment.amount (payment f)) (Payment.currency (payment f))
            (Payment.method (payment f)) status bank_tx error
            (PaymentRow.created_at old) completed]> (payments (server f)) ∧
    outbox (server f') = outbox (server f) ++ delivered (server f) T message ∧
    bank_calls (server f') = bank_calls (server f) ++ calls ∧
    clients (server f') = clients (server f) ∧
    readyState (server f') = readyState (server f) ∧
    terminals (server f') = terminals (server f).
Proof.
  intros Hdate Hrow. destruct f as [p s]. cbn in Hdate, Hrow.
  unfold processNFCPaymentWithBank, sendPaymentStatusUpdate.
  pose proof (sendToTerminal_delivered T) as Hsend.
  unfold_js. cbn.
  destruct (BankAPI.authorizePayment bank (bankPaymentData p nfc))
    as [r|e] eqn:Hauth; cbn.
  - destruct (AuthResult.success r) eqn:Hok; cbn.
    + rewrite Hdate. cbn. rewrite Hrow. cbn.
      destruct (BankAPI.capturePayment bank _ _) as [c|e] eqn:Hcap; cbn.
      * destruct (CaptureResult.success c) eqn:Hcok; cbn.
        -- rewrite lookup_insert_eq. cbn.
           match goal with |- context [sendToTerminal T ?m ?x] =>
             destruct (Hsend m x) as [b ->] end. cbn.
           do 7 eexists. split; [reflexivity|].
           split; [by eapply flow_captured|]. cbn.
           rewrite insert_insert_eq. flow_done.
        -- rewrite Hdate. cbn. rewrite lookup_insert_eq. cbn.
           match goal with |- context [sendToTerminal T ?m ?x] =>
             destruct (Hsend m x) as [b ->] end. cbn.
           do 7 eexists. split; [reflexivity|].
           split; [by eapply flow_capture_declined|]. cbn.
           rewrite insert_insert_eq. flow_done.
      * rewrite Hdate. cbn. rewrite lookup_insert_eq. cbn.
        match goal with |- context [sendToTerminal T ?m ?x] =>
          destruct (Hsend m x) as [b ->] end. cbn.
        do 7 eexists. split; [reflexivity|].
        split; [by eapply flow_capture_thrown|]. cbn.
        rewrite insert_insert_eq. flow_done.
    + rewrite Hdate. cbn. rewrite Hrow. cbn.
      match goal with |- context [sendToTerminal T ?m ?x] =>
        destruct (Hsend m x) as [b ->] end. cbn.
      do 7 eexists. split; [reflexivity|].
      split; [by eapply flow_authorize_declined|]. flow_done.
  - rewrite Hdate. cbn. rewrite Hrow. cbn.
    match goal with |- context [sendToTerminal T ?m ?x] =>
      destruct (Hsend m x) as [b ->] end. cbn.
    do 7 eexists. split; [reflexivity|].
    split; [by eapply flow_authorize_thrown|]. flow_done.
Qed.

(** An [nfc_detected] message for a registered terminal and an available
    session: the handler sends the [processing] status, runs the bank flow
    on the session's object and returns. *)
Lemma handleNFCDetected_run now uuid bank ws v T paymentId pid nfc s :
  checkTerminalId v = Some T →
  JsMap.has T (clients s) = true →
  session_ready s uuid paymentId pid →
  ∃ p s' row message calls,
    handleNFCDetected now uuid bank ws v paymentId nfc s = (Returned tt, s') ∧
    Payment.id p = pid ∧
    Payment.bankTransactionId p =
      payments s !! pid ≫=
        (λ r, Payment.falsy_to_null (PaymentRow.bank_transaction_id r)) ∧
    bank_flow now bank p nfc (PaymentRow.status row)
      (PaymentRow.bank_transaction_id row) (PaymentRow.error_code row)
      (PaymentRow.completed_at row) message calls ∧
    PaymentRow.amount row = Payment.amount p ∧
    PaymentRow.terminal_id row = Payment.terminalId p ∧
    payments s' = <[pid := row]> (payments s) ∧
    outbox s' =
      outbox s ++
      (ws, payment_status (Some pid) "processing" "Processing NFC payment"
             NoDetail now) :: delivered s T message ∧
    bank_calls s' = bank_calls s ++ calls ∧
    clients s' = clients s ∧
    readyState s' = readyState s.
Proof.
  intros Hid Hreg Hready.
  pose proof (processNFCPaymentWithBank_run now bank (Some ws) T nfc) as Hflow.
  unfold handleNFCDetected. rewrite Hid.
  unfold mbind at 1. unfold M_bind at 1. unfold get_state at 1.
  rewrite Hreg. simpl negb. cbv iota.
  destruct Hready as [paymentId Hfalsy Hfresh | pid row0 Hne Hrow Hnull].
  - rewrite Hfalsy. unfold nfc_process. unfold_js.
    cbn -[processNFCPaymentWithBank]. rewrite Hfresh.
    cbn -[processNFCPaymentWithBank].
    match goal with |- context [processNFCPaymentWithBank _ _ _ _ _ ?f] =>
      edestruct (Hflow f) as
        (f' & st & tx & er & co & message & calls & -> & Hbf & Hp & Ho & Hc
           & Hcl & Hrs & _); [reflexivity|cbn; apply lookup_insert_eq|]
    end.
    cbn in *. rewrite insert_insert_eq in Hp.
    match type of Hbf with bank_flow _ _ ?p _ _ _ _ _ _ _ =>
      match type of Hp with _ = <[_ := ?row]> _ =>
        exists p, (server f'), row, message, calls end end.
    split; [reflexivity|]. split; [reflexivity|].
    split; [done|]. split; [exact Hbf|].
    split; [reflexivity|]. split; [reflexivity|].
    split; [exact Hp|]. split; [|done].
    rewrite Ho. unfold delivered. cbn. rewrite <- app_assoc. reflexivity.
  - assert (Htruthy : truthy_str (Some pid) = true).
    { cbn. destruct (String.eqb_spec pid ""); [done|done]. }
    rewrite Htruthy. unfold nfc_process. unfold_js.
    cbn -[processNFCPaymentWithBank]. rewrite Hrow.
    cbn -[processNFCPaymentWithBank]. rewrite Hnull.
    cbn -[processNFCPaymentWithBank].
    assert (Hpid : str_or pid uuid = pid).
    { unfold str_or. destruct (String.eqb_spec pid ""); [done|done]. }
    rewrite !Hpid. rewrite Hrow. cbn -[processNFCPaymentWithBank].
    match goal with |- context [processNFCPaymentWithBank _ _ _ _ _ ?f] =>
      edestruct (Hflow f) as
        (f' & st & tx & er & co & message & calls & -> & Hbf & Hp & Ho & Hc
           & Hcl & Hrs & _);
        [cbn; by rewrite ?Hnull|cbn; rewrite ?Hpid; apply lookup_insert_eq|]
    end.
    cbn in Hbf, Hp, Ho, Hc, Hcl, Hrs. rewrite ?Hpid in Hp, Ho.
    rewrite insert_insert_eq in Hp.
    match type of Hbf with bank_flow _ _ ?p _ _ _ _ _ _ _ =>
      match type of Hp with _ = <[_ := ?row]> _ =>
        exists p, (server f'), row, message, calls end end.
    split; [reflexivity|]. split; [cbn; by rewrite ?Hpid|].
    split; [done|]. split; [exact Hbf|].
    split; [reflexivity|]. split; [reflexivity|].
    split; [cbn; rewrite ?Hpid; exact Hp|]. split; [|done].
    rewrite Ho. unfold delivered. cbn. rewrite <- app_assoc. reflexivity.
Qed.

(** ** Sessions and the bank *)




(** C5.  A payment request for a terminal id that passes the guard but has
    no open connection: [sendPaymentRequest] throws "Terminal not
    connected", hands nothing to any socket, and leaves a session row under
    the new id with status [failed] and error code TERMINAL_OFFLINE. *)
Theorem sendPaymentRequest_offline now uuid (v : JsVal) (T : ustring)
    (paymentData : RequestData.t) (s : Server) :
  checkTerminalId v = Some T →
  isTerminalConnected v s = false →
  payments s !! uuid = None →
  ∃ (s' : Server) (row : PaymentRow.t),
    sendPaymentRequest now uuid v paymentData s
      = (Thrown "Terminal not connected", s') ∧
    outbox s' = outbox s ∧
    clients s' = clients s ∧
    payments s' = <[uuid := row]> (payments s) ∧
    payments s' !! uuid = Some row ∧
    PaymentRow.terminal_id row = T ∧
    PaymentRow.status row = "failed" ∧
    PaymentRow.error_code row = Some "TERMINAL_OFFLINE".
Proof.
  intros Hid Hconn Hfresh.
  unfold isTerminalConnected in Hconn. rewrite Hid in Hconn.
  unfold sendPaymentRequest. rewrite Hid.
  unfold sendToTerminal. unfold_js. cbn. rewrite Hfresh. cbn.
  assert (Hsend : match JsMap.get T (clients s) with
                  | Some client => (readyState s client =? OPEN)%N
                  | None => false
                  end = false) by exact Hconn.
  destruct (JsMap.get T (clients s)) as [c|].
  - rewrite Hsend. cbn. rewrite lookup_insert_eq. cbn.
    do 2 eexists. split; [reflexivity|]. cbn. rewrite insert_insert_eq.
    repeat split. apply lookup_insert_eq.
  - cbn. rewrite lookup_insert_eq. cbn.
    do 2 eexists. split; [reflexivity|]. cbn. rewrite insert_insert_eq.
    repeat split. apply lookup_insert_eq.
Qed.

Lemma sendPaymentRequest_offline_witness :
  checkTerminalId (JStr T1) = Some T1 ∧
  isTerminalConnected (JStr T1) shop_offline = false ∧
  payments shop_offline !! "u-1" = None ∧
  ∃ (s' : Server) (row : PaymentRow.t),
    sendPaymentRequest 100 "u-1" (JStr T1)
      (RequestData.mk (Some 2500) None None None) shop_offline
      = (Thrown "Terminal not connected", s') ∧
    outbox s' = outbox shop_offline ∧
    clients s' = clients shop_offline ∧
    payments s' = <["u-1" := row]> (payments shop_offline) ∧
    payments s' !! "u-1" = Some row ∧
    PaymentRow.terminal_id row = T1 ∧
    PaymentRow.status row = "failed" ∧
    PaymentRow.error_code row = Some "TERMINAL_OFFLINE".
Proof.
  assert (H1 : checkTerminalId (JStr T1) = Some T1) by reflexivity.
  assert (H2 : isTerminalConnected (JStr T1) shop_offline = false)
    by reflexivity.
  assert (H3 : payments shop_offline !! "u-1" = None)
    by (vm_compute; reflexivity).
  repeat (split; [assumption|]).
  exact (sendPaymentRequest_offline 100 "u-1" (JStr T1) T1
           (RequestData.mk (Some 2500) None None None) shop_offline H1 H2 H3).
Defined.

(** C2, as the code has it.  In the flow an [nfc_detected] message starts,
    the stored [bank_transaction_id] is written only once [authorizePayment]
    has returned a result, approved or declined: a declined authorization
    leaves the session [failed] with the bank's error code and with the
    transaction id of the declined attempt stored, and no capture is
    requested; when [authorizePayment] throws, the column keeps what the
    session had before. *)
Theorem bank_transaction_id_after_authorize_returns now uuid bank (ws : Conn)
    (v : JsVal) (T : ustring) paymentId pid nfc (s : Server) :
  checkTerminalId v = Some T →
  JsMap.has T (clients s) = true →
  session_ready s uuid paymentId pid →
  ∃ (s' : Server) (row : PaymentRow.t) (d : BankPaymentData.t)
    (calls : list BankCall),
    handleNFCDetected now uuid bank ws v paymentId nfc s = (Returned tt, s') ∧
    payments s' !! pid = Some row ∧
    BankPaymentData.paymentId d = pid ∧
    bank_calls s' = bank_calls s ++ CallAuthorize d :: calls ∧
    match BankAPI.authorizePayment bank d with
    | Thrown _ =>
        PaymentRow.bank_transaction_id row =
          payments s !! pid ≫=
            (λ r, Payment.falsy_to_null (PaymentRow.bank_transaction_id r))
    | Returned r =>
        PaymentRow.bank_transaction_id row = Some (AuthResult.transactionId r) ∧
        (AuthResult.success r = false →
         PaymentRow.status row = "failed" ∧
         PaymentRow.error_code row = AuthResult.errorCode r ∧
         calls = [])
    end.
Proof.
  intros Hid Hreg Hready.
  destruct (handleNFCDetected_run now uuid bank ws v T paymentId pid nfc s
              Hid Hreg Hready)
    as (p & s' & row & message & calls & Hrun & Hpid & Hprior & Hflow & _ & _
          & Hpay & _ & Hcalls & _).
  exists s', row, (bankPaymentData p nfc), (tail calls).
  split; [exact Hrun|]. split; [rewrite Hpay; apply lookup_insert_eq|].
  split; [exact Hpid|].
  inversion Hflow; subst;
    match goal with
    | H : BankAPI.authorizePayment _ _ = _ |- _ => rewrite H
    end;
    (split; [by rewrite Hcalls|]); try done;
    (split; [done|]); intros; congruence.
Qed.

Lemma bank_transaction_id_after_authorize_returns_witness :
  checkTerminalId (JStr T1) = Some T1 ∧
  JsMap.has T1 (clients shop) = true ∧
  session_ready shop "u-1" None "u-1" ∧
  ∃ (s' : Server) (row : PaymentRow.t) (d : BankPaymentData.t)
    (calls : list BankCall),
    handleNFCDetected 100 "u-1" declining_bank 7%nat (JStr T1) None no_card shop
      = (Returned tt, s') ∧
    payments s' !! "u-1" = Some row ∧
    BankPaymentData.paymentId d = "u-1" ∧
    bank_calls s' = bank_calls shop ++ CallAuthorize d :: calls ∧
    match BankAPI.authorizePayment declining_bank d with
    | Thrown _ =>
        PaymentRow.bank_transaction_id row =
          payments shop !! "u-1" ≫=
            (λ r, Payment.falsy_to_null (PaymentRow.bank_transaction_id r))
    | Returned r =>
        PaymentRow.bank_transaction_id row = Some (AuthResult.transactionId r) ∧
        (AuthResult.success r = false →
         PaymentRow.status row = "failed" ∧
         PaymentRow.error_code row = AuthResult.errorCode r ∧
         calls = [])
    end.
Proof.
  assert (H1 : checkTerminalId (JStr T1) = Some T1) by reflexivity.
  assert (H2 : JsMap.has T1 (clients shop) = true) by reflexivity.
  assert (H3 : session_ready shop "u-1" None "u-1")
    by (apply ready_new; [reflexivity|vm_compute; reflexivity]).
  repeat (split; [assumption|]).
  exact (bank_transaction_id_after_authorize_returns 100 "u-1" declining_bank
           7%nat (JStr T1) T1 None "u-1" no_card shop H1 H2 H3).
Defined.

(** C2 as stated fails: with the simulator retuned to [successRate = 0] the
    session ends [failed] with a bank error code, and the transaction id of
    the declined authorization is stored as its [bank_transaction_id]. *)
Lemma declined_session_keeps_transaction_id :
  let r := handleNFCDetected 100 "u-1" declining_bank 7%nat (JStr T1) None
             no_card shop in
  ∃ row : PaymentRow.t,
    payments r.2 !! "u-1" = Some row ∧
    PaymentRow.status row = "failed" ∧
    PaymentRow.error_code row = Some "E004" ∧
    PaymentRow.bank_transaction_id row = Some "tx-1" ∧
    PaymentRow.bank_transaction_id row ≠ None.
Proof. vm_compute. eexists. by repeat split. Qed.

(** C3, as the code has it.  The flow an [nfc_detected] message starts
    leaves the session [completed] or [failed], and stores [completed_at]
    exactly when it leaves it [completed]: a session it drives to [failed]
    (authorization declined, capture declined, bank exception) has no
    [completed_at].  A [payment_completed] message for a stored session
    stores [completed_at] together with the status its result carries. *)
Theorem completed_at_set_iff_completed now uuid bank (ws : Conn) (v : JsVal)
    (T : ustring) paymentId pid nfc (s : Server) :
  checkTerminalId v = Some T →
  JsMap.has T (clients s) = true →
  session_ready s uuid paymentId pid →
  (∃ (s' : Server) (row : PaymentRow.t),
     handleNFCDetected now uuid bank ws v paymentId nfc s = (Returned tt, s') ∧
     payments s' !! pid = Some row ∧
     (PaymentRow.status row = "completed" ∨ PaymentRow.status row = "failed") ∧
     (PaymentRow.completed_at row = Some now
      ↔ PaymentRow.status row = "completed") ∧
     (PaymentRow.completed_at row = None
      ↔ PaymentRow.status row = "failed"))
  ∧
  (∀ (id : string) (row0 : PaymentRow.t) (result : CompletionResult.t),
     id ≠ "" →
     payments s !! id = Some row0 →
     ∃ (s' : Server) (row : PaymentRow.t),
       handlePaymentCompleted now uuid ws v (Some id) result s
         = (Returned tt, s') ∧
       payments s' !! id = Some row ∧
       PaymentRow.status row = CompletionResult.status result ∧
       PaymentRow.completed_at row = Some now).
Proof.
  intros Hid Hreg Hready. split.
  - destruct (handleNFCDetected_run now uuid bank ws v T paymentId pid nfc s
                Hid Hreg Hready)
      as (p & s' & row & message & calls & Hrun & _ & _ & Hflow & _ & _
            & Hpay & _).
    exists s', row. split; [exact Hrun|].
    split; [rewrite Hpay; apply lookup_insert_eq|].
    remember (PaymentRow.status row) as st.
    remember (PaymentRow.bank_transaction_id row) as tx.
    remember (PaymentRow.error_code row) as er.
    remember (PaymentRow.completed_at row) as co.
    destruct Hflow; (split; [auto|]); split; split; intros; congruence.
  - intros id row0 result Hne Hrow.
    assert (Hkey : str_or id uuid = id).
    { unfold str_or. by destruct (String.eqb_spec id ""). }
    unfold handlePaymentCompleted. rewrite Hid.
    unfold_js. cbn. rewrite Hrow. cbn. rewrite !Hkey, Hrow. cbn.
    do 2 eexists. split; [reflexivity|]. cbn.
    split; [apply lookup_insert_eq|done].
Qed.

Lemma completed_at_set_iff_completed_witness :
  checkTerminalId (JStr T1) = Some T1 ∧
  JsMap.has T1 (clients shop) = true ∧
  session_ready shop "u-1" None "u-1" ∧
  ∃ (s' : Server) (row : PaymentRow.t),
    handleNFCDetected 100 "u-1" approving_bank 7%nat (JStr T1) None no_card shop
      = (Returned tt, s') ∧
    payments s' !! "u-1" = Some row ∧
    (PaymentRow.status row = "completed" ∨ PaymentRow.status row = "failed") ∧
    (PaymentRow.completed_at row = Some 100
     ↔ PaymentRow.status row = "completed") ∧
    (PaymentRow.completed_at row = None ↔ PaymentRow.status row = "failed").
Proof.
  assert (H1 : checkTerminalId (JStr T1) = Some T1) by reflexivity.
  assert (H2 : JsMap.has T1 (clients shop) = true) by reflexivity.
  assert (H3 : session_ready shop "u-1" None "u-1")
    by (apply ready_new; [reflexivity|vm_compute; reflexivity]).
  repeat (split; [assumption|]).
  exact (proj1 (completed_at_set_iff_completed 100 "u-1" approving_bank 7%nat
                  (JStr T1) T1 None "u-1" no_card shop H1 H2 H3)).
Defined.

(** C3 as stated fails: the session a declined authorization drives to
    [failed] is stored without [completed_at]. *)
Lemma failed_session_without_completed_at :
  let r := handleNFCDetected 100 "u-1" declining_bank 7%nat (JStr T1) None
             no_card shop in
  ∃ row : PaymentRow.t,
    payments r.2 !! "u-1" = Some row ∧
    PaymentRow.status row = "failed" ∧
    PaymentRow.completed_at row = None ∧
    ¬ (PaymentRow.completed_at row ≠ None
       ↔ PaymentRow.status row = "completed"
         ∨ PaymentRow.status row = "failed").
Proof.
  vm_compute. eexists. split; [reflexivity|]. split; [reflexivity|].
  split; [reflexivity|]. intros [_ H]. apply H; [by right|reflexivity].
Qed.

(** ** The bank simulator *)










Lemma length_toUpperCase (s : string) :
  String.length (TestBankAPI.toUpperCase s) = String.length s.
Proof. induction s as [|c s IH]; simpl; [done|by rewrite IH]. Qed.

Lemma length_substring (n m : nat) (s : string) :
  String.length (String.substring n m s)
  = Nat.min m (String.length s - n).
Proof.
  revert n m. induction s as [|c s IH]; intros n m.
  - destruct n, m; reflexivity.
  - destruct n as [|n].
    + destruct m as [|m]; [reflexivity|]. simpl. by rewrite IH, Nat.sub_0_r.
    + simpl. apply IH.
Qed.

Lemma length_digits36 (ds : list N) :
  String.length (TestBankAPI.digits36 ds) = length ds.
Proof. induction ds as [|d ds IH]; simpl; [done|by rewrite IH]. Qed.

(** A draw in [0,1) picks one of the six codes, with its message from the
    table. *)
Lemma generateRandomError_taxonomy (r : Q) :
  (0 <= r)%Q → (r < 1)%Q →
  ∃ code message,
    TestBankAPI.generateRandomError r = (Some code, message) ∧
    code ∈ six_codes ∧
    TestBankAPI.prop code TestBankAPI.messages = Some message.
Proof.
  intros H0 H1. unfold TestBankAPI.generateRandomError.
  change (inject_Z (Z.of_nat (length TestBankAPI.errorCodes.*1)))
    with (inject_Z 6).
  set (i := Qfloor (r * inject_Z 6)).
  assert (Hlo : 0 <= i).
  { change 0 with (Qfloor 0). apply Qfloor_resp_le.
    apply Qmult_le_0_compat; [done|]. unfold Qle. simpl. lia. }
  assert (Hhi : i < 6).
  { rewrite Zlt_Qlt.
    apply Qle_lt_trans with (r * inject_Z 6)%Q; [apply Qfloor_le|].
    apply Qlt_le_trans with (1 * inject_Z 6)%Q.
    - apply Qmult_lt_compat_r; [reflexivity|done].
    - unfold Qle. simpl. lia. }
  assert (Hi : i = 0 ∨ i = 1 ∨ i = 2 ∨ i = 3 ∨ i = 4 ∨ i = 5) by lia.
  destruct Hi as [->|[->|[->|[->|[->| ->]]]]];
    do 2 eexists; (split; [reflexivity|]); (split; [|reflexivity]);
    unfold six_codes; set_solver.
Qed.


(** With the rate set to zero through [setSuccessRate], no draw of
    [Math.random()] is below it: every authorization is declined, with the
    error [generateRandomError] draws. *)
Lemma setSuccessRate_zero_declines (api : TestBankAPI.t)
    (d : TestBankAPI.authDraws) (paymentData : BankPaymentData.t) :
  (0 <= TestBankAPI.outcome_random d)%Q →
  let result :=
    TestBankAPI.authorizePayment (TestBankAPI.setSuccessRate 0 api) d
      paymentData in
  AuthResult.success result = false ∧
  AuthResult.errorCode result =
    (TestBankAPI.generateRandomError (TestBankAPI.error_random d)).1.
Proof.
  intros H. unfold TestBankAPI.authorizePayment, Qltb.
  assert (Hle : Qle_bool
                  (TestBankAPI.successRate (TestBankAPI.setSuccessRate 0 api))
                  (TestBankAPI.outcome_random d) = true).
  { apply Qle_bool_iff. simpl. exact H. }
  by rewrite Hle.
Qed.



(** With the rate set to zero through [setSuccessRate], the flow of an
    [nfc_detected] message ends [failed] with one of the six bank codes,
    and the only bank call is the authorization. *)
Lemma zero_rate_session_fails now uuid (api : TestBankAPI.t)
    (da : TestBankAPI.authDraws) (dc : TestBankAPI.captureDraws) (ws : Conn)
    (v : JsVal) (T : ustring) paymentId pid nfc (s : Server) :
  checkTerminalId v = Some T →
  JsMap.has T (clients s) = true →
  session_ready s uuid paymentId pid →
  (0 <= TestBankAPI.outcome_random da)%Q →
  (0 <= TestBankAPI.error_random da)%Q →
  (TestBankAPI.error_random da < 1)%Q →
  ∃ (s' : Server) (row : PaymentRow.t) (code : string) (d : BankPaymentData.t),
    handleNFCDetected now uuid
      (TestBankAPI_bank (TestBankAPI.setSuccessRate 0 api) da dc)
      ws v paymentId nfc s = (Returned tt, s') ∧
    payments s' !! pid = Some row ∧
    PaymentRow.status row = "failed" ∧
    PaymentRow.error_code row = Some code ∧
    code ∈ six_codes ∧
    bank_calls s' = bank_calls s ++ [CallAuthorize d].
Proof.
  intros Hid Hreg Hready Hdraw H0 H1.
  destruct (handleNFCDetected_run now uuid
              (TestBankAPI_bank (TestBankAPI.setSuccessRate 0 api) da dc)
              ws v T paymentId pid nfc s Hid Hreg Hready)
    as (p & s' & row & message & calls & Hrun & _ & _ & Hflow & _ & _
          & Hpay & _ & Hcalls & _).
  destruct (setSuccessRate_zero_declines api da (bankPaymentData p nfc) Hdraw)
    as [Hdeclined Herror].
  destruct (generateRandomError_taxonomy _ H0 H1)
    as (code & msg & Hcode & Hin & _).
  rewrite Hcode in Herror. simpl in Herror.
  exists s', row, code, (bankPaymentData p nfc).
  split; [exact Hrun|]. split; [rewrite Hpay; apply lookup_insert_eq|].
  remember (PaymentRow.status row) as st.
  remember (PaymentRow.bank_transaction_id row) as tx.
  remember (PaymentRow.error_code row) as er.
  remember (PaymentRow.completed_at row) as co.
  destruct Hflow as [e Ha|r Ha Hok|r e Ha Hok Hc|r c Ha Hok Hc Hcok
                    |r c Ha Hok Hc Hcok];
    simpl in Ha; try discriminate; injection Ha as <-;
    try (rewrite Hdeclined in Hok; discriminate).
  by rewrite Herror.
Qed.

(** C7 at the failing input.  A simulator constructed with
    [{ successRate: 0 }] has success rate 0.9: the draw 0.5 is approved,
    the capture is requested and the session ends [completed]. *)
Theorem constructor_drops_zero_successRate :
  TestBankAPI.successRate
    (TestBankAPI.new (TestBankAPI.mk_options (Some 0%Q) None)) = (9 # 10)%Q ∧
  let r := handleNFCDetected 100 "u-1" zero_rate_bank 7%nat (JStr T1) None
             no_card shop in
  r.1 = Returned tt ∧
  PaymentRow.status <$> payments r.2 !! "u-1" = Some "completed" ∧
  bank_calls r.2 =
    [CallAuthorize
       (BankPaymentData.mk 1000 "RUB" T1 "u-1" "**** **** **** ****" "unknown"
          None);
     CallCapture "tx-1" 1000].
Proof. vm_compute. done. Qed.

(** ** Sessions in a terminal state *)

(** C1 at the failing inputs.  Session [p1] is [failed]: an [nfc_detected]
    message naming it is processed, and with an approving bank the stored
    status becomes [completed].  Session [p2] is [completed]: a
    [payment_completed] message naming it with a [failed] result overwrites
    the stored status.  Neither is answered with an error.  (An
    [nfc_detected] message naming [p2] is turned away, because the
    [completed_at] text read back from the table has no [toISOString].) *)
Theorem terminal_session_reopened :
  (let r := handleNFCDetected 100 "u-1" approving_bank 7%nat (JStr T1)
              (Some "p1") no_card shop in
   r.1 = Returned tt ∧
   PaymentRow.status <$> payments shop !! "p1" = Some "failed" ∧
   PaymentRow.status <$> payments r.2 !! "p1" = Some "completed" ∧
   outbox r.2 =
     [(7%nat, payment_status (Some "p1") "processing" "Processing NFC payment"
                NoDetail 100);
      (7%nat, payment_status (Some "p1") "completed" "Payment successful"
                (Approved 500 "tx-1" (Some "AZ3456")) 100)])
  ∧
  (let result := CompletionResult.mk "failed" None (Some "E006") in
   let r := handlePaymentCompleted 100 "u-1" 7%nat (JStr T1) (Some "p2")
              result shop in
   r.1 = Returned tt ∧
   PaymentRow.status <$> payments shop !! "p2" = Some "completed" ∧
   PaymentRow.status <$> payments r.2 !! "p2" = Some "failed" ∧
   outbox r.2 =
     [(7%nat, payment_status (Some "p2") "failed" "Payment failed"
                (ResultEcho result) 100)])
  ∧
  (let r := handleNFCDetected 100 "u-1" approving_bank 7%nat (JStr T1)
              (Some "p2") no_card shop in
   r.1 = Returned tt ∧
   payments r.2 !! "p2" = Some completed_session ∧
   outbox r.2 =
     [(7%nat, payment_status None "failed" "Failed to process NFC payment"
                (ErrorText "this.completedAt.toISOString is not a function")
                100)]).
Proof. vm_compute. done. Qed.

(** ** Amounts *)

(** C9 at the failing inputs.  [POST /api/terminals/T1/activate] with
    [amount: -5] answers 200 and creates a session of amount -5, pushed to
    the terminal; an [nfc_detected] message without a payment id whose card
    payload carries [amount: -5] creates a session of amount -5 and asks
    the bank to authorize it; [sendPaymentRequest] called without an amount
    creates a session of amount 0.  The sibling route
    [POST /api/terminals/T1/payment-request] answers 400 to the amount -5
    and creates nothing. *)
Theorem nonpositive_amount_session_created :
  (let r := route_activate 100 "u-1" T1 (Some (-5)) None None shop in
   (∃ p, r.1 = Returned (mkResponse 200 (Some p) None) ∧
         Payment.amount p = -5) ∧
   PaymentRow.amount <$> payments r.2 !! "u-1" = Some (-5) ∧
   outbox r.2 = [(7%nat, payment_request "u-1" (-5) "RUB" "nfc" false 100)])
  ∧
  (let r := handleNFCDetected 100 "u-1" approving_bank 7%nat (JStr T1) None
              (NfcData.mk (Some (-5)) None None None None) shop in
   r.1 = Returned tt ∧
   PaymentRow.amount <$> payments r.2 !! "u-1" = Some (-5) ∧
   bank_calls r.2 =
     [CallAuthorize
        (BankPaymentData.mk (-5) "RUB" T1 "u-1" "**** **** **** ****"
           "unknown" None);
      CallCapture "tx-1" (-5)])
  ∧
  (let r := sendPaymentRequest 100 "u-1" (JStr T1)
              (RequestData.mk None None None None) shop in
   (∃ p, r.1 = Returned p ∧ Payment.amount p = 0) ∧
   PaymentRow.amount <$> payments r.2 !! "u-1" = Some 0 ∧
   outbox r.2 = [(7%nat, payment_request "u-1" 0 "RUB" "nfc" false 100)])
  ∧
  (let r := route_payment_request 100 "u-1" T1 (Some (-5)) None None shop in
   r.1 = Returned (mkResponse 400 None (Some "Valid amount is required")) ∧
   payments r.2 = payments shop ∧
   outbox r.2 = []).
Proof.
  vm_compute. split; [|split; [done|split; [|done]]].
  - split; [|done]. eexists. by split.
  - split; [|done]. eexists. by split.
Qed.

Lemma channel_replacement_witness :
  JsMap.wf (clients shop_offline) ∧
  nonblank T1 ∧
  terminals shop_offline !! T1 = Some till ∧
  1%nat ≠ 2%nat ∧
  readyState shop_offline 2%nat = OPEN ∧
  let s1 := (handleTerminalReady 100 1%nat (JStr T1) shop_offline).2 in
  let s2 := (handleTerminalReady 100 2%nat (JStr T1) s1).2 in
  let s3 := (close_connection 1%nat s2).2 in
  let s4 := (close_connection 2%nat s3).2 in
  JsMap.get T1 (clients s1) = Some 1%nat ∧
  JsMap.get T1 (clients s2) = Some 2%nat ∧
  JsMap.get T1 (clients s3) = Some 2%nat ∧
  isTerminalConnected (JStr T1) s3 = true ∧
  isTerminalConnected (JStr T1) s4 = false ∧
  ((∀ t, t ≠ T1 → JsMap.get t (clients shop_offline) ≠ Some 2%nat) →
   JsMap.get T1 (clients s4) = None) ∧
  (∀ (s0 : Server) (ws c : Conn) (t : ustring),
     JsMap.wf (clients s0) →
     JsMap.get t (clients s0) = Some c →
     JsMap.get t (clients (on_close ws s0).2) = None →
     c = ws).
Proof.
  assert (H1 : JsMap.wf (clients shop_offline)) by apply NoDup_nil_2.
  assert (H2 : nonblank T1) by (apply nonblank_forallb; reflexivity).
  assert (H3 : terminals shop_offline !! T1 = Some till)
    by (vm_compute; reflexivity).
  assert (H4 : 1%nat ≠ 2%nat) by lia.
  assert (H5 : readyState shop_offline 2%nat = OPEN) by reflexivity.
  repeat (split; [assumption|]).
  exact (channel_replacement 100 shop_offline T1 1%nat 2%nat till
           H1 H2 H3 H4 H5).
Defined.

(** * Further properties *)

(** ** The terminal channel *)

(** X1.  [isTerminalConnected] answers [true] exactly for a string with a
    character that is not white space, stored in the map with a socket
    whose [readyState] is [OPEN]; every other value ([undefined], [null],
    a number, an empty or blank string, an unknown id, a socket that is
    not open) gets [false]. *)
Theorem isTerminalConnected_true_iff (v : JsVal) (s : Server) :
  isTerminalConnected v s = true
  ↔ ∃ (t : ustring) (client : Conn),
      v = JStr t ∧ nonblank t ∧
      JsMap.get t (clients s) = Some client ∧
      readyState s client = OPEN.
Proof.
  unfold isTerminalConnected. split.
  - destruct (checkTerminalId v) as [t|] eqn:Hid; [|done].
    apply checkTerminalId_Some in Hid as [-> Hnb].
    destruct (JsMap.get t (clients s)) as [client|] eqn:Hget; [|done].
    intros Hopen%N.eqb_eq. by exists t, client.
  - intros (t & client & -> & Hnb & Hget & Hopen).
    assert (Hid : checkTerminalId (JStr t) = Some t)
      by by apply checkTerminalId_Some.
    rewrite Hid, Hget, Hopen. reflexivity.
Qed.

(** X2.  For a terminal id that passes the guard, [sendToTerminal]
    returns what [isTerminalConnected] reports and never throws: when
    connected it hands the message to the stored socket and changes
    nothing else, when not it leaves the server as it was. *)
Theorem sendToTerminal_iff_connected (T : ustring) (message : Message)
    (s : Server) :
  nonblank T →
  ∃ s' : Server,
    sendToTerminal T message s
      = (Returned (isTerminalConnected (JStr T) s), s') ∧
    if isTerminalConnected (JStr T) s then
      ∃ client : Conn,
        JsMap.get T (clients s) = Some client ∧
        s' = with_outbox (λ o, o ++ [(client, message)]) s
    else s' = s.
Proof.
  intros Hnb.
  assert (Hid : checkTerminalId (JStr T) = Some T)
    by by apply checkTerminalId_Some.
  unfold isTerminalConnected, sendToTerminal. rewrite Hid.
  unfold ws_send, modify, get_state, mbind, M_bind, mret, M_ret. simpl.
  destruct (JsMap.get T (clients s)) as [client|]; [|by eexists].
  change (readyState s client =? OPEN)%N with (readyState s client =? 1)%N.
  destruct (readyState s client =? 1)%N; simpl; eexists; (split; [done|]).
  - by exists client.
  - done.
Qed.

Lemma sendToTerminal_iff_connected_witness :
  nonblank T1 ∧
  ∃ s' : Server,
    sendToTerminal T1 (terminal_config T1 till None 100) shop
      = (Returned (isTerminalConnected (JStr T1) shop), s') ∧
    if isTerminalConnected (JStr T1) shop then
      ∃ client : Conn,
        JsMap.get T1 (clients shop) = Some client ∧
        s' = with_outbox
               (λ o, o ++ [(client, terminal_config T1 till None 100)]) shop
    else s' = shop.
Proof.
  assert (H1 : nonblank T1) by (apply nonblank_forallb; reflexivity).
  split; [assumption|].
  exact (sendToTerminal_iff_connected T1 (terminal_config T1 till None 100)
           shop H1).
Defined.

Lemma keys_set {V} (m : list (ustring * V)) (k : ustring) (v : V) :
  JsMap.keys (JsMap.set k v m)
  = if bool_decide (k ∈ JsMap.keys m) then JsMap.keys m
    else JsMap.keys m ++ [k].
Proof.
  unfold JsMap.keys. induction m as [|[k0 v0] m IH]; [done|].
  cbn [JsMap.set]. destruct (decide (k = k0)) as [->|Hne];
    rewrite !fmap_cons; cbn [fst].
  - clear IH. case_bool_decide as Hin; [reflexivity|].
    exfalso. apply Hin. by left.
  - rewrite IH. repeat case_bool_decide; try reflexivity.
    + exfalso. match goal with H : ¬ _ |- _ => apply H end. by right.
    + match goal with H : k ∈ _ :: _ |- _ =>
        apply elem_of_cons in H as [?|?]; done end.
Qed.

(** X3.  A successful [terminal_ready] keeps the list
    [getConnectedTerminals] reports in order: an id already listed stays
    where it is (only its socket is replaced), a new id goes to the end.
    No id is listed twice afterwards, and the sockets of the other ids
    are untouched. *)
Theorem handleTerminalReady_connected_list now (ws : Conn) (t : ustring)
    (term : Terminal.t) (s : Server) :
  nonblank t →
  terminals s !! t = Some term →
  JsMap.wf (clients s) →
  let s' := (handleTerminalReady now ws (JStr t) s).2 in
  getConnectedTerminals s'
    = (if bool_decide (t ∈ getConnectedTerminals s)
       then getConnectedTerminals s
       else getConnectedTerminals s ++ [t]) ∧
  NoDup (getConnectedTerminals s') ∧
  JsMap.get t (clients s') = Some ws ∧
  ∀ t', t' ≠ t → JsMap.get t' (clients s') = JsMap.get t' (clients s).
Proof.
  intros Hnb Hterm Hwf.
  assert (Hid : checkTerminalId (JStr t) = Some t)
    by by apply checkTerminalId_Some.
  rewrite (handleTerminalReady_registered _ _ _ _ _ _ Hid Hterm). simpl.
  unfold getConnectedTerminals. simpl.
  split; [apply keys_set|]. split; [by apply wf_set|].
  split; [apply get_set_eq|]. intros t' Hne. by apply get_set_ne.
Qed.

Lemma handleTerminalReady_connected_list_witness :
  nonblank T1 ∧
  terminals shop !! T1 = Some till ∧
  JsMap.wf (clients shop) ∧
  let s' := (handleTerminalReady 100 9%nat (JStr T1) shop).2 in
  getConnectedTerminals s'
    = (if bool_decide (T1 ∈ getConnectedTerminals shop)
       then getConnectedTerminals shop
       else getConnectedTerminals shop ++ [T1]) ∧
  NoDup (getConnectedTerminals s') ∧
  JsMap.get T1 (clients s') = Some 9%nat ∧
  ∀ t', t' ≠ T1 → JsMap.get t' (clients s') = JsMap.get t' (clients shop).
Proof.
  assert (H1 : nonblank T1) by (apply nonblank_forallb; reflexivity).
  assert (H2 : terminals shop !! T1 = Some till) by (vm_compute; reflexivity).
  assert (H3 : JsMap.wf (clients shop)) by apply NoDup_singleton.
  repeat (split; [assumption|]).
  exact (handleTerminalReady_connected_list 100 9%nat T1 till shop H1 H2 H3).
Defined.

Lemma delete_found_count (ws : Conn) (m : list (ustring * Conn)) k c :
  JsMap.wf m →
  JsMap.find_entry (λ client, bool_decide (client = ws)) m = Some (k, c) →
  length (filter (λ e, e.2 = ws) (JsMap.delete k m))
  = pred (length (filter (λ e, e.2 = ws) m)).
Proof.
  unfold JsMap.wf, JsMap.keys.
  induction m as [|[k0 v0] m IH]; simpl; [done|].
  intros [Hnotin Hnd]%NoDup_cons.
  destruct (bool_decide (v0 = ws)) eqn:Hv.
  - apply bool_decide_eq_true in Hv as ->. intros [= -> ->].
    rewrite decide_True by done. by rewrite filter_cons_True.
  - apply bool_decide_eq_false in Hv. intros Hfind.
    rewrite (filter_cons_False _ (k0, v0)) by done.
    destruct (decide (k = k0)) as [->|Hne].
    + exfalso. apply find_entry_Some in Hfind as [Hin _].
      apply Hnotin. apply list_elem_of_fmap. by exists (k0, c).
    + rewrite filter_cons_False by done. by apply IH.
Qed.

Lemma find_entry_None_count (ws : Conn) (m : list (ustring * Conn)) :
  JsMap.find_entry (λ client, bool_decide (client = ws)) m = None →
  filter (λ e, e.2 = ws) m = [].
Proof.
  induction m as [|[k0 v0] m IH]; simpl; [done|].
  destruct (bool_decide (v0 = ws)) eqn:Hv; [done|].
  apply bool_decide_eq_false in Hv. intros Hfind.
  rewrite filter_cons_False by done. by apply IH.
Qed.

(** X4.  The ['close'] listener removes exactly one entry of the closing
    socket when the map holds any, and none otherwise; a socket stored
    under two ids stays stored under one of them.  Entries of other
    sockets keep their place, and no id gets a socket it did not have. *)
Theorem on_close_removes_one (ws : Conn) (s : Server) :
  JsMap.wf (clients s) →
  let s' := (on_close ws s).2 in
  length (filter (λ e, e.2 = ws) (clients s'))
    = pred (length (filter (λ e, e.2 = ws) (clients s))) ∧
  (∀ t c, c ≠ ws → JsMap.get t (clients s) = Some c →
          JsMap.get t (clients s') = Some c) ∧
  (∀ t c, JsMap.get t (clients s') = Some c →
          JsMap.get t (clients s) = Some c) ∧
  payments s' = payments s ∧ outbox s' = outbox s.
Proof.
  intros Hwf s'. subst s'.
  destruct (on_close_effect ws s Hwf) as (_ & _ & Hget).
  split; [|split; [|split]].
  - unfold on_close, mbind, M_bind, get_state. simpl.
    destruct (JsMap.find_entry _ (clients s)) as [[k c]|] eqn:Hfind; simpl.
    + exact (delete_found_count ws _ k c Hwf Hfind).
    + by rewrite (find_entry_None_count _ _ Hfind).
  - intros t c Hne Hsome. destruct (Hget t) as [->|[Heq _]]; [done|congruence].
  - intros t c Hsome. destruct (Hget t) as [<-|[_ Hnone]]; [done|congruence].
  - unfold on_close, mbind, M_bind, get_state. simpl.
    by destruct (JsMap.find_entry _ (clients s)) as [[k c]|].
Qed.

Lemma on_close_removes_one_witness :
  JsMap.wf (clients shop) ∧
  let s' := (on_close 7%nat shop).2 in
  length (filter (λ e, e.2 = 7%nat) (clients s'))
    = pred (length (filter (λ e, e.2 = 7%nat) (clients shop))) ∧
  (∀ t c, c ≠ 7%nat → JsMap.get t (clients shop) = Some c →
          JsMap.get t (clients s') = Some c) ∧
  (∀ t c, JsMap.get t (clients s') = Some c →
          JsMap.get t (clients shop) = Some c) ∧
  payments s' = payments shop ∧ outbox s' = outbox shop.
Proof.
  assert (H1 : JsMap.wf (clients shop)) by apply NoDup_singleton.
  split; [assumption|].
  exact (on_close_removes_one 7%nat shop H1).
Defined.

(** ** Payment requests and terminal events *)

Lemma str_or_idem (x d : string) : str_or (str_or x d) d = str_or x d.
Proof.
  unfold str_or. destruct (String.eqb x "") eqn:Hx; [|by rewrite Hx].
  by destruct (String.eqb d "").
Qed.

Lemma opt_num_or_idem (x : option Z) : 
  (if opt_num_or x 0 =? 0 then 0 else opt_num_or x 0) = opt_num_or x 0.
Proof. destruct (Z.eqb_spec (opt_num_or x 0) 0); congruence. Qed.

(** X5.  A payment request for a terminal id that passes the guard and
    whose stored socket is open, the new id being unused: the call returns
    the new session, stored [pending] with the amount of the request (0 if
    the request has none), currency RUB and method nfc unless the request
    says otherwise, and exactly one [payment_request] carrying the same
    values is handed to the terminal's socket. *)
Theorem sendPaymentRequest_connected now uuid (v : JsVal) (T : ustring)
    (client : Conn) (paymentData : RequestData.t) (s : Server) :
  checkTerminalId v = Some T →
  JsMap.get T (clients s) = Some client →
  readyState s client = OPEN →
  payments s !! uuid = None →
  ∃ (p : Payment.t) (s' : Server),
    sendPaymentRequest now uuid v paymentData s = (Returned p, s') ∧
    Payment.id p = uuid ∧
    Payment.terminalId p = T ∧
    Payment.amount p = opt_num_or (RequestData.amount paymentData) 0 ∧
    Payment.currency p = opt_str_or (RequestData.currency paymentData) "RUB" ∧
    Payment.method p = opt_str_or (RequestData.method paymentData) "nfc" ∧
    Payment.status p = "pending" ∧
    payments s' =
      <[uuid := PaymentRow.mk T (Payment.amount p) (Payment.currency p)
                  (Payment.method p) "pending" None None now None]>
        (payments s) ∧
    outbox s' =
      outbox s ++
      [(client, payment_request uuid (Payment.amount p) (Payment.currency p)
                  (Payment.method p)
                  (default false (RequestData.testPayment paymentData)) now)] ∧
    clients s' = clients s ∧
    bank_calls s' = bank_calls s.
Proof.
  intros Hid Hget Hopen Hfresh.
  unfold sendPaymentRequest. rewrite Hid.
  unfold sendToTerminal. unfold_js. cbn. rewrite Hfresh. cbn.
  rewrite Hget, Hopen. cbn.
  assert (Hc : str_or (opt_str_or (RequestData.currency paymentData) "RUB") "RUB"
               = opt_str_or (RequestData.currency paymentData) "RUB").
  { destruct (RequestData.currency paymentData); [apply str_or_idem|done]. }
  assert (Hm : str_or (opt_str_or (RequestData.method paymentData) "nfc") ""
               = opt_str_or (RequestData.method paymentData) "nfc").
  { unfold str_or at 1.
    destruct (String.eqb_spec
                (opt_str_or (RequestData.method paymentData) "nfc") "")
      as [->|]; done. }
  do 2 eexists. split; [reflexivity|]. cbn. rewrite Hc, Hm. done.
Qed.

Lemma sendPaymentRequest_connected_witness :
  checkTerminalId (JStr T1) = Some T1 ∧
  JsMap.get T1 (clients shop) = Some 7%nat ∧
  readyState shop 7%nat = OPEN ∧
  payments shop !! "u-1" = None ∧
  ∃ (p : Payment.t) (s' : Server),
    sendPaymentRequest 100 "u-1" (JStr T1)
      (RequestData.mk (Some 2500) None None None) shop = (Returned p, s') ∧
    Payment.id p = "u-1" ∧
    Payment.terminalId p = T1 ∧
    Payment.amount p = opt_num_or (Some 2500) 0 ∧
    Payment.currency p = opt_str_or None "RUB" ∧
    Payment.method p = opt_str_or None "nfc" ∧
    Payment.status p = "pending" ∧
    payments s' =
      <["u-1" := PaymentRow.mk T1 (Payment.amount p) (Payment.currency p)
                   (Payment.method p) "pending" None None 100 None]>
        (payments shop) ∧
    outbox s' =
      outbox shop ++
      [(7%nat, payment_request "u-1" (Payment.amount p) (Payment.currency p)
                 (Payment.method p) (default false None) 100)] ∧
    clients s' = clients shop ∧
    bank_calls s' = bank_calls shop.
Proof.
  assert (H1 : checkTerminalId (JStr T1) = Some T1) by reflexivity.
  assert (H2 : JsMap.get T1 (clients shop) = Some 7%nat) by reflexivity.
  assert (H3 : readyState shop 7%nat = OPEN) by reflexivity.
  assert (H4 : payments shop !! "u-1" = None) by (vm_compute; reflexivity).
  repeat (split; [assumption|]).
  exact (sendPaymentRequest_connected 100 "u-1" (JStr T1) T1 7%nat
           (RequestData.mk (Some 2500) None None None) shop H1 H2 H3 H4).
Defined.

(** X6.  [sendPaymentRequest] with a terminal id the guard refuses, or
    with an id from [uuidv4()] that is already a key of the table, throws
    and leaves the server exactly as it was: no session, no message. *)
Theorem sendPaymentRequest_rejected now uuid (v : JsVal)
    (paymentData : RequestData.t) (s : Server) :
  checkTerminalId v = None ∨ is_Some (payments s !! uuid) →
  ∃ e : string,
    sendPaymentRequest now uuid v paymentData s = (Thrown e, s).
Proof.
  intros H. unfold sendPaymentRequest.
  destruct (checkTerminalId v) as [T|] eqn:Hid.
  - destruct H as [H|[row Hrow]]; [done|].
    unfold_js. cbn. rewrite Hrow. cbn. by eexists.
  - by eexists.
Qed.

Lemma sendPaymentRequest_rejected_witness :
  (checkTerminalId (JStr (u16 "  ")) = None
   ∨ is_Some (payments shop !! "u-1")) ∧
  ∃ e : string,
    sendPaymentRequest 100 "u-1" (JStr (u16 "  "))
      (RequestData.mk (Some 2500) None None None) shop = (Thrown e, shop).
Proof.
  assert (H1 : checkTerminalId (JStr (u16 "  ")) = None
               ∨ is_Some (payments shop !! "u-1"))
    by (left; reflexivity).
  split; [assumption|].
  exact (sendPaymentRequest_rejected 100 "u-1" (JStr (u16 "  "))
           (RequestData.mk (Some 2500) None None None) shop H1).
Defined.

(** X7.  An [nfc_detected] message is turned away with one [error]
    message on its own socket, and nothing else happens (no session
    created or changed, no bank call), when its terminal id fails the
    guard, when that id is not a key of the connection map, or when it
    names a payment the table does not hold. *)
Theorem handleNFCDetected_turned_away now uuid bank (ws : Conn) (v : JsVal)
    (paymentId : option string) (nfc : NfcData.t) (s : Server) :
  checkTerminalId v = None
  ∨ (∃ T, checkTerminalId v = Some T ∧ JsMap.get T (clients s) = None)
  ∨ (∃ id, paymentId = Some id ∧ id ≠ "" ∧ payments s !! id = None) →
  ∃ text : string,
    handleNFCDetected now uuid bank ws v paymentId nfc s
      = (Returned tt,
         with_outbox (λ o, o ++ [(ws, error_message text None None)]) s).
Proof.
  intros H. unfold handleNFCDetected.
  destruct (checkTerminalId v) as [T|] eqn:Hid; [|by eexists].
  unfold mbind at 1. unfold M_bind at 1. unfold get_state at 1.
  unfold JsMap.has.
  destruct (JsMap.get T (clients s)) as [c|] eqn:Hget; [|by eexists].
  simpl negb. cbv iota.
  destruct H as [H|[(T' & [= <-] & H)|(id & -> & Hne & Hnone)]];
    [done|congruence|].
  assert (Htruthy : truthy_str (Some id) = true).
  { simpl. by destruct (String.eqb_spec id ""). }
  rewrite Htruthy. unfold_js. cbn. rewrite Hnone. cbn. by eexists.
Qed.

Lemma handleNFCDetected_turned_away_witness :
  (checkTerminalId (JStr T1) = None
   ∨ (∃ T, checkTerminalId (JStr T1) = Some T
           ∧ JsMap.get T (clients shop_offline) = None)
   ∨ (∃ id, None = Some id ∧ id ≠ "" ∧ payments shop_offline !! id = None)) ∧
  ∃ text : string,
    handleNFCDetected 100 "u-1" approving_bank 7%nat (JStr T1) None no_card
      shop_offline
      = (Returned tt,
         with_outbox (λ o, o ++ [(7%nat, error_message text None None)])
           shop_offline).
Proof.
  assert (H1 : checkTerminalId (JStr T1) = None
               ∨ (∃ T, checkTerminalId (JStr T1) = Some T
                       ∧ JsMap.get T (clients shop_offline) = None)
               ∨ (∃ id, None = Some id ∧ id ≠ ""
                        ∧ payments shop_offline !! id = None))
    by (right; left; exists T1; split; reflexivity).
  split; [assumption|].
  exact (handleNFCDetected_turned_away 100 "u-1" approving_bank 7%nat
           (JStr T1) None no_card shop_offline H1).
Defined.

(** X8.  An [nfc_detected] message that names a stored payment whose
    [completed_at] column is set never reaches the bank: [update] throws
    on the text read back from the table, the handler answers with a
    [failed] status carrying that error, and the row stays as it was. *)
Theorem handleNFCDetected_completed_at_set now uuid bank (ws : Conn)
    (v : JsVal) (T : ustring) (id : string) (row : PaymentRow.t) (t : Z)
    (nfc : NfcData.t) (s : Server) :
  checkTerminalId v = Some T →
  JsMap.has T (clients s) = true →
  id ≠ "" →
  payments s !! id = Some row →
  PaymentRow.completed_at row = Some t →
  handleNFCDetected now uuid bank ws v (Some id) nfc s
    = (Returned tt,
       with_outbox
         (λ o, o ++ [(ws, payment_status None "failed"
                            "Failed to process NFC payment"
                            (ErrorText
                               "this.completedAt.toISOString is not a function")
                            now)]) s).
Proof.
  intros Hid Hreg Hne Hrow Ht. unfold handleNFCDetected. rewrite Hid.
  unfold mbind at 1. unfold M_bind at 1. unfold get_state at 1.
  rewrite Hreg. simpl negb. cbv iota.
  assert (Htruthy : truthy_str (Some id) = true).
  { simpl. by destruct (String.eqb_spec id ""). }
  rewrite Htruthy. unfold nfc_process. unfold_js.
  cbn -[processNFCPaymentWithBank]. rewrite Hrow.
  cbn -[processNFCPaymentWithBank]. rewrite Ht. reflexivity.
Qed.

Lemma handleNFCDetected_completed_at_set_witness :
  checkTerminalId (JStr T1) = Some T1 ∧
  JsMap.has T1 (clients shop) = true ∧
  "p2" ≠ "" ∧
  payments shop !! "p2" = Some completed_session ∧
  PaymentRow.completed_at completed_session = Some 50 ∧
  handleNFCDetected 100 "u-1" approving_bank 7%nat (JStr T1) (Some "p2")
    no_card shop
    = (Returned tt,
       with_outbox
         (λ o, o ++ [(7%nat, payment_status None "failed"
                               "Failed to process NFC payment"
                               (ErrorText
                                  "this.completedAt.toISOString is not a function")
                               100)]) shop).
Proof.
  assert (H1 : checkTerminalId (JStr T1) = Some T1) by reflexivity.
  assert (H2 : JsMap.has T1 (clients shop) = true) by reflexivity.
  assert (H3 : "p2" ≠ "") by discriminate.
  assert (H4 : payments shop !! "p2" = Some completed_session)
    by (vm_compute; reflexivity).
  assert (H5 : PaymentRow.completed_at completed_session = Some 50)
    by reflexivity.
  repeat (split; [assumption|]).
  exact (handleNFCDetected_completed_at_set 100 "u-1" approving_bank 7%nat
           (JStr T1) T1 "p2" completed_session 50 no_card shop
           H1 H2 H3 H4 H5).
Defined.

(** X9.  A [payment_completed] message with a terminal id that passes the
    guard and the id of a stored payment is applied whatever the state of
    that payment, and whether or not the terminal is connected or owns the
    payment: the row takes the status of the result as it is, the clock as
    [completed_at], and the result's bank transaction id and error code
    where the result carries them (the row keeps its own otherwise); the
    sender gets one [payment_status] echoing the result, and no bank call
    is made. *)
Theorem handlePaymentCompleted_applies_result now uuid (ws : Conn)
    (v : JsVal) (T : ustring) (id : string) (row0 : PaymentRow.t)
    (result : CompletionResult.t) (s : Server) :
  checkTerminalId v = Some T →
  id ≠ "" →
  payments s !! id = Some row0 →
  ∃ s' : Server,
    handlePaymentCompleted now uuid ws v (Some id) result s
      = (Returned tt, s') ∧
    payments s' =
      <[id := PaymentRow.mk (PaymentRow.terminal_id row0)
                (PaymentRow.amount row0)
                (str_or (PaymentRow.currency row0) "RUB")
                (PaymentRow.method row0)
                (CompletionResult.status result)
                (if truthy_str (CompletionResult.bankTransactionId result)
                 then CompletionResult.bankTransactionId result
                 else Payment.falsy_to_null
                        (PaymentRow.bank_transaction_id row0))
                (if truthy_str (CompletionResult.errorCode result)
                 then CompletionResult.errorCode result
                 else Payment.falsy_to_null (PaymentRow.error_code row0))
                (PaymentRow.created_at row0) (Some now)]> (payments s) ∧
    outbox s' =
      outbox s ++
      [(ws, payment_status (Some id) (CompletionResult.status result)
              (if String.eqb (CompletionResult.status result) "completed"
               then "Payment confirmed" else "Payment failed")
              (ResultEcho result) now)] ∧
    bank_calls s' = bank_calls s ∧
    clients s' = clients s.
Proof.
  intros Hid Hne Hrow.
  assert (Hkey : str_or id uuid = id).
  { unfold str_or. by destruct (String.eqb_spec id ""). }
  unfold handlePaymentCompleted. rewrite Hid.
  unfold_js. cbn. rewrite Hrow. cbn. rewrite !Hkey, Hrow. cbn.
  eexists. split; [reflexivity|]. cbn.
  destruct (CompletionResult.bankTransactionId result) as [b|];
    destruct (CompletionResult.errorCode result) as [e|]; cbn;
    repeat match goal with
           | |- context [String.eqb ?x ""] => destruct (String.eqb x "")
           end; cbn; done.
Qed.

Lemma handlePaymentCompleted_applies_result_witness :
  checkTerminalId (JStr T1) = Some T1 ∧
  "p2" ≠ "" ∧
  payments shop !! "p2" = Some completed_session ∧
  ∃ s' : Server,
    handlePaymentCompleted 100 "u-1" 7%nat (JStr T1) (Some "p2")
      (CompletionResult.mk "failed" None (Some "E006")) shop
      = (Returned tt, s') ∧
    payments s' =
      <["p2" := PaymentRow.mk (PaymentRow.terminal_id completed_session)
                  (PaymentRow.amount completed_session)
                  (str_or (PaymentRow.currency completed_session) "RUB")
                  (PaymentRow.method completed_session)
                  "failed"
                  (if truthy_str None then None
                   else Payment.falsy_to_null
                          (PaymentRow.bank_transaction_id completed_session))
                  (if truthy_str (Some "E006") then Some "E006"
                   else Payment.falsy_to_null
                          (PaymentRow.error_code completed_session))
                  (PaymentRow.created_at completed_session) (Some 100)]>
        (payments shop) ∧
    outbox s' =
      outbox shop ++
      [(7%nat, payment_status (Some "p2") "failed"
                 (if String.eqb "failed" "completed"
                  then "Payment confirmed" else "Payment failed")
                 (ResultEcho (CompletionResult.mk "failed" None (Some "E006")))
                 100)] ∧
    bank_calls s' = bank_calls shop ∧
    clients s' = clients shop.
Proof.
  assert (H1 : checkTerminalId (JStr T1) = Some T1) by reflexivity.
  assert (H2 : "p2" ≠ "") by discriminate.
  assert (H3 : payments shop !! "p2" = Some completed_session)
    by (vm_compute; reflexivity).
  repeat (split; [assumption|]).
  exact (handlePaymentCompleted_applies_result 100 "u-1" 7%nat (JStr T1) T1
           "p2" completed_session
           (CompletionResult.mk "failed" None (Some "E006")) shop H1 H2 H3).
Defined.

(** ** What a message can change *)

Section Frame.
Context {S : Type} (R : S → S → Prop) `{!PreOrder R}.

Lemma preserves_ret {A} (a : A) : preserves R (mret a).
Proof. intros s. cbn. reflexivity. Qed.

Lemma preserves_throw {A} (e : string) : preserves R (throw (A := A) e).
Proof. intros s. cbn. reflexivity. Qed.

Lemma preserves_get_state : preserves R get_state.
Proof. intros s. cbn. reflexivity. Qed.

Lemma preserves_modify (f : S → S) :
  (∀ s, R s (f s)) → preserves R (modify f).
Proof. intros H s. apply H. Qed.

Lemma preserves_bind {A B} (c : M S A) (k : A → M S B) :
  preserves R c → (∀ a, preserves R (k a)) → preserves R (c ≫= k).
Proof.
  intros Hc Hk s. unfold mbind, M_bind. specialize (Hc s).
  destruct (c s) as [[a|e] s1]; cbn in *; [|done].
  etrans; [exact Hc|apply Hk].
Qed.

Lemma preserves_try_catch {A} (body : M S A) (handler : string → M S A) :
  preserves R body → (∀ e, preserves R (handler e)) →
  preserves R (try_catch body handler).
Proof.
  intros Hc Hk s. unfold try_catch. specialize (Hc s).
  destruct (body s) as [[a|e] s1]; cbn in *; [done|].
  etrans; [exact Hc|apply Hk].
Qed.

Lemma preserves_toISOString (what : string) (d : DateValue) :
  preserves R (toISOString what d).
Proof. destruct d; [apply preserves_ret|apply preserves_throw]. Qed.

Lemma preserves_completedAt_param (p : Payment.t) :
  preserves R (completedAt_param p).
Proof.
  unfold completedAt_param. destruct (Payment.completedAt p); [|apply preserves_ret].
  apply preserves_bind; [apply preserves_toISOString|intros; apply preserves_ret].
Qed.
End Frame.

Tactic Notation "pres" uconstr(L) :=
  first [apply L; [tc_solve|..] | apply L].


#[global] Instance on_server_preorder (R : Server → Server → Prop)
  `{!PreOrder R} : PreOrder (on_server R).
Proof.
  split.
  - intros f. unfold on_server. reflexivity.
  - intros f1 f2 f3. unfold on_server. intros H1 H2. by etrans.
Qed.

Lemma preserves_lift {A} (R : Server → Server → Prop) (c : M Server A) :
  preserves R c → preserves (on_server R) (lift c).
Proof.
  intros H f. unfold lift, on_server. specialize (H (server f)).
  by destruct (c (server f)).
Qed.

Lemma preserves_with_payment {A} (R : Server → Server → Prop)
    (p : Payment.t) (c : M Flow A) :
  preserves (on_server R) c → preserves R (with_payment p c).
Proof.
  intros H s. unfold with_payment. specialize (H (mkFlow p s)).
  by destruct (c (mkFlow p s)).
Qed.

Lemma preserves_this (R : Server → Server → Prop) `{!PreOrder R} :
  preserves (on_server R) this.
Proof. intros f. unfold on_server. cbn. reflexivity. Qed.

#[global] Instance grows_preorder : PreOrder grows.
Proof.
  split.
  - intros s. unfold grows. split_and!; try done; by exists []; rewrite app_nil_r.
  - intros s1 s2 s3 (Ht1 & Hr1 & Hp1 & [o1 Ho1] & [b1 Hb1] & [l1 Hl1])
      (Ht2 & Hr2 & Hp2 & [o2 Ho2] & [b2 Hb2] & [l2 Hl2]).
    unfold grows. split_and!; [congruence|congruence|by auto|..].
    + exists (o1 ++ o2). by rewrite Ho2, Ho1, app_assoc.
    + exists (b1 ++ b2). by rewrite Hb2, Hb1, app_assoc.
    + exists (l1 ++ l2). by rewrite Hl2, Hl1, app_assoc.
Qed.

#[global] Instance same_clients_preorder : PreOrder same_clients.
Proof.
  split; [done|]. intros s1 s2 s3. unfold same_clients. congruence.
Qed.

(** The handlers are put together from four writes: a message handed to
    [ws.send], a row written to [payments], a bank call, a log line.  A
    preorder these four respect is respected by every handler but
    [handleTerminalReady], which also writes [this.clients]. *)
Section Handlers.
Context (R : Server → Server → Prop) `{!PreOrder R}.
Hypothesis R_outbox : ∀ sent s, R s (with_outbox (λ o, o ++ sent) s).
Hypothesis R_payments : ∀ id row s, R s (with_payments (<[id := row]>) s).
Hypothesis R_bank_calls : ∀ calls s, R s (with_bank_calls (λ l, l ++ calls) s).
Hypothesis R_transaction_log :
  ∀ lines s, R s (with_transaction_log (λ l, l ++ lines) s).

Lemma preserves_ws_send ws message : preserves R (ws_send ws message).
Proof. pres preserves_modify. intros s. apply R_outbox. Qed.

Lemma preserves_db_insert_payment id row :
  preserves R (db_insert_payment id row).
Proof.
  intros s. unfold db_insert_payment.
  destruct (payments s !! id); cbn; [reflexivity|apply R_payments].
Qed.

Lemma preserves_db_update_payment terminal_id amount currency method status
    bank_transaction_id error_code completed_at id :
  preserves R (db_update_payment terminal_id amount currency method status
                 bank_transaction_id error_code completed_at id).
Proof.
  intros s. unfold db_update_payment.
  destruct (payments s !! id); cbn; [apply R_payments|reflexivity].
Qed.

Lemma preserves_sendToTerminal T message :
  preserves R (sendToTerminal T message).
Proof.
  intros s. destruct (sendToTerminal_delivered T message s) as [b ->].
  apply R_outbox.
Qed.

Lemma preserves_Payment_create now uuid d :
  preserves R (Payment_create now uuid d).
Proof.
  unfold Payment_create.
  pres preserves_bind; [pres preserves_toISOString|intros].
  pres preserves_bind; [pres preserves_completedAt_param|intros].
  pres preserves_bind; [pres preserves_db_insert_payment|intros].
  pres preserves_ret.
Qed.

Lemma preserves_Payment_findById uuid id :
  preserves R (Payment_findById uuid id).
Proof.
  unfold Payment_findById.
  pres preserves_bind; [pres preserves_get_state|intros].
  pres preserves_ret.
Qed.

Lemma preserves_Payment_update u : preserves (on_server R) (Payment_update u).
Proof.
  unfold Payment_update.
  pres preserves_bind; [|intros].
  { pres preserves_modify. intros f. unfold on_server. cbn. reflexivity. }
  pres preserves_bind; [by pres preserves_this|intros].
  pres preserves_bind; [pres preserves_completedAt_param|intros].
  pres preserves_lift; pres preserves_db_update_payment.
Qed.

Lemma preserves_Payment_logTransaction action :
  preserves (on_server R) (Payment_logTransaction action).
Proof.
  unfold Payment_logTransaction.
  pres preserves_bind; [by pres preserves_this|intros].
  pres preserves_lift; pres preserves_modify. intros s. apply R_transaction_log.
Qed.

Lemma preserves_bank_authorizePayment bank d :
  preserves (on_server R) (bank_authorizePayment bank d).
Proof.
  unfold bank_authorizePayment. pres preserves_bind; [|intros].
  { pres preserves_lift; pres preserves_modify. intros s. apply R_bank_calls. }
  destruct (BankAPI.authorizePayment bank d);
    [pres preserves_ret|pres preserves_throw].
Qed.

Lemma preserves_bank_capturePayment bank tx amount :
  preserves (on_server R) (bank_capturePayment bank tx amount).
Proof.
  unfold bank_capturePayment. pres preserves_bind; [|intros].
  { pres preserves_lift; pres preserves_modify. intros s. apply R_bank_calls. }
  destruct (BankAPI.capturePayment bank tx amount);
    [pres preserves_ret|pres preserves_throw].
Qed.

Ltac frame :=
  repeat first
    [ progress intros
    | pres preserves_ret
    | pres preserves_throw
    | pres preserves_get_state
    | pres preserves_this
    | pres preserves_ws_send
    | pres preserves_sendToTerminal
    | pres preserves_Payment_create
    | pres preserves_Payment_findById
    | pres preserves_Payment_update
    | pres preserves_Payment_logTransaction
    | pres preserves_bank_authorizePayment
    | pres preserves_bank_capturePayment
    | pres preserves_lift
    | pres preserves_with_payment
    | pres preserves_bind; [|]
    | pres preserves_try_catch; [|]
    | match goal with
      | |- preserves _ (match ?x with _ => _ end) => destruct x
      end ].

Lemma preserves_processNFCPaymentWithBank now bank ws T nfc :
  preserves (on_server R) (processNFCPaymentWithBank now bank ws T nfc).
Proof. unfold processNFCPaymentWithBank, sendPaymentStatusUpdate. frame. Qed.

Lemma preserves_handleNFCDetected now uuid bank ws v paymentId nfc :
  preserves R (handleNFCDetected now uuid bank ws v paymentId nfc).
Proof.
  unfold handleNFCDetected, nfc_process.
  pose proof (preserves_processNFCPaymentWithBank now bank).
  frame.
Qed.

Lemma preserves_handlePaymentCompleted now uuid ws v paymentId result :
  preserves R (handlePaymentCompleted now uuid ws v paymentId result).
Proof. unfold handlePaymentCompleted. frame. Qed.

Lemma preserves_sendPaymentRequest now uuid v data :
  preserves R (sendPaymentRequest now uuid v data).
Proof. unfold sendPaymentRequest. frame. Qed.
End Handlers.

Lemma grows_outbox sent s : grows s (with_outbox (λ o, o ++ sent) s).
Proof.
  unfold grows. cbn. split_and!; try done; eauto; by exists []; rewrite app_nil_r.
Qed.

Lemma grows_payments id row s : grows s (with_payments (<[id := row]>) s).
Proof.
  unfold grows. cbn. split_and!; try done; try (by exists []; rewrite app_nil_r).
  intros id' H. destruct (decide (id = id')) as [->|Hne].
  - rewrite lookup_insert_eq. by eexists.
  - by rewrite lookup_insert_ne.
Qed.

Lemma grows_bank_calls calls s :
  grows s (with_bank_calls (λ l, l ++ calls) s).
Proof.
  unfold grows. cbn. split_and!; try done; eauto; by exists []; rewrite app_nil_r.
Qed.

Lemma grows_transaction_log lines s :
  grows s (with_transaction_log (λ l, l ++ lines) s).
Proof.
  unfold grows. cbn. split_and!; try done; eauto; by exists []; rewrite app_nil_r.
Qed.

Lemma grows_clients f s : grows s (with_clients f s).
Proof.
  unfold grows. cbn. split_and!; try done; by exists []; rewrite app_nil_r.
Qed.

Lemma preserves_handleTerminalReady now ws v :
  preserves grows (handleTerminalReady now ws v).
Proof.
  unfold handleTerminalReady. destruct (checkTerminalId v) as [t|].
  - pres preserves_bind; [pres preserves_get_state|].
    intros s. destruct (Terminal.new <$> terminals s !! t).
    + pres preserves_bind; [|intros].
      * pres preserves_modify. intros s0. apply grows_clients.
      * pres preserves_ws_send; [apply grows_outbox].
    + pres preserves_ws_send; [apply grows_outbox].
  - pres preserves_ws_send; [apply grows_outbox].
Qed.

(** X10.  Whatever message arrives, handling it only adds to the server:
    the [terminals] table and the sockets' [readyState] are untouched, no
    payment session is removed, and the messages sent, the bank calls and
    the log lines are appended to those before.  The connection map is
    written by [terminal_ready] alone. *)
Theorem handleWebSocketMessage_only_adds now uuid bank (ws : Conn)
    (data : Event) (s : Server) :
  let s' := (handleWebSocketMessage now uuid bank ws data s).2 in
  terminals s' = terminals s ∧
  readyState s' = readyState s ∧
  (∀ id, is_Some (payments s !! id) → is_Some (payments s' !! id)) ∧
  (∃ sent, outbox s' = outbox s ++ sent) ∧
  (∃ calls, bank_calls s' = bank_calls s ++ calls) ∧
  (∃ lines, transaction_log s' = transaction_log s ++ lines) ∧
  ((∀ v, data ≠ terminal_ready v) → clients s' = clients s).
Proof.
  intros s'. subst s'.
  assert (Hgrows : preserves grows (handleWebSocketMessage now uuid bank ws data)).
  { unfold handleWebSocketMessage.
    pres preserves_try_catch; [|intros].
    - destruct data.
      + pres preserves_handleTerminalReady.
      + pres preserves_handleNFCDetected; [..];
          auto using grows_outbox, grows_payments, grows_bank_calls,
            grows_transaction_log.
      + pres preserves_handlePaymentCompleted; [..];
          auto using grows_outbox, grows_payments, grows_bank_calls,
            grows_transaction_log.
      + pres preserves_ws_send; [apply grows_outbox].
    - pres preserves_ws_send; [apply grows_outbox]. }
  destruct (Hgrows s) as (H1 & H2 & H3 & H4 & H5 & H6).
  split_and!; try done.
  intros Hdata.
  assert (Hsame : preserves same_clients
                    (handleWebSocketMessage now uuid bank ws data)).
  { unfold handleWebSocketMessage.
    pres preserves_try_catch; [|intros].
    - destruct data.
      + by destruct (Hdata terminalId).
      + by pres preserves_handleNFCDetected; [..].
      + by pres preserves_handlePaymentCompleted; [..].
      + by pres preserves_ws_send.
    - by pres preserves_ws_send. }
  apply Hsame.
Qed.

Lemma handleTerminalReady_answers now (ws : Conn) (v : JsVal) (s : Server) :
  ∃ s' message,
    handleTerminalReady now ws v s = (Returned tt, s') ∧
    outbox s' = outbox s ++ [(ws, message)].
Proof.
  destruct (checkTerminalId v) as [t|] eqn:Hid.
  - destruct (terminals s !! t) as [term|] eqn:Hterm.
    + rewrite (handleTerminalReady_registered now ws v t term s Hid Hterm).
      by do 2 eexists.
    + destruct (handleTerminalReady_refused now ws v s) as [text ->].
      { intros t' Ht'. congruence. }
      by do 2 eexists.
  - destruct (handleTerminalReady_refused now ws v s) as [text ->].
    { intros t' Ht'. congruence. }
    by do 2 eexists.
Qed.

Lemma handleNFCDetected_answers now uuid bank (ws : Conn) (v : JsVal)
    (paymentId : option string) (nfc : NfcData.t) (s : Server) :
  ∃ s' message rest,
    handleNFCDetected now uuid bank ws v paymentId nfc s = (Returned tt, s') ∧
    outbox s' = outbox s ++ (ws, message) :: rest.
Proof.
  destruct (checkTerminalId v) as [T|] eqn:Hid;
    [|unfold handleNFCDetected; rewrite Hid; by do 3 eexists].
  destruct (JsMap.has T (clients s)) eqn:Hreg; cycle 1.
  { unfold handleNFCDetected. rewrite Hid.
    unfold mbind at 1. unfold M_bind at 1. unfold get_state at 1.
    rewrite Hreg. by do 3 eexists. }
  assert (Hrun : ∀ pid, session_ready s uuid paymentId pid →
    ∃ s' message rest,
      handleNFCDetected now uuid bank ws v paymentId nfc s
        = (Returned tt, s') ∧
      outbox s' = outbox s ++ (ws, message) :: rest).
  { intros pid Hready.
    destruct (handleNFCDetected_run now uuid bank ws v T paymentId pid nfc s
                Hid Hreg Hready)
      as (p & s' & row & message & calls & -> & _ & _ & _ & _ & _ & _ & Ho & _).
    by do 3 eexists. }
  destruct (truthy_str paymentId) eqn:Htruthy.
  - destruct paymentId as [pid|]; [|done].
    assert (Hne : pid ≠ "").
    { intros ->. done. }
    destruct (payments s !! pid) as [row|] eqn:Hrow.
    + destruct (PaymentRow.completed_at row) as [t|] eqn:Ht.
      * unfold handleNFCDetected. rewrite Hid.
        unfold mbind at 1. unfold M_bind at 1. unfold get_state at 1.
        rewrite Hreg. simpl negb. cbv iota.
        rewrite Htruthy. unfold nfc_process. unfold_js.
        cbn -[processNFCPaymentWithBank]. rewrite Hrow.
        cbn -[processNFCPaymentWithBank]. rewrite Ht. by do 3 eexists.
      * apply (Hrun pid). by eapply ready_existing.
    + unfold handleNFCDetected. rewrite Hid.
      unfold mbind at 1. unfold M_bind at 1. unfold get_state at 1.
      rewrite Hreg. simpl negb. cbv iota.
      rewrite Htruthy. unfold_js. cbn. rewrite Hrow. by do 3 eexists.
  - destruct (payments s !! uuid) as [row|] eqn:Hrow.
    + unfold handleNFCDetected. rewrite Hid.
      unfold mbind at 1. unfold M_bind at 1. unfold get_state at 1.
      rewrite Hreg. simpl negb. cbv iota.
      rewrite Htruthy. unfold nfc_process. unfold_js.
      cbn -[processNFCPaymentWithBank]. rewrite Hrow. by do 3 eexists.
    + apply (Hrun uuid). by apply ready_new.
Qed.

Lemma handlePaymentCompleted_answers now uuid (ws : Conn) (v : JsVal)
    (paymentId : option string) (result : CompletionResult.t) (s : Server) :
  ∃ s' message,
    handlePaymentCompleted now uuid ws v paymentId result s
      = (Returned tt, s') ∧
    outbox s' = outbox s ++ [(ws, message)].
Proof.
  unfold handlePaymentCompleted.
  destruct (checkTerminalId v) as [T|]; [|by do 2 eexists].
  unfold_js. cbn.
  destruct paymentId as [id|]; cbn; [|by do 2 eexists].
  destruct (payments s !! id) as [row|]; cbn; [|by do 2 eexists].
  destruct (payments s !! str_or id uuid); cbn; by do 2 eexists.
Qed.

(** X11.  Every message a terminal sends is answered: the dispatcher
    returns without throwing, whatever the message and the state, and the
    first thing it hands to the transport goes to the socket the message
    came in on. *)
Theorem handleWebSocketMessage_answers now uuid bank (ws : Conn)
    (data : Event) (s : Server) :
  ∃ s' message rest,
    handleWebSocketMessage now uuid bank ws data s = (Returned tt, s') ∧
    outbox s' = outbox s ++ (ws, message) :: rest.
Proof.
  unfold handleWebSocketMessage, try_catch. destruct data.
  - destruct (handleTerminalReady_answers now ws terminalId s)
      as (s' & m & -> & Ho). by exists s', m, [].
  - destruct (handleNFCDetected_answers now uuid bank ws terminalId paymentId
                nfcData s) as (s' & m & rest & -> & Ho).
    by exists s', m, rest.
  - destruct (handlePaymentCompleted_answers now uuid ws terminalId paymentId
                result s) as (s' & m & -> & Ho). by exists s', m, [].
  - by do 3 eexists.
Qed.

(** ** The simulator behind the bank flow *)



(** ** The payment model *)

(** X13.  A payment read back with [findById] right after [create] is the
    object [create] returned, except that its [createdAt] is the text the
    table holds and no longer a [Date]. *)
Theorem Payment_create_findById now uuid uuid' (d : Payment.data)
    (s : Server) :
  uuid ≠ "" →
  payments s !! uuid = None →
  ∃ (p : Payment.t) (s' : Server),
    Payment_create now uuid d s = (Returned p, s') ∧
    p = Payment.new uuid now d ∧
    Payment.createdAt p = DateObj now ∧
    Payment_findById uuid' (Some uuid) s'
      = (Returned
           (Some
              (Payment.mk (Payment.id p) (Payment.terminalId p)
                 (Payment.amount p) (Payment.currency p) (Payment.method p)
                 (Payment.status p) (Payment.bankTransactionId p)
                 (Payment.errorCode p) (IsoText now) (Payment.completedAt p)
                 (Payment.nfcData p))), s').
Proof.
  intros Hne Hfresh. unfold Payment_create, Payment_findById.
  unfold_js. cbn. rewrite Hfresh. cbn.
  do 2 eexists. split; [reflexivity|]. split; [reflexivity|].
  split; [reflexivity|]. cbn. rewrite lookup_insert_eq. cbn.
  unfold Payment.of_row. cbn. rewrite !str_or_idem.
  assert (Hkey : str_or uuid uuid' = uuid).
  { unfold str_or. by destruct (String.eqb_spec uuid ""). }
  by rewrite Hkey.
Qed.

Lemma Payment_create_findById_witness :
  "u-1" ≠ "" ∧
  payments shop !! "u-1" = None ∧
  ∃ (p : Payment.t) (s' : Server),
    Payment_create 100 "u-1"
      (Payment.mk_data T1 (Some 2500) "" "nfc" "" None) shop
      = (Returned p, s') ∧
    p = Payment.new "u-1" 100
          (Payment.mk_data T1 (Some 2500) "" "nfc" "" None) ∧
    Payment.createdAt p = DateObj 100 ∧
    Payment_findById "u-2" (Some "u-1") s'
      = (Returned
           (Some
              (Payment.mk (Payment.id p) (Payment.terminalId p)
                 (Payment.amount p) (Payment.currency p) (Payment.method p)
                 (Payment.status p) (Payment.bankTransactionId p)
                 (Payment.errorCode p) (IsoText 100) (Payment.completedAt p)
                 (Payment.nfcData p))), s').
Proof.
  assert (H1 : "u-1" ≠ "") by discriminate.
  assert (H2 : payments shop !! "u-1" = None) by (vm_compute; reflexivity).
  repeat (split; [assumption|]).
  exact (Payment_create_findById 100 "u-1" "u-2"
           (Payment.mk_data T1 (Some 2500) "" "nfc" "" None) shop H1 H2).
Defined.

Lemma written_snoc {A} (column : PaymentUpdate.entry → option A)
    (u : list PaymentUpdate.entry) (e : PaymentUpdate.entry) :
  PaymentUpdate.written column (u ++ [e])
  = match column e with
    | Some v => Some v
    | None => PaymentUpdate.written column u
    end.
Proof.
  unfold PaymentUpdate.written. rewrite omap_app. cbn.
  destruct (column e); cbn; [apply last_snoc|by rewrite app_nil_r].
Qed.

(** A property each key writes or leaves is, after all the keys, what the
    last key that writes it says. *)
Lemma assign_written {A} (field : Payment.t → A)
    (column : PaymentUpdate.entry → option A) :
  (∀ p e, field (PaymentUpdate.assign_entry p e)
          = default (field p) (column e)) →
  ∀ u p, field (PaymentUpdate.assign u p)
         = default (field p) (PaymentUpdate.written column u).
Proof.
  intros Hstep u p. induction u as [|e u IH] using rev_ind; [done|].
  unfold PaymentUpdate.assign in *. rewrite fold_left_app. cbn.
  rewrite Hstep, IH, written_snoc. by destruct (column e).
Qed.

(** No key reaches the [id]. *)
Lemma assign_id (u : list PaymentUpdate.entry) (p : Payment.t) :
  Payment.id (PaymentUpdate.assign u p) = Payment.id p.
Proof.
  induction u as [|e u IH] using rev_ind; [done|].
  unfold PaymentUpdate.assign in *. rewrite fold_left_app. cbn.
  rewrite <- IH. by destruct e.
Qed.

(** On the object literals of the server the two readings of [update]
    agree. *)
Lemma Payment_update_keys_of_updateData (u : Payment.updateData) (f : Flow) :
  Payment_update_keys (PaymentUpdate.of_updateData u) f = Payment_update u f.
Proof.
  assert (Hassign : PaymentUpdate.assign (PaymentUpdate.of_updateData u)
                      (payment f) = Payment.assign u (payment f)).
  { destruct u as [m st b e c n], f as [[] s0].
    destruct m, st, b, e, c, n; reflexivity. }
  unfold Payment_update_keys, Payment_update.
  unfold mbind at 1 5. unfold M_bind at 1 5. unfold modify at 1 2.
  by rewrite Hassign.
Qed.

(** X14.  [update] on an object [findById] returned, for any keys of the
    update.  Every column but [created_at] takes the value of the last key
    that writes it ([terminal_id], [bank_transaction_id], [error_code] and
    [completed_at] are written under either spelling) and keeps the stored
    value when no key does; the keys [id], [createdAt] and [created_at]
    are skipped, so the row stays under its id with its [created_at].  If
    the [completedAt] the object ends with is a text (the stored one, or
    one passed under the key [completedAt]) the call throws on
    [toISOString] and the table is left as it was; otherwise it returns
    true. *)
Theorem Payment_update_after_findById uuid (id : string)
    (row : PaymentRow.t) (u : list PaymentUpdate.entry) (s : Server) :
  id ≠ "" →
  payments s !! id = Some row →
  let completedAt :=
    default (IsoText <$> PaymentRow.completed_at row)
      (PaymentUpdate.written PaymentUpdate.to_completedAt u) in
  with_payment (Payment.of_row uuid id row) (Payment_update_keys u) s =
    match completedAt with
    | Some (IsoText _) =>
        (Thrown "this.completedAt.toISOString is not a function", s)
    | _ =>
        (Returned true,
         with_payments
           (<[id := PaymentRow.mk
                      (default (PaymentRow.terminal_id row)
                         (PaymentUpdate.written PaymentUpdate.to_terminalId u))
                      (default (PaymentRow.amount row)
                         (PaymentUpdate.written PaymentUpdate.to_amount u))
                      (default (str_or (PaymentRow.currency row) "RUB")
                         (PaymentUpdate.written PaymentUpdate.to_currency u))
                      (default (PaymentRow.method row)
                         (PaymentUpdate.written PaymentUpdate.to_method u))
                      (default (str_or (PaymentRow.status row) "pending")
                         (PaymentUpdate.written PaymentUpdate.to_status u))
                      (default
                         (Payment.falsy_to_null
                            (PaymentRow.bank_transaction_id row))
                         (PaymentUpdate.written
                            PaymentUpdate.to_bankTransactionId u))
                      (default
                         (Payment.falsy_to_null (PaymentRow.error_code row))
                         (PaymentUpdate.written PaymentUpdate.to_errorCode u))
                      (PaymentRow.created_at row)
                      (PaymentUpdate.instant <$> completedAt)]>) s)
    end.
Proof.
  intros Hne Hrow completedAt.
  assert (Hkey : str_or id uuid = id).
  { unfold str_or. by destruct (String.eqb_spec id ""). }
  set (p := Payment.of_row uuid id row).
  pose proof (assign_id u p) as Hid.
  pose proof (assign_written Payment.terminalId PaymentUpdate.to_terminalId
                ltac:(by intros ? []) u p) as Hterminal.
  pose proof (assign_written Payment.amount PaymentUpdate.to_amount
                ltac:(by intros ? []) u p) as Hamount.
  pose proof (assign_written Payment.currency PaymentUpdate.to_currency
                ltac:(by intros ? []) u p) as Hcurrency.
  pose proof (assign_written Payment.method PaymentUpdate.to_method
                ltac:(by intros ? []) u p) as Hmethod.
  pose proof (assign_written Payment.status PaymentUpdate.to_status
                ltac:(by intros ? []) u p) as Hstatus.
  pose proof (assign_written Payment.bankTransactionId
                PaymentUpdate.to_bankTransactionId
                ltac:(by intros ? []) u p) as Hbank.
  pose proof (assign_written Payment.errorCode PaymentUpdate.to_errorCode
                ltac:(by intros ? []) u p) as Herror.
  pose proof (assign_written Payment.completedAt PaymentUpdate.to_completedAt
                ltac:(by intros ? []) u p) as Hcompleted.
  change (Payment.completedAt p)
    with (IsoText <$> PaymentRow.completed_at row) in Hcompleted.
  fold completedAt in Hcompleted.
  unfold Payment_update_keys, with_payment.
  unfold mbind at 1. unfold M_bind at 1. unfold modify at 1.
  cbn [payment server].
  remember (PaymentUpdate.assign u p) as p' eqn:Hp'.
  unfold_js. cbn. rewrite Hcompleted.
  destruct completedAt as [[t|t]|]; cbn; [|done|];
    rewrite Hid; subst p; cbn; rewrite Hkey, Hrow; cbn;
    rewrite Hterminal, Hamount, Hcurrency, Hmethod, Hstatus, Hbank, Herror;
    reflexivity.
Qed.

Lemma Payment_update_after_findById_witness :
  "p1" ≠ "" ∧
  payments shop !! "p1" = Some failed_session ∧
  with_payment (Payment.of_row "u-1" "p1" failed_session)
    (Payment_update_keys
       [PaymentUpdate.key_amount 1; PaymentUpdate.key_terminal_id (u16 "T9");
        PaymentUpdate.key_created_at (IsoText 0);
        PaymentUpdate.key_status "processing"]) shop
    = (Returned true,
       with_payments
         (<["p1" := PaymentRow.mk (u16 "T9") 1 "RUB" "nfc" "processing"
                      (Some "tx-0") (Some "E001") 10 None]>) shop).
Proof.
  assert (H1 : "p1" ≠ "") by discriminate.
  assert (H2 : payments shop !! "p1" = Some failed_session)
    by (vm_compute; reflexivity).
  repeat (split; [assumption|]).
  exact (Payment_update_after_findById "u-1" "p1" failed_session
           [PaymentUpdate.key_amount 1;
            PaymentUpdate.key_terminal_id (u16 "T9");
            PaymentUpdate.key_created_at (IsoText 0);
            PaymentUpdate.key_status "processing"] shop H1 H2).
Defined.

(** X15.  Deleting the payment [create] has just returned answers true
    and gives back the table as it was before the two calls. *)
Theorem Payment_create_delete now uuid (d : Payment.data) (s : Server) :
  payments s !! uuid = None →
  ∃ s' : Server,
    (p ← Payment_create now uuid d; with_payment p Payment_delete) s
      = (Returned true, s') ∧
    payments s' = payments s ∧
    clients s' = clients s ∧
    outbox s' = outbox s.
Proof.
  intros Hfresh. unfold Payment_create, Payment_delete, db_delete_payment.
  unfold_js. cbn. rewrite Hfresh. cbn. rewrite lookup_insert_eq. cbn.
  eexists. split; [reflexivity|]. cbn.
  split; [|done]. by apply delete_insert_id.
Qed.

Lemma Payment_create_delete_witness :
  payments shop !! "u-1" = None ∧
  ∃ s' : Server,
    (p ← Payment_create 100 "u-1"
           (Payment.mk_data T1 (Some 2500) "RUB" "nfc" "pending" None);
     with_payment p Payment_delete) shop
      = (Returned true, s') ∧
    payments s' = payments shop ∧
    clients s' = clients shop ∧
    outbox s' = outbox shop.
Proof.
  assert (H1 : payments shop !! "u-1" = None) by (vm_compute; reflexivity).
  split; [assumption|].
  exact (Payment_create_delete 100 "u-1"
           (Payment.mk_data T1 (Some 2500) "RUB" "nfc" "pending" None)
           shop H1).
Defined.

(** ** The simulator's settings *)

(** X16.  [setSuccessRate] saturates: after a rate of 1 or more every
    authorization whose draw lies in [0,1) is approved, and after a rate
    of 0 or less every one is declined. *)
Theorem setSuccessRate_saturates (rate : Q) (api : TestBankAPI.t)
    (d : TestBankAPI.authDraws) (paymentData : BankPaymentData.t) :
  (0 <= TestBankAPI.outcome_random d)%Q →
  (TestBankAPI.outcome_random d < 1)%Q →
  ((1 <= rate)%Q →
   AuthResult.success
     (TestBankAPI.authorizePayment (TestBankAPI.setSuccessRate rate api) d
        paymentData) = true) ∧
  ((rate <= 0)%Q →
   AuthResult.success
     (TestBankAPI.authorizePayment (TestBankAPI.setSuccessRate rate api) d
        paymentData) = false).
Proof.
  intros H0 H1. unfold TestBankAPI.authorizePayment, Qltb.
  cbn [TestBankAPI.successRate TestBankAPI.setSuccessRate].
  split; intros Hrate.
  - assert (Hle : Qle_bool (Qmax 0 (Qmin 1 rate))
                    (TestBankAPI.outcome_random d) = false).
    { apply not_true_is_false. rewrite Qle_bool_iff. intros Hle.
      apply (Qlt_irrefl 1). eapply Qle_lt_trans; [|exact H1].
      eapply Qle_trans; [|exact Hle].
      rewrite (Q.min_l 1 rate) by exact Hrate. apply Q.le_max_r. }
    by rewrite Hle.
  - assert (Hle : Qle_bool (Qmax 0 (Qmin 1 rate))
                    (TestBankAPI.outcome_random d) = true).
    { apply Qle_bool_iff. apply Q.max_lub; [exact H0|].
      eapply Qle_trans; [apply Q.le_min_r|].
      eapply Qle_trans; [exact Hrate|exact H0]. }
    by rewrite Hle.
Qed.

Lemma setSuccessRate_saturates_witness :
  (0 <= TestBankAPI.outcome_random draws)%Q ∧
  (TestBankAPI.outcome_random draws < 1)%Q ∧
  ((1 <= 5 # 2)%Q →
   AuthResult.success
     (TestBankAPI.authorizePayment
        (TestBankAPI.setSuccessRate (5 # 2) (TestBankAPI.mk (9 # 10) 500))
        draws
        (BankPaymentData.mk 2500 "RUB" T1 "u-1" "4111" "visa" None)) = true) ∧
  ((5 # 2 <= 0)%Q →
   AuthResult.success
     (TestBankAPI.authorizePayment
        (TestBankAPI.setSuccessRate (5 # 2) (TestBankAPI.mk (9 # 10) 500))
        draws
        (BankPaymentData.mk 2500 "RUB" T1 "u-1" "4111" "visa" None)) = false).
Proof.
  assert (H1 : (0 <= TestBankAPI.outcome_random draws)%Q)
    by (vm_compute; discriminate).
  assert (H2 : (TestBankAPI.outcome_random draws < 1)%Q)
    by (vm_compute; reflexivity).
  repeat (split; [assumption|]).
  exact (setSuccessRate_saturates (5 # 2) (TestBankAPI.mk (9 # 10) 500) draws
           (BankPaymentData.mk 2500 "RUB" T1 "u-1" "4111" "visa" None) H1 H2).
Defined.


(** X17.  The authorization code has as many characters as the draw has
    base-36 digits after the point, six at most: a draw that prints short
    (0.5 prints as [0.i]) gives a code shorter than six characters, and a
    draw of 0 the empty code. *)
Theorem generateAuthCode_length (fraction : list N) :
  String.length (TestBankAPI.generateAuthCode fraction)
  = Nat.min 6 (length fraction).
Proof.
  unfold TestBankAPI.generateAuthCode.
  rewrite length_toUpperCase, length_substring.
  unfold TestBankAPI.toString36. destruct fraction as [|d ds]; [reflexivity|].
  change ("0." +:+ TestBankAPI.digits36 (d :: ds))
    with (String "0" (String "." (TestBankAPI.digits36 (d :: ds)))).
  cbn [String.length]. rewrite length_digits36.
  f_equal; simpl; lia.
Qed.

(** X18.  [POST /api/bank/config] answers 200 or 400 and retunes the
    simulator field by field: a success rate within [0,1] is set even when
    the same request is then refused for its delay; the delay is set only
    by a request that is answered 200. *)
Theorem route_bank_config_partial (successRate : option Q)
    (responseDelay : option Z) (bankAPI : TestBankAPI.t) :
  let answer := route_bank_config successRate responseDelay bankAPI in
  let in_range (rate : Q) := negb (Qltb rate 0 || Qltb 1 rate) in
  (answer.1 = 200 ∨ answer.1 = 400) ∧
  (answer.1 = 200 ↔
     (∀ rate, successRate = Some rate → in_range rate = true) ∧
     (∀ delay, responseDelay = Some delay → 0 <= delay)) ∧
  (TestBankAPI.successRate answer.2 ==
     match successRate with
     | Some rate =>
         if in_range rate then rate else TestBankAPI.successRate bankAPI
     | None => TestBankAPI.successRate bankAPI
     end)%Q ∧
  TestBankAPI.responseDelay answer.2 =
    (if answer.1 =? 200
     then default (TestBankAPI.responseDelay bankAPI) responseDelay
     else TestBankAPI.responseDelay bankAPI).
Proof.
  intros answer in_range. subst answer in_range. unfold route_bank_config.
  assert (Hclamp : ∀ rate, Qltb rate 0 || Qltb 1 rate = false →
                     (Qmax 0 (Qmin 1 rate) == rate)%Q).
  { intros rate [H0 H1]%orb_false_elim. unfold Qltb in *.
    apply negb_false_iff, Qle_bool_iff in H0, H1.
    rewrite (Q.min_r 1 rate) by exact H1. by apply Q.max_r. }
  destruct successRate as [rate|];
    [destruct (Qltb rate 0 || Qltb 1 rate) eqn:Hr|];
    cbn [negb];
    (destruct responseDelay as [delay|];
       [destruct (Z.ltb_spec delay 0)|]); cbn;
    split_and!;
    try (by auto); try reflexivity; try (by apply Hclamp); try lia;
    (split;
       [ intros Heq; try discriminate Heq;
         split; intros ? [= <-]; rewrite ?Hr; try done; lia
       | intros [Hrate Hdelay]; try reflexivity;
         first [ specialize (Hrate _ eq_refl); rewrite Hr in Hrate;
                 discriminate
               | specialize (Hdelay _ eq_refl); lia ] ]).
Qed.

(** ** The routes *)

Lemma isTerminalConnected_open (id : ustring) (s : Server) :
  isTerminalConnected (JStr id) s = true →
  checkTerminalId (JStr id) = Some id ∧
  ∃ client, JsMap.get id (clients s) = Some client ∧
            readyState s client = OPEN.
Proof.
  unfold isTerminalConnected. intros H.
  destruct (checkTerminalId (JStr id)) as [t|] eqn:Hid; [|done].
  apply checkTerminalId_Some in Hid as Hid'. destruct Hid' as [[= <-] _].
  split; [done|].
  destruct (JsMap.get id (clients s)) as [client|]; [|done].
  exists client. split; [done|]. by apply N.eqb_eq in H.
Qed.

(** X19.  [POST /api/terminals/:id/payment-request] always answers.  It
    answers 201 exactly when the amount is a positive number, the terminal
    is in the table and connected, and the new payment id is unused; the
    session it then stores is [pending] with that amount.  With any other
    answer the server is left exactly as it was. *)
Theorem route_payment_request_answers now uuid (id : ustring)
    (amount : option Z) (currency method : option string) (s : Server) :
  ∃ (r : Response) (s' : Server),
    route_payment_request now uuid id amount currency method s
      = (Returned r, s') ∧
    (http_status r = 201 ↔
       (∃ a, amount = Some a ∧ 0 < a) ∧
       is_Some (terminals s !! id) ∧
       isTerminalConnected (JStr id) s = true ∧
       payments s !! uuid = None) ∧
    (http_status r ≠ 201 → s' = s) ∧
    (http_status r = 201 →
       ∃ row, payments s' = <[uuid := row]> (payments s) ∧
              amount = Some (PaymentRow.amount row) ∧
              PaymentRow.terminal_id row = id ∧
              PaymentRow.status row = "pending").
Proof.
  unfold route_payment_request.
  destruct amount as [a|]; cycle 1.
  { do 2 eexists. split; [reflexivity|]. cbn.
    split_and!; [|done|done]. split; [done|]. by intros [[a [? _]] _]. }
  destruct (Z.leb_spec a 0) as [Ha|Ha].
  { assert (Hguard : (a =? 0) || true = true) by apply orb_true_r.
    unfold try_catch. rewrite Hguard. cbn.
    do 2 eexists. split; [reflexivity|]. cbn.
    split_and!; [|done|done]. split; [done|].
    intros [(a' & [= <-] & Ha') _]. lia. }
  assert (Hguard : (a =? 0) || false = false).
  { rewrite orb_false_r. apply Z.eqb_neq. lia. }
  unfold try_catch at 1. unfold mbind at 1. unfold M_bind at 1.
  rewrite Hguard. unfold get_state at 1. cbv iota beta.
  destruct (terminals s !! id) as [term|] eqn:Hterm; cycle 1.
  { do 2 eexists. split; [reflexivity|]. cbn.
    split_and!; [|done|done]. split; [done|].
    intros (_ & [? ?] & _). done. }
  destruct (isTerminalConnected (JStr id) s) eqn:Hconn; cycle 1.
  { do 2 eexists. split; [reflexivity|]. cbn.
    split_and!; [|done|done]. split; [done|]. by intros (_ & _ & ? & _). }
  destruct (isTerminalConnected_open id s Hconn)
    as (Hid & client & Hget & Hopen).
  simpl negb. cbv iota.
  unfold sendPaymentRequest. rewrite Hid.
  unfold sendToTerminal. unfold_js. cbn.
  destruct (payments s !! uuid) as [old|] eqn:Hfresh; cbn.
  { do 2 eexists. split; [reflexivity|]. cbn.
    split_and!; [|done|done]. split; [done|]. by intros (_ & _ & _ & ?). }
  rewrite Hget, Hopen. cbn.
  do 2 eexists. split; [reflexivity|]. cbn.
  split_and!; [|done|].
  - split; [|done]. intros _. split_and!; eauto.
  - intros _. eexists. split; [reflexivity|]. cbn.
    destruct (Z.eqb_spec a 0); [lia|done].
Qed.

(** X20.  [POST /api/terminals/:id/activate] always answers, and never
    looks at the amount: it answers 200 exactly when the terminal is in
    the table and connected and the new payment id is unused, and the
    session it then stores is [pending] with the amount of the body as it
    came, 1000 when the body has none.  With any other answer the server is
    left exactly as it was. *)
Theorem route_activate_answers now uuid (id : ustring)
    (amount : option Z) (currency method : option string) (s : Server) :
  ∃ (r : Response) (s' : Server),
    route_activate now uuid id amount currency method s = (Returned r, s') ∧
    (http_status r = 200 ↔
       is_Some (terminals s !! id) ∧
       isTerminalConnected (JStr id) s = true ∧
       payments s !! uuid = None) ∧
    (http_status r ≠ 200 → s' = s) ∧
    (http_status r = 200 →
       ∃ row, payments s' = <[uuid := row]> (payments s) ∧
              PaymentRow.amount row = default 1000 amount ∧
              PaymentRow.terminal_id row = id ∧
              PaymentRow.status row = "pending").
Proof.
  unfold route_activate.
  unfold try_catch at 1. unfold mbind at 1. unfold M_bind at 1.
  unfold get_state at 1. cbv iota beta.
  destruct (terminals s !! id) as [term|] eqn:Hterm; cycle 1.
  { do 2 eexists. split; [reflexivity|]. cbn.
    split_and!; [|done|done]. split; [done|].
    intros ([? ?] & _). done. }
  destruct (isTerminalConnected (JStr id) s) eqn:Hconn; cycle 1.
  { do 2 eexists. split; [reflexivity|]. cbn.
    split_and!; [|done|done]. split; [done|]. by intros (_ & ? & _). }
  destruct (isTerminalConnected_open id s Hconn)
    as (Hid & client & Hget & Hopen).
  simpl negb. cbv iota.
  unfold sendPaymentRequest. rewrite Hid.
  unfold sendToTerminal. unfold_js. cbn.
  destruct (payments s !! uuid) as [old|] eqn:Hfresh; cbn.
  { do 2 eexists. split; [reflexivity|]. cbn.
    split_and!; [|done|done]. split; [done|]. by intros (_ & _ & ?). }
  rewrite Hget, Hopen. cbn.
  do 2 eexists. split; [reflexivity|]. cbn.
  split_and!; [|done|].
  - split; [|done]. intros _. split_and!; eauto.
  - intros _. eexists. split; [reflexivity|]. cbn.
    split_and!; try done. by destruct (Z.eqb_spec (default 1000 amount) 0).
Qed.

(** X21.  [POST /api/payments/initiate] always answers.  It answers 201
    exactly when the terminal id is not empty, the amount lies between 1
    and 10,000,000, the method is nfc or qr, the terminal is in the table
    and the new payment id is unused; it then stores one [pending] session
    with the values of the body and returns that row.  With any other
    answer the server is left exactly as it was. *)
Theorem route_initiate_answers now randomUUID (terminalId : ustring)
    (amount : option Z) (currency : option string) (method : string)
    (s : Server) :
  ∃ (a : Answer) (s' : Server),
    route_initiate now randomUUID terminalId amount currency method s
      = (Returned a, s') ∧
    (answer_status a = 201 ↔
       terminalId ≠ [] ∧
       (∃ n, amount = Some n ∧ 0 < n ≤ 10000000) ∧
       (method = "nfc" ∨ method = "qr") ∧
       is_Some (terminals s !! terminalId) ∧
       payments s !! randomUUID = None) ∧
    (answer_status a ≠ 201 → s' = s) ∧
    (answer_status a = 201 →
       ∃ n, amount = Some n ∧
            answer_row a =
              Some (PaymentRow.mk terminalId n (default "RUB" currency) method
                      "pending" None None now None) ∧
            s' = with_payments
                   (<[randomUUID :=
                        PaymentRow.mk terminalId n (default "RUB" currency)
                          method "pending" None None now None]>) s).
Proof.
  unfold route_initiate, try_catch.
  destruct terminalId as [|c T]; cbn [orb].
  { do 2 eexists. split; [reflexivity|]. cbn.
    split_and!; [|done|done]. split; [done|]. by intros [? _]. }
  destruct amount as [n|]; cycle 1.
  { do 2 eexists. split; [reflexivity|]. cbn.
    split_and!; [|done|done]. split; [done|]. by intros (_ & (? & ? & _) & _). }
  destruct (Z.eqb_spec n 0) as [->|Hn0]; cbn [orb].
  { do 2 eexists. split; [reflexivity|]. cbn.
    split_and!; [|done|done]. split; [done|].
    intros (_ & (? & [= <-] & ?) & _). lia. }
  destruct (String.eqb_spec method "") as [->|Hm0].
  { do 2 eexists. split; [reflexivity|]. cbn.
    split_and!; [|done|done]. split; [done|].
    by intros (_ & _ & [?|?] & _). }
  change (default 0 (Some n)) with n.
  destruct (Z.leb_spec n 0) as [Hle|Hpos]; cbn [orb].
  { do 2 eexists. split; [reflexivity|]. cbn.
    split_and!; [|done|done]. split; [done|].
    intros (_ & (? & [= <-] & ?) & _). lia. }
  destruct (Z.ltb_spec 10000000 n) as [Hbig|Hmax].
  { do 2 eexists. split; [reflexivity|]. cbn.
    split_and!; [|done|done]. split; [done|].
    intros (_ & (? & [= <-] & ?) & _). lia. }
  destruct (negb (String.eqb method "nfc" || String.eqb method "qr")) eqn:Hm.
  { do 2 eexists. split; [reflexivity|]. cbn.
    split_and!; [|done|done]. split; [done|].
    intros (_ & _ & [->| ->] & _); discriminate Hm. }
  assert (Hmethod : method = "nfc" ∨ method = "qr").
  { apply negb_false_iff, orb_true_iff in Hm.
    destruct Hm as [?%String.eqb_eq|?%String.eqb_eq]; auto. }
  unfold mbind at 1. unfold M_bind at 1. unfold get_state at 1.
  cbv iota beta.
  destruct (terminals s !! (c :: T)) as [term|] eqn:Hterm; cycle 1.
  { do 2 eexists. split; [reflexivity|]. cbn.
    split_and!; [|done|done]. split; [done|].
    intros (_ & _ & _ & [? ?] & _). done. }
  unfold_js. cbn.
  destruct (payments s !! randomUUID) as [old|] eqn:Hfresh; cbn.
  { do 2 eexists. split; [reflexivity|]. cbn.
    split_and!; [|done|done]. split; [done|].
    by intros (_ & _ & _ & _ & ?). }
  do 2 eexists. split; [reflexivity|]. cbn.
  split_and!; [|done|].
  - split; [|done]. intros _. split_and!; eauto.
  - intros _. exists n. by rewrite lookup_insert_eq.
Qed.

(** X22.  [POST /api/payments/process] on a stored session that is not
    [pending] answers 400 and does nothing else: the row is not written
    and the bank is not called. *)
Theorem route_process_refuses_started now bank (id : string)
    (row : PaymentRow.t) (cardNumber cardType : string) (s : Server) :
  id ≠ "" →
  payments s !! id = Some row →
  PaymentRow.status row ≠ "pending" →
  route_process now bank (Some id) cardNumber cardType s
    = (Returned
         (mkAnswer 400 None (Some "Payment is not in pending status") None),
       s).
Proof.
  intros Hne Hrow Hstatus. unfold route_process, try_catch.
  assert (Htruthy : truthy_str (Some id) = true).
  { simpl. by destruct (String.eqb_spec id ""). }
  rewrite Htruthy. unfold mbind at 1. unfold M_bind at 1.
  unfold get_state at 1. change (negb true) with false. cbv iota beta.
  change (default EmptyString (Some id)) with id.
  rewrite Hrow.
  by destruct (String.eqb_spec (PaymentRow.status row) "pending").
Qed.

Lemma route_process_refuses_started_witness :
  "p1" ≠ "" ∧
  payments shop !! "p1" = Some failed_session ∧
  PaymentRow.status failed_session ≠ "pending" ∧
  route_process 100 approving_bank (Some "p1") "4111" "visa" shop
    = (Returned
         (mkAnswer 400 None (Some "Payment is not in pending status") None),
       shop).
Proof.
  assert (H1 : "p1" ≠ "") by discriminate.
  assert (H2 : payments shop !! "p1" = Some failed_session)
    by (vm_compute; reflexivity).
  assert (H3 : PaymentRow.status failed_session ≠ "pending") by discriminate.
  repeat (split; [assumption|]).
  exact (route_process_refuses_started 100 approving_bank "p1" failed_session
           "4111" "visa" shop H1 H2 H3).
Defined.

(** X23.  [POST /api/payments/process] on a [pending] session always
    answers and never leaves the session [pending] or [processing]: it
    answers 200 exactly when the bank approves both the authorization and
    the capture, and the session is then [completed] with the clock as
    [completed_at] and the bank's transaction id; with any other answer
    (402 or 500) the session is [failed] and its [completed_at] is what
    the row held before.  The row keeps its terminal, amount and creation
    time, and the answer carries the row as stored. *)
Theorem route_process_outcome now bank (id : string) (row : PaymentRow.t)
    (cardNumber cardType : string) (s : Server) :
  id ≠ "" →
  payments s !! id = Some row →
  PaymentRow.status row = "pending" →
  ∃ (a : Answer) (s' : Server) (row' : PaymentRow.t),
    route_process now bank (Some id) cardNumber cardType s
      = (Returned a, s') ∧
    payments s' = <[id := row']> (payments s) ∧
    answer_row a = Some row' ∧
    PaymentRow.terminal_id row' = PaymentRow.terminal_id row ∧
    PaymentRow.amount row' = PaymentRow.amount row ∧
    PaymentRow.created_at row' = PaymentRow.created_at row ∧
    (answer_status a = 200 ↔
       ∃ r c,
         BankAPI.authorizePayment bank
           (BankPaymentData.mk (PaymentRow.amount row)
              (PaymentRow.currency row) (PaymentRow.terminal_id row) id
              cardNumber cardType None) = Returned r ∧
         AuthResult.success r = true ∧
         BankAPI.capturePayment bank (AuthResult.transactionId r)
           (PaymentRow.amount row) = Returned c ∧
         CaptureResult.success c = true) ∧
    (if answer_status a =? 200
     then PaymentRow.status row' = "completed" ∧
          PaymentRow.completed_at row' = Some now ∧
          is_Some (PaymentRow.bank_transaction_id row')
     else (answer_status a = 402 ∨ answer_status a = 500) ∧
          PaymentRow.status row' = "failed" ∧
          PaymentRow.completed_at row' = PaymentRow.completed_at row).
Proof.
  intros Hne Hrow Hpending. unfold route_process, try_catch.
  assert (Htruthy : truthy_str (Some id) = true).
  { simpl. by destruct (String.eqb_spec id ""). }
  rewrite Htruthy. unfold db_alter_payment. unfold_js. cbn.
  rewrite Hrow, Hpending. cbn.
  destruct (BankAPI.authorizePayment bank _) as [r|e] eqn:Hauth; cbn.
  - destruct (AuthResult.success r) eqn:Hok; cbn.
    + destruct (BankAPI.capturePayment bank _ _) as [c|e] eqn:Hcap; cbn.
      * destruct (CaptureResult.success c) eqn:Hcok; cbn.
        -- do 3 eexists. split; [reflexivity|]. cbn.
           rewrite (alter_alt_Some _ _ _ _ Hrow), ?alter_insert_eq, ?lookup_insert_eq.
           split; [reflexivity|]. cbn.
           split_and!; try done. split; [|done]. intros _. by exists r, c.
        -- do 3 eexists. split; [reflexivity|]. cbn.
           rewrite (alter_alt_Some _ _ _ _ Hrow), ?alter_insert_eq, ?lookup_insert_eq.
           split; [reflexivity|]. cbn.
           split_and!; try done; [|by left].
           split; [done|]. intros (r' & c' & [= <-] & _ & Hc' & Hs').
           rewrite Hcap in Hc'. injection Hc' as <-. congruence.
      * do 3 eexists. split; [reflexivity|]. cbn.
        rewrite (alter_alt_Some _ _ _ _ Hrow), ?alter_insert_eq, ?lookup_insert_eq.
        split; [reflexivity|]. cbn.
        split_and!; try done; [|by right].
        split; [done|]. intros (r' & c' & [= <-] & _ & Hc' & Hs').
        rewrite Hcap in Hc'. discriminate.
    + do 3 eexists. split; [reflexivity|]. cbn.
      rewrite (alter_alt_Some _ _ _ _ Hrow), ?alter_insert_eq, ?lookup_insert_eq.
      split; [reflexivity|]. cbn.
      split_and!; try done; [|by left].
      split; [done|]. intros (r' & c' & [= <-] & Hs' & _). congruence.
  - do 3 eexists. split; [reflexivity|]. cbn.
    rewrite (alter_alt_Some _ _ _ _ Hrow), ?alter_insert_eq, ?lookup_insert_eq.
    split; [reflexivity|]. cbn.
    split_and!; try done; [|by right].
    split; [done|]. intros (r' & c' & ? & _). discriminate.
Qed.

Lemma route_process_outcome_witness :
  "p3" ≠ "" ∧
  payments shop_waiting !! "p3" = Some pending_session ∧
  PaymentRow.status pending_session = "pending" ∧
  ∃ (a : Answer) (s' : Server) (row' : PaymentRow.t),
    route_process 100 approving_bank (Some "p3") "4111" "visa" shop_waiting
      = (Returned a, s') ∧
    payments s' = <["p3" := row']> (payments shop_waiting) ∧
    answer_row a = Some row' ∧
    PaymentRow.terminal_id row' = PaymentRow.terminal_id pending_session ∧
    PaymentRow.amount row' = PaymentRow.amount pending_session ∧
    PaymentRow.created_at row' = PaymentRow.created_at pending_session ∧
    (answer_status a = 200 ↔
       ∃ r c,
         BankAPI.authorizePayment approving_bank
           (BankPaymentData.mk (PaymentRow.amount pending_session)
              (PaymentRow.currency pending_session)
              (PaymentRow.terminal_id pending_session) "p3" "4111" "visa"
              None) = Returned r ∧
         AuthResult.success r = true ∧
         BankAPI.capturePayment approving_bank (AuthResult.transactionId r)
           (PaymentRow.amount pending_session) = Returned c ∧
         CaptureResult.success c = true) ∧
    (if answer_status a =? 200
     then PaymentRow.status row' = "completed" ∧
          PaymentRow.completed_at row' = Some 100 ∧
          is_Some (PaymentRow.bank_transaction_id row')
     else (answer_status a = 402 ∨ answer_status a = 500) ∧
          PaymentRow.status row' = "failed" ∧
          PaymentRow.completed_at row'
          = PaymentRow.completed_at pending_session).
Proof.
  assert (H1 : "p3" ≠ "") by discriminate.
  assert (H2 : payments shop_waiting !! "p3" = Some pending_session)
    by (vm_compute; reflexivity).
  assert (H3 : PaymentRow.status pending_session = "pending") by reflexivity.
  repeat (split; [assumption|]).
  exact (route_process_outcome 100 approving_bank "p3" pending_session
           "4111" "visa" shop_waiting H1 H2 H3).
Defined.

(** ** Creating a terminal *)

Lemma Terminal_new_idem (data : Terminal.t) :
  Terminal.new (Terminal.new data) = Terminal.new data.
Proof. unfold Terminal.new. cbn. by rewrite !str_or_idem. Qed.

Lemma nonblank_trim (t : ustring) : nonblank t → trim t ≠ [].
Proof.
  intros H Htrim. apply trim_nil in Htrim. apply nonblank_forallb in H.
  congruence.
Qed.

(** X24.  [Terminal.create] refuses an id that is truthy but not a string
    with a visible character, and an id already in the table, leaving the
    table as it was.  Otherwise it stores the terminal under the id given,
    or under the id [uuidv4()] hands out when the data carry none, and
    that id passes the guard of the handlers: a [terminal_ready] message
    carrying it registers the socket and is answered with the terminal's
    configuration. *)
Theorem Terminal_create_then_ready now (uuid1 uuid2 : ustring) (id : JsVal)
    (data : Terminal.t) (ws : Conn) (s : Server) :
  nonblank uuid1 →
  let t := default uuid1 (checkTerminalId id) in
  if truthy id && bool_decide (checkTerminalId id = None) then
    Terminal_create uuid1 uuid2 id data s
      = (Thrown "Terminal ID must be a non-empty string", s)
  else if bool_decide (is_Some (terminals s !! t)) then
    ∃ e, Terminal_create uuid1 uuid2 id data s = (Thrown e, s)
  else
    ∃ s' : Server,
      Terminal_create uuid1 uuid2 id data s
        = (Returned (t, Terminal.new data), s') ∧
      terminals s' = <[t := Terminal.new data]> (terminals s) ∧
      payments s' = payments s ∧
      clients s' = clients s ∧
      handleTerminalReady now ws (JStr t) s'
        = (Returned tt,
           with_outbox
             (λ o, o ++ [(ws, terminal_config t (Terminal.new data)
                                (Some "connected") now)])
             (with_clients (JsMap.set t ws) s')).
Proof.
  intros Huuid t.
  assert (Hcreated : ∀ k, nonblank k →
    if bool_decide (is_Some (terminals s !! k)) then
      ∃ e, (db_insert_terminal k (Terminal.new data);;
            mret (k, Terminal.new data)) s = (Thrown e, s)
    else
      ∃ s' : Server,
        (db_insert_terminal k (Terminal.new data);;
         mret (k, Terminal.new data)) s
          = (Returned (k, Terminal.new data), s') ∧
        terminals s' = <[k := Terminal.new data]> (terminals s) ∧
        payments s' = payments s ∧
        clients s' = clients s ∧
        handleTerminalReady now ws (JStr k) s'
          = (Returned tt,
             with_outbox
               (λ o, o ++ [(ws, terminal_config k (Terminal.new data)
                                  (Some "connected") now)])
               (with_clients (JsMap.set k ws) s'))).
  { intros k Hk. unfold db_insert_terminal, mbind, M_bind, mret, M_ret.
    case_bool_decide as Hin.
    - destruct Hin as [old Hold]. rewrite Hold. by eexists.
    - destruct (terminals s !! k) eqn:Hnone; [by destruct Hin|].
      eexists. split; [reflexivity|]. cbn. split_and!; try done.
      erewrite handleTerminalReady_registered;
        [|by apply checkTerminalId_Some|cbn; apply lookup_insert_eq].
      by rewrite Terminal_new_idem. }
  assert (Hdefault : Terminal_default_id uuid1 uuid2 = uuid1).
  { unfold Terminal_default_id. pose proof (nonblank_trim _ Huuid).
    by destruct (trim uuid1). }
  unfold Terminal_create. subst t.
  destruct (checkTerminalId id) as [k|] eqn:Hid.
  - apply checkTerminalId_Some in Hid as [-> Hk].
    assert (Htruthy : truthy (JStr k) = true).
    { destruct k; [|done]. by apply nonblank_forallb in Hk. }
    rewrite Htruthy. cbn [andb default from_option].
    rewrite bool_decide_eq_false_2 by done.
    pose proof (nonblank_trim _ Hk). destruct (trim k) eqn:Htrim; [done|].
    apply (Hcreated k Hk).
  - rewrite bool_decide_eq_true_2 by done. rewrite andb_true_r.
    destruct (truthy id) eqn:Htruthy.
    + destruct id as [| |b|n|k|]; try done.
      destruct (trim k) eqn:Htrim; [done|].
      unfold checkTerminalId in Hid. rewrite Htruthy, Htrim in Hid. done.
    + rewrite Hdefault. cbn [default from_option]. apply (Hcreated uuid1 Huuid).
Qed.

Lemma Terminal_create_then_ready_witness :
  nonblank (u16 "u-7") ∧
  let t := default (u16 "u-7") (checkTerminalId JUndefined) in
  if truthy JUndefined && bool_decide (checkTerminalId JUndefined = None) then
    Terminal_create (u16 "u-7") (u16 "u-8") JUndefined till shop
      = (Thrown "Terminal ID must be a non-empty string", shop)
  else if bool_decide (is_Some (terminals shop !! t)) then
    ∃ e, Terminal_create (u16 "u-7") (u16 "u-8") JUndefined till shop
           = (Thrown e, shop)
  else
    ∃ s' : Server,
      Terminal_create (u16 "u-7") (u16 "u-8") JUndefined till shop
        = (Returned (t, Terminal.new till), s') ∧
      terminals s' = <[t := Terminal.new till]> (terminals shop) ∧
      payments s' = payments shop ∧
      clients s' = clients shop ∧
      handleTerminalReady 100 9%nat (JStr t) s'
        = (Returned tt,
           with_outbox
             (λ o, o ++ [(9%nat, terminal_config t (Terminal.new till)
                                   (Some "connected") 100)])
             (with_clients (JsMap.set t 9%nat) s')).
Proof.
  assert (H1 : nonblank (u16 "u-7")) by (apply nonblank_forallb; reflexivity).
  split; [assumption|].
  exact (Terminal_create_then_ready 100 (u16 "u-7") (u16 "u-8") JUndefined
           till 9%nat shop H1).
Defined.

(** ** From registration to a processed payment *)

Lemma sendPaymentRequest_connected_state now uuid (v : JsVal) (T : ustring)
    (client : Conn) (paymentData : RequestData.t) (s : Server) :
  checkTerminalId v = Some T →
  JsMap.get T (clients s) = Some client →
  readyState s client = OPEN →
  payments s !! uuid = None →
  ∃ (p : Payment.t) (s' : Server),
    sendPaymentRequest now uuid v paymentData s = (Returned p, s') ∧
    Payment.amount p = opt_num_or (RequestData.amount paymentData) 0 ∧
    Payment.status p = "pending" ∧
    payments s' =
      <[uuid := PaymentRow.mk T (Payment.amount p) (Payment.currency p)
                  (Payment.method p) "pending" None None now None]>
        (payments s) ∧
    outbox s' =
      outbox s ++
      [(client, payment_request uuid (Payment.amount p) (Payment.currency p)
                  (Payment.method p)
                  (default false (RequestData.testPayment paymentData)) now)] ∧
    clients s' = clients s ∧
    readyState s' = readyState s ∧
    bank_calls s' = bank_calls s.
Proof.
  intros Hid Hget Hopen Hfresh.
  unfold sendPaymentRequest. rewrite Hid.
  unfold sendToTerminal. unfold_js. cbn. rewrite Hfresh. cbn.
  rewrite Hget, Hopen. cbn.
  do 2 eexists. split; [reflexivity|]. cbn. split_and!; try done.
Qed.

(** X25.  Registration makes a terminal reachable: once a [terminal_ready]
    message for a terminal of the table has come in on an open socket, the
    terminal is reported connected and the next payment request for it is
    delivered on that socket, right after the configuration. *)
Theorem registered_terminal_reachable now now' uuid (ws : Conn) (t : ustring)
    (term : Terminal.t) (paymentData : RequestData.t) (s : Server) :
  nonblank t →
  terminals s !! t = Some term →
  readyState s ws = OPEN →
  payments s !! uuid = None →
  ∃ (s1 s2 : Server) (p : Payment.t),
    handleTerminalReady now ws (JStr t) s = (Returned tt, s1) ∧
    isTerminalConnected (JStr t) s1 = true ∧
    sendPaymentRequest now' uuid (JStr t) paymentData s1 = (Returned p, s2) ∧
    Payment.status p = "pending" ∧
    outbox s2 =
      outbox s ++
      [(ws, terminal_config t (Terminal.new term) (Some "connected") now);
       (ws, payment_request uuid (Payment.amount p) (Payment.currency p)
              (Payment.method p)
              (default false (RequestData.testPayment paymentData)) now')].
Proof.
  intros Ht Hterm Hopen Hfresh.
  assert (Hid : checkTerminalId (JStr t) = Some t)
    by by apply checkTerminalId_Some.
  rewrite (handleTerminalReady_registered now ws (JStr t) t term s Hid Hterm).
  set (s1 := with_outbox _ _).
  assert (Hget : JsMap.get t (clients s1) = Some ws) by apply get_set_eq.
  destruct (sendPaymentRequest_connected_state now' uuid (JStr t) t ws
              paymentData s1 Hid Hget Hopen Hfresh)
    as (p & s2 & Hsend & _ & Hst & _ & Ho & _).
  exists s1, s2, p. split; [done|].
  split.
  { unfold isTerminalConnected. rewrite Hid, Hget.
    change (readyState s1 ws) with (readyState s ws). by rewrite Hopen. }
  split; [exact Hsend|]. split; [exact Hst|].
  rewrite Ho. subst s1. cbn. by rewrite <- app_assoc.
Qed.

Lemma registered_terminal_reachable_witness :
  nonblank T1 ∧
  terminals shop_offline !! T1 = Some till ∧
  readyState shop_offline 9%nat = OPEN ∧
  payments shop_offline !! "u-1" = None ∧
  ∃ (s1 s2 : Server) (p : Payment.t),
    handleTerminalReady 100 9%nat (JStr T1) shop_offline = (Returned tt, s1) ∧
    isTerminalConnected (JStr T1) s1 = true ∧
    sendPaymentRequest 200 "u-1" (JStr T1)
      (RequestData.mk (Some 2500) None None None) s1 = (Returned p, s2) ∧
    Payment.status p = "pending" ∧
    outbox s2 =
      outbox shop_offline ++
      [(9%nat, terminal_config T1 (Terminal.new till) (Some "connected") 100);
       (9%nat, payment_request "u-1" (Payment.amount p) (Payment.currency p)
                 (Payment.method p) (default false None) 200)].
Proof.
  assert (H1 : nonblank T1) by (apply nonblank_forallb; reflexivity).
  assert (H2 : terminals shop_offline !! T1 = Some till)
    by (vm_compute; reflexivity).
  assert (H3 : readyState shop_offline 9%nat = OPEN) by reflexivity.
  assert (H4 : payments shop_offline !! "u-1" = None)
    by (vm_compute; reflexivity).
  repeat (split; [assumption|]).
  exact (registered_terminal_reachable 100 200 "u-1" 9%nat T1 till
           (RequestData.mk (Some 2500) None None None) shop_offline
           H1 H2 H3 H4).
Defined.

(** An [nfc_detected] message naming a stored session with no
    [completed_at]: the object the bank flow runs on is the row read back
    with method [nfc] and status [processing], and the row the flow leaves
    keeps the terminal, amount and creation time of the stored one. *)
Lemma handleNFCDetected_existing now uuid bank (ws : Conn) (v : JsVal)
    (T : ustring) (pid : string) (row0 : PaymentRow.t) (nfc : NfcData.t)
    (s : Server) :
  checkTerminalId v = Some T →
  JsMap.has T (clients s) = true →
  pid ≠ "" →
  payments s !! pid = Some row0 →
  PaymentRow.completed_at row0 = None →
  let p :=
    Payment.assign
      (Payment.mk_update (Some "nfc") (Some "processing") None None None
         (Some nfc))
      (Payment.of_row uuid pid row0) in
  ∃ s' status bank_tx error completed message calls,
    handleNFCDetected now uuid bank ws v (Some pid) nfc s
      = (Returned tt, s') ∧
    bank_flow now bank p nfc status bank_tx error completed message calls ∧
    payments s' =
      <[pid := PaymentRow.mk (PaymentRow.terminal_id row0)
                 (PaymentRow.amount row0)
                 (str_or (PaymentRow.currency row0) "RUB") "nfc"
                 status bank_tx error (PaymentRow.created_at row0)
                 completed]> (payments s) ∧
    bank_calls s' = bank_calls s ++ calls.
Proof.
  intros Hid Hreg Hne Hrow Hnull p.
  pose proof (processNFCPaymentWithBank_run now bank (Some ws) T nfc) as Hflow.
  assert (Hpid : str_or pid uuid = pid).
  { unfold str_or. by destruct (String.eqb_spec pid ""). }
  assert (Htruthy : truthy_str (Some pid) = true).
  { cbn. by destruct (String.eqb_spec pid ""). }
  unfold handleNFCDetected. rewrite Hid.
  unfold mbind at 1. unfold M_bind at 1. unfold get_state at 1.
  rewrite Hreg. simpl negb. cbv iota.
  rewrite Htruthy. unfold nfc_process. unfold_js.
  cbn -[processNFCPaymentWithBank]. rewrite Hrow.
  cbn -[processNFCPaymentWithBank]. rewrite Hnull.
  cbn -[processNFCPaymentWithBank].
  rewrite !Hpid. rewrite Hrow. cbn -[processNFCPaymentWithBank].
  match goal with |- context [processNFCPaymentWithBank _ _ _ _ _ ?f] =>
    edestruct (Hflow f) as
      (f' & st & tx & er & co & message & calls & -> & Hbf & Hp & Ho & Hc & _);
      [cbn; by rewrite ?Hnull|cbn; rewrite ?Hpid; apply lookup_insert_eq|]
  end.
  cbn in Hbf, Hp, Hc. rewrite ?Hpid in Hp. rewrite insert_insert_eq in Hp.
  exists (server f'), st, tx, er, co, message, calls.
  split; [reflexivity|]. split; [exact Hbf|]. split; [exact Hp|exact Hc].
Qed.

(** X26.  A session opened by [sendPaymentRequest] is one an
    [nfc_detected] message can work on: the message naming it is accepted,
    the bank is asked to authorize the amount of the request, and the
    session ends [completed] or [failed] with the terminal, the amount and
    the creation time it was opened with, and with method [nfc]. *)
Theorem requested_session_processed now now' uuid uuid' bank (ws : Conn)
    (v : JsVal) (T : ustring) (client : Conn) (paymentData : RequestData.t)
    (nfc : NfcData.t) (s : Server) :
  checkTerminalId v = Some T →
  JsMap.get T (clients s) = Some client →
  readyState s client = OPEN →
  payments s !! uuid = None →
  uuid ≠ "" →
  ∃ (p : Payment.t) (s1 s2 : Server) (row : PaymentRow.t)
    (d : BankPaymentData.t) (calls : list BankCall),
    sendPaymentRequest now uuid v paymentData s = (Returned p, s1) ∧
    handleNFCDetected now' uuid' bank ws v (Some uuid) nfc s1
      = (Returned tt, s2) ∧
    payments s2 = <[uuid := row]> (payments s) ∧
    PaymentRow.terminal_id row = T ∧
    PaymentRow.amount row = opt_num_or (RequestData.amount paymentData) 0 ∧
    PaymentRow.method row = "nfc" ∧
    PaymentRow.created_at row = now ∧
    (PaymentRow.status row = "completed" ∨ PaymentRow.status row = "failed") ∧
    bank_calls s2 = bank_calls s ++ CallAuthorize d :: calls ∧
    BankPaymentData.amount d = PaymentRow.amount row ∧
    BankPaymentData.paymentId d = uuid.
Proof.
  intros Hid Hget Hopen Hfresh Hne.
  destruct (sendPaymentRequest_connected_state now uuid v T client
              paymentData s Hid Hget Hopen Hfresh)
    as (p & s1 & Hsend & Hamount & _ & Hpay & _ & Hcl & _ & Hbank).
  assert (Hreg : JsMap.has T (clients s1) = true).
  { unfold JsMap.has. by rewrite Hcl, Hget. }
  assert (Hrow1 : payments s1 !! uuid
                  = Some (PaymentRow.mk T (Payment.amount p)
                            (Payment.currency p) (Payment.method p)
                            "pending" None None now None)).
  { rewrite Hpay. apply lookup_insert_eq. }
  destruct (handleNFCDetected_existing now' uuid' bank ws v T uuid _ nfc s1
              Hid Hreg Hne Hrow1 eq_refl)
    as (s2 & st & tx & er & co & message & calls & Hrun & Hflow & Hpay2
          & Hcalls).
  cbn in Hpay2. rewrite Hpay, insert_insert_eq in Hpay2.
  rewrite Hbank in Hcalls.
  match type of Hflow with bank_flow _ _ ?q0 _ _ _ _ _ _ _ =>
    set (q := q0) in * end.
  assert (Hkey : Payment.id q = uuid).
  { subst q. cbn. unfold str_or. by destruct (String.eqb_spec uuid ""). }
  assert (Hqamt : Payment.amount q = Payment.amount p) by done.
  exists p, s1, s2.
  destruct Hflow; eexists _, (bankPaymentData q nfc), _;
    (split; [exact Hsend|]); (split; [exact Hrun|]);
    (split; [exact Hpay2|]); rewrite Hcalls; cbn;
    split_and!; try done; eauto.
Qed.

Lemma requested_session_processed_witness :
  checkTerminalId (JStr T1) = Some T1 ∧
  JsMap.get T1 (clients shop) = Some 7%nat ∧
  readyState shop 7%nat = OPEN ∧
  payments shop !! "u-1" = None ∧
  "u-1" ≠ "" ∧
  ∃ (p : Payment.t) (s1 s2 : Server) (row : PaymentRow.t)
    (d : BankPaymentData.t) (calls : list BankCall),
    sendPaymentRequest 100 "u-1" (JStr T1)
      (RequestData.mk (Some 2500) None None None) shop = (Returned p, s1) ∧
    handleNFCDetected 200 "u-2" approving_bank 7%nat (JStr T1) (Some "u-1")
      no_card s1 = (Returned tt, s2) ∧
    payments s2 = <["u-1" := row]> (payments shop) ∧
    PaymentRow.terminal_id row = T1 ∧
    PaymentRow.amount row = opt_num_or (Some 2500) 0 ∧
    PaymentRow.method row = "nfc" ∧
    PaymentRow.created_at row = 100 ∧
    (PaymentRow.status row = "completed" ∨ PaymentRow.status row = "failed") ∧
    bank_calls s2 = bank_calls shop ++ CallAuthorize d :: calls ∧
    BankPaymentData.amount d = PaymentRow.amount row ∧
    BankPaymentData.paymentId d = "u-1".
Proof.
  assert (H1 : checkTerminalId (JStr T1) = Some T1) by reflexivity.
  assert (H2 : JsMap.get T1 (clients shop) = Some 7%nat) by reflexivity.
  assert (H3 : readyState shop 7%nat = OPEN) by reflexivity.
  assert (H4 : payments shop !! "u-1" = None) by (vm_compute; reflexivity).
  assert (H5 : "u-1" ≠ "") by discriminate.
  repeat (split; [assumption|]).
  exact (requested_session_processed 100 200 "u-1" "u-2" approving_bank
           7%nat (JStr T1) T1 7%nat
           (RequestData.mk (Some 2500) None None None) no_card shop
           H1 H2 H3 H4 H5).
Defined.
